(** * Custom-tools chat client: a model of [example.py] and [tools/*.py]

    The seven tool functions and the interactive chat loop are embedded as
    Rocq functions.  Python values that travel through the tools (decoded
    JSON, result dictionaries, request parameters) are values of [json];
    [dict]s keep insertion order and are association lists.  Effects are
    explicit: a tool is a computation over a [world] that holds the process
    environment, the clock, the network, and the logs of what was read and
    sent.  Exceptions are values of [exn]; [try_except] follows Python's
    handler order.

    Strings are byte strings; [Str.lower], [Str.upper] and [Str.strip] act
    on ASCII, which is where they agree with [str.lower], [str.upper] and
    [str.strip], and [Strptime.strptime] reads ASCII digits.  Where a
    statement is about every string, also beyond ASCII, the library function
    is a parameter of the definition it is stated on (the flight tool over
    [to_upper] and [parse_date]), and these functions are the instances
    that compute. *)

From Stdlib Require Import String Ascii List ZArith Lia Bool DecimalString.
Import ListNotations.
Open Scope string_scope.
Open Scope Z_scope.

(** ** Strings *)

Module Str.

Definition is_upper (c : ascii) : bool :=
  let n := nat_of_ascii c in (65 <=? n)%nat && (n <=? 90)%nat.

Definition is_lower (c : ascii) : bool :=
  let n := nat_of_ascii c in (97 <=? n)%nat && (n <=? 122)%nat.

(** One letter of [a-z] or [A-Z] to the other case; any other byte is left
    as it is, so a cased letter outside ASCII is not mapped. *)
Definition lower_char (c : ascii) : ascii :=
  if is_upper c then ascii_of_nat (nat_of_ascii c + 32) else c.

Definition upper_char (c : ascii) : ascii :=
  if is_lower c then ascii_of_nat (nat_of_ascii c - 32) else c.

Fixpoint map (f : ascii -> ascii) (s : string) : string :=
  match s with
  | EmptyString => EmptyString
  | String c s' => String (f c) (map f s')
  end.

(** [s.lower()] and [s.upper()] *)
Definition lower (s : string) : string := map lower_char s.
Definition upper (s : string) : string := map upper_char s.

(** [s.startswith(p)] *)
Definition startswith (s p : string) : bool := String.prefix p s.

(** [needle in hay] on two strings *)
Fixpoint contains (needle hay : string) : bool :=
  String.prefix needle hay ||
  match hay with
  | EmptyString => false
  | String _ hay' => contains needle hay'
  end.

(** [s.split(sep)] for a non-empty [sep]: [skip] counts the characters of a
    separator found at an earlier position that are still to be passed over,
    [cur] is the piece being collected. *)
Fixpoint split_go (sep : string) (skip : nat) (s cur : string) : list string :=
  match s with
  | EmptyString => [cur]
  | String c s' =>
      match skip with
      | S k => split_go sep k s' cur
      | O =>
          if String.prefix sep s
          then cur :: split_go sep (String.length sep - 1) s' ""
          else split_go sep 0 s' (cur ++ String c "")
      end
  end.

Definition split (sep s : string) : list string := split_go sep 0 s "".

(** [sep.join(parts)] *)
Fixpoint join (sep : string) (parts : list string) : string :=
  match parts with
  | [] => ""
  | [p] => p
  | p :: rest => p ++ sep ++ join sep rest
  end.

(** The ASCII characters [str.strip] removes; the blanks outside ASCII
    (U+00A0, U+2028, ...) are not among them. *)
Definition is_space (c : ascii) : bool :=
  let n := nat_of_ascii c in
  ((9 <=? n)%nat && (n <=? 13)%nat) || ((28 <=? n)%nat && (n <=? 32)%nat).

Fixpoint lstrip (s : string) : string :=
  match s with
  | EmptyString => EmptyString
  | String c s' => if is_space c then lstrip s' else s
  end.

Fixpoint rstrip (s : string) : string :=
  match s with
  | EmptyString => EmptyString
  | String c s' =>
      match rstrip s' with
      | EmptyString => if is_space c then EmptyString else String c EmptyString
      | t => String c t
      end
  end.

(** [s.strip()] *)
Definition strip (s : string) : string := rstrip (lstrip s).

Definition nonempty (s : string) : bool :=
  match s with EmptyString => false | _ => true end.

(** [str(n)] for an [int] *)
Definition of_Z (n : Z) : string := NilZero.string_of_int (Z.to_int n).

Definition newline : string := String (ascii_of_nat 10) "".

End Str.

(** ** Python values *)

(** A [float] is kept by what the code observes of it: its [repr] and
    whether it is zero (its truth value). *)
Record pyfloat := { float_repr : string; float_is_zero : bool }.

#[warnings="-register-all"]
Inductive json : Type :=
| JNull
| JBool (b : bool)
| JInt (n : Z)
| JFloat (f : pyfloat)
| JStr (s : string)
| JArr (l : list json)
| JObj (d : list (string * json)).

Definition dict := list (string * json).

Fixpoint dict_get (k : string) (d : dict) : option json :=
  match d with
  | [] => None
  | (k', v) :: d' => if String.eqb k k' then Some v else dict_get k d'
  end.

(** [d[k] = v]: an existing key keeps its position. *)
Fixpoint dict_set (k : string) (v : json) (d : dict) : dict :=
  match d with
  | [] => [(k, v)]
  | (k', v') :: d' =>
      if String.eqb k k' then (k, v) :: d' else (k', v') :: dict_set k v d'
  end.

Definition dict_mem (k : string) (d : dict) : bool :=
  match dict_get k d with Some _ => true | None => false end.

(** Python's truth value of an object. *)
Definition truthy (v : json) : bool :=
  match v with
  | JNull => false
  | JBool b => b
  | JInt n => negb (n =? 0)
  | JFloat f => negb (float_is_zero f)
  | JStr s => Str.nonempty s
  | JArr l => match l with [] => false | _ => true end
  | JObj d => match d with [] => false | _ => true end
  end.

Definition type_name (v : json) : string :=
  match v with
  | JNull => "NoneType"
  | JBool _ => "bool"
  | JInt _ => "int"
  | JFloat _ => "float"
  | JStr _ => "str"
  | JArr _ => "list"
  | JObj _ => "dict"
  end.

Definition opt_str (o : option string) : json :=
  match o with Some s => JStr s | None => JNull end.

(** ** Exceptions *)

Inductive exn_class :=
| RequestException        (* requests.RequestException, not one of the two below *)
| HTTPError               (* requests.HTTPError *)
| RequestsJSONDecodeError (* requests.JSONDecodeError: a RequestException and a json.JSONDecodeError *)
| JSONDecodeError         (* json.JSONDecodeError *)
| ValueError
| KeyError
| TypeError
| AttributeError
| EOFError
| OtherException.

Record exn := mkExn { exn_class_of : exn_class; exn_msg : string }.

Definition is_RequestException (e : exn) : bool :=
  match exn_class_of e with
  | RequestException | HTTPError | RequestsJSONDecodeError => true
  | _ => false
  end.

Definition is_HTTPError (e : exn) : bool :=
  match exn_class_of e with HTTPError => true | _ => false end.

Definition is_JSONDecodeError (e : exn) : bool :=
  match exn_class_of e with
  | RequestsJSONDecodeError | JSONDecodeError => true
  | _ => false
  end.

Definition is_ValueError (e : exn) : bool :=
  match exn_class_of e with
  | ValueError | RequestsJSONDecodeError | JSONDecodeError => true
  | _ => false
  end.

(** Computations that return or raise, without touching the world. *)
Definition E (A : Type) : Type := (exn + A)%type.

Definition retE {A} (a : A) : E A := inr a.
Definition raiseE {A} (c : exn_class) (msg : string) : E A := inl (mkExn c msg).
Definition bindE {A B} (m : E A) (k : A -> E B) : E B :=
  match m with inl e => inl e | inr a => k a end.

Declare Scope py_scope.
Delimit Scope py_scope with py.
Notation "x <~ m ;; k" := (bindE m (fun x => k))
  (at level 61, m at next level, right associativity) : py_scope.
Open Scope py_scope.

Fixpoint mapE {A B} (f : A -> E B) (l : list A) : E (list B) :=
  match l with
  | [] => retE []
  | x :: l' => y <~ f x ;; ys <~ mapE f l' ;; retE (y :: ys)
  end.

(** ** Dynamic operations on decoded JSON *)

(** [k in v] *)
Definition py_in (k : string) (v : json) : E bool :=
  match v with
  | JObj d => retE (dict_mem k d)
  | JArr l =>
      retE (existsb (fun x => match x with JStr s => String.eqb s k | _ => false end) l)
  | JStr s => retE (Str.contains k s)
  | _ => raiseE TypeError ("argument of type '" ++ type_name v ++ "' is not iterable")
  end.

(** [v[k]] for a string key *)
Definition py_getitem (v : json) (k : string) : E json :=
  match v with
  | JObj d =>
      match dict_get k d with
      | Some x => retE x
      | None => raiseE KeyError ("'" ++ k ++ "'")
      end
  | JArr _ => raiseE TypeError "list indices must be integers or slices, not str"
  | JStr _ => raiseE TypeError "string indices must be integers, not 'str'"
  | _ => raiseE TypeError ("'" ++ type_name v ++ "' object is not subscriptable")
  end.

(** [v.get(k, default)] *)
Definition py_get (v : json) (k : string) (default : json) : E json :=
  match v with
  | JObj d =>
      match dict_get k d with
      | Some x => retE x
      | None => retE default
      end
  | _ => raiseE AttributeError ("'" ++ type_name v ++ "' object has no attribute 'get'")
  end.

(** [v.get(k1, {}).get(k2, default)] *)
Definition py_get2 (v : json) (k1 k2 : string) (default : json) : E json :=
  inner <~ py_get v k1 (JObj []) ;; py_get inner k2 default.

(** [l[:n]] on a list *)
Definition slice_to {A} (n : Z) (l : list A) : list A :=
  if 0 <=? n then firstn (Z.to_nat n) l
  else firstn (Z.to_nat (Z.of_nat (length l) + n)) l.

Fixpoint chars (s : string) : list string :=
  match s with
  | EmptyString => []
  | String c s' => String c "" :: chars s'
  end.

(** [v[:n]] *)
Definition py_slice_to (v : json) (n : Z) : E json :=
  match v with
  | JArr l => retE (JArr (slice_to n l))
  | JStr s => retE (JStr (String.concat "" (slice_to n (chars s))))
  | JObj _ => raiseE TypeError "unhashable type: 'slice'"
  | _ => raiseE TypeError ("'" ++ type_name v ++ "' object is not subscriptable")
  end.

(** The items a [for] loop over [v] visits. *)
Definition py_iter (v : json) : E (list json) :=
  match v with
  | JArr l => retE l
  | JStr s => retE (List.map JStr (chars s))
  | JObj d => retE (List.map (fun kv => JStr (fst kv)) d)
  | _ => raiseE TypeError ("'" ++ type_name v ++ "' object is not iterable")
  end.

(** ** Dates: [datetime.date] and [datetime.strptime(s, "%Y-%m-%d")] *)

Record date := mkDate { year : Z; month : Z; day : Z }.

(** [a < b] on dates *)
Definition date_ltb (a b : date) : bool :=
  (year a <? year b)
  || ((year a =? year b)
      && ((month a <? month b) || ((month a =? month b) && (day a <? day b)))).

Definition is_leap (y : Z) : bool :=
  ((y mod 4 =? 0) && negb (y mod 100 =? 0)) || (y mod 400 =? 0).

Definition days_in_month (y m : Z) : Z :=
  if m =? 2 then (if is_leap y then 29 else 28)
  else if (m =? 4) || (m =? 6) || (m =? 9) || (m =? 11) then 30
  else 31.

(** The parser on ASCII text.  The library's [\d] also reads the decimal
    digits of other scripts; those are outside this instance. *)
Module Strptime.

Definition digit (c : ascii) : option Z :=
  let n := nat_of_ascii c in
  if (48 <=? n)%nat && (n <=? 57)%nat then Some (Z.of_nat n - 48) else None.

Definition in_range (lo hi : Z) (c : ascii) : option Z :=
  match digit c with
  | Some v => if (lo <=? v) && (v <=? hi) then Some v else None
  | None => None
  end.

(** The directive [%Y]: four digits. *)
Definition match_Y (s : string) : option (Z * string) :=
  match s with
  | String a (String b (String c (String d rest))) =>
      match digit a, digit b, digit c, digit d with
      | Some a, Some b, Some c, Some d => Some (1000 * a + 100 * b + 10 * c + d, rest)
      | _, _, _, _ => None
      end
  | _ => None
  end.

(** One alternative made of two characters, the first one in [l1..h1] (or a
    space when [sp]) and the second in [l2..h2]. *)
Definition two (sp : bool) (l1 h1 l2 h2 : Z) (s : string) : list (Z * string) :=
  match s with
  | String a (String b rest) =>
      match (if sp then (if Ascii.eqb a " " then Some 0 else None) else in_range l1 h1 a),
            in_range l2 h2 b with
      | Some x, Some y => [(10 * x + y, rest)]
      | _, _ => []
      end
  | _ => []
  end.

Definition one (lo hi : Z) (s : string) : list (Z * string) :=
  match s with
  | String a rest =>
      match in_range lo hi a with Some x => [(x, rest)] | None => [] end
  | _ => []
  end.

(** The directive [%m] is the regular expression [1[0-2]|0[1-9]|[1-9]];
    the alternatives that match, in the order the matcher tries them. *)
Definition match_m (s : string) : list (Z * string) :=
  two false 1 1 0 2 s ++ two false 0 0 1 9 s ++ one 1 9 s.

(** The directive [%d] is [3[0-1]|[1-2]\d|0[1-9]|[1-9]| [1-9]]. *)
Definition match_d (s : string) : list (Z * string) :=
  two false 3 3 0 1 s ++ two false 1 2 0 9 s ++ two false 0 0 1 9 s
  ++ one 1 9 s ++ two true 0 0 1 9 s.

Fixpoint first_some {A B} (f : A -> option B) (l : list A) : option B :=
  match l with
  | [] => None
  | x :: l' => match f x with Some y => Some y | None => first_some f l' end
  end.

(** The first match of [%Y-%m-%d] at the start of [s], and what is left. *)
Definition regex_match (s : string) : option (Z * Z * Z * string) :=
  match match_Y s with
  | Some (y, String "-" s1) =>
      first_some
        (fun ms =>
           match snd ms with
           | String "-" s3 =>
               match match_d s3 with
               | (d, rest) :: _ => Some (y, fst ms, d, rest)
               | [] => None
               end
           | _ => None
           end)
        (match_m s1)
  | _ => None
  end.

(** [datetime.strptime(s, "%Y-%m-%d").date()]: the text must match as a
    whole and name a day of the calendar, otherwise [ValueError]. *)
Definition strptime (s : string) : E date :=
  match regex_match s with
  | Some (y, m, d, EmptyString) =>
      if y =? 0 then raiseE ValueError "year 0 is out of range"
      else if d <=? days_in_month y m then retE (mkDate y m d)
      else raiseE ValueError "day is out of range for month"
  | Some (_, _, _, rest) => raiseE ValueError ("unconverted data remains: " ++ rest)
  | None =>
      raiseE ValueError ("time data '" ++ s ++ "' does not match format '%Y-%m-%d'")
  end.

End Strptime.

(** ** The world a tool runs in *)

(** An outbound [requests.get(url, params=..., headers=..., timeout=...)]. *)
Record request := mkRequest {
  req_url : string;
  req_params : dict;
  req_headers : list (string * string);
  req_timeout : option Z
}.

Record meta_tag := { meta_name : option string; meta_property : option string;
                     meta_content : option string }.
Record anchor := { a_href : string; a_text : string }.

(** What the code observes of [BeautifulSoup(response.text, 'html.parser')]:
    [soup.title] and its [.string], [get_text(separator='\n', strip=True)]
    once the script and style elements are extracted, [find_all('meta')] and
    [find_all('a', href=True)] with each link's [get_text(strip=True)]. *)
Record soup := {
  soup_title : option (option string);
  soup_text : string;
  soup_metas : list meta_tag;
  soup_anchors : list anchor
}.

(** A [requests.Response].  [requests.get] follows redirects, so the reply
    a tool sees may be the last of several: [redirects] counts the ones
    before it and [final_url] is the address it came from. *)
Record response := mkResponse {
  status_code : Z;
  reason : string;
  text : string;
  content_length : Z;                  (* len(response.content) *)
  headers : list (string * string);
  json_body : E json;                  (* response.json() *)
  html : E soup;                       (* BeautifulSoup(response.text, 'html.parser') *)
  final_url : string;                  (* response.url *)
  redirects : nat                      (* len(response.history) *)
}.


(** Module-level names bound by [example.py]. *)
Record globals := mkGlobals {
  BASE_URL : option string;
  API_KEY : string;
  MODEL_NAME : string
}.

Record world := mkWorld {
  os_environ : list (string * string);   (* after load_dotenv() *)
  clock_today : date;                    (* date.today() *)
  network : request -> E response;       (* what requests.get meets *)
  sent : list request;                   (* calls of requests.get so far, oldest first *)
  env_reads : list string;               (* names looked up in the environment *)
  module_state : option globals          (* None until example.py has bound them *)
}.

Fixpoint env_lookup (k : string) (env : list (string * string)) : option string :=
  match env with
  | [] => None
  | (k', v) :: env' => if String.eqb k k' then Some v else env_lookup k env'
  end.

(** Computations that return or raise and may read and write the world. *)
Definition M (A : Type) : Type := world -> E A * world.

Definition ret {A} (a : A) : M A := fun w => (inr a, w).
Definition raise {A} (e : exn) : M A := fun w => (inl e, w).
Definition bind {A B} (m : M A) (k : A -> M B) : M B :=
  fun w => match m w with
           | (inl e, w') => (inl e, w')
           | (inr a, w') => k a w'
           end.
Definition lift {A} (m : E A) : M A := fun w => (m, w).

(** [try: m  except Exception as e: h e] *)
Definition try_except {A} (m : M A) (h : exn -> M A) : M A :=
  fun w => match m w with
           | (inl e, w') => h e w'
           | (inr a, w') => (inr a, w')
           end.

Notation "x <- m ;; k" := (bind m (fun x => k))
  (at level 61, m at next level, right associativity) : py_scope.

(** The world once [name] has been looked up in the environment. *)
Definition after_read (name : string) (w : world) : world :=
  mkWorld (os_environ w) (clock_today w) (network w) (sent w)
          (env_reads w ++ [name]) (module_state w).

(** The world once the request [r] has left. *)
Definition after_send (r : request) (w : world) : world :=
  mkWorld (os_environ w) (clock_today w) (network w) (sent w ++ [r])
          (env_reads w) (module_state w).

(** [os.environ.get(name)] and [os.getenv(name)] *)
Definition os_getenv (name : string) : M (option string) :=
  fun w => (inr (env_lookup name (os_environ w)), after_read name w).

(** [date.today()] *)
Definition date_today : M date := fun w => (inr (clock_today w), w).

(** [requests.get(...)]: the request leaves, then the network answers or the
    call raises. *)
Definition requests_get (r : request) : M response :=
  fun w => (network w r, after_send r w).

(** [response.raise_for_status()]: [HTTPError] for a 4xx or 5xx status. *)
Definition raise_for_status (r : response) : E unit :=
  if (400 <=? status_code r) && (status_code r <? 500) then
    raiseE HTTPError (Str.of_Z (status_code r) ++ " Client Error: " ++ reason r
                      ++ " for url: " ++ final_url r)
  else if (500 <=? status_code r) && (status_code r <? 600) then
    raiseE HTTPError (Str.of_Z (status_code r) ++ " Server Error: " ++ reason r
                      ++ " for url: " ++ final_url r)
  else retE tt.

(** [not api_key] for the value of [os.environ.get] *)
Definition missing (v : option string) : bool :=
  match v with Some s => negb (Str.nonempty s) | None => true end.

Definition error_dict (msg : string) : json :=
  JObj [("status", JStr "error"); ("error", JStr msg)].

(** ** Patterns the tools share *)

(** [if k_src in src: result[k_dst] = src[k_src]] *)
Definition copy_if_present (src : json) (k_src k_dst : string) (result : dict) : E dict :=
  has <~ py_in k_src src ;;
  if has then v <~ py_getitem src k_src ;; retE (dict_set k_dst v result)
  else retE result.

(** [result["search_metadata"] = {"id": ..., "status": ..., "total_time_taken": ...,
    "engine": engine}], each field read by
    [search_results.get("search_metadata", {}).get(field, default)] *)
Definition set_search_metadata (search_results : json) (engine : string)
    (result : dict) : E dict :=
  id <~ py_get2 search_results "search_metadata" "id" (JStr "") ;;
  st <~ py_get2 search_results "search_metadata" "status" (JStr "") ;;
  tt <~ py_get2 search_results "search_metadata" "total_time_taken" (JInt 0) ;;
  retE (dict_set "search_metadata"
          (JObj [("id", id); ("status", st); ("total_time_taken", tt);
                 ("engine", JStr engine)]) result).

(** The three [except] clauses that close each SerpAPI tool, in their order. *)
Definition serp_handlers (what : string) (e : exn) : M json :=
  if is_RequestException e then
    ret (error_dict ("Network error occurred: " ++ exn_msg e))
  else if is_JSONDecodeError e then
    ret (error_dict "Failed to parse the search results.")
  else ret (error_dict ("Error during " ++ what ++ ": " ++ exn_msg e)).

Definition serp_base_url : string := "https://serpapi.com/search".

Definition serp_failed (r : response) : json :=
  error_dict ("SerpAPI request failed with status code " ++ Str.of_Z (status_code r)
              ++ ": " ++ text r).

Definition key_missing (tool : string) : json :=
  error_dict ("SERPAPI_API_KEY not found in environment variables. "
              ++ "Please set this variable to use " ++ tool ++ ".").

Definition api_key_of (v : option string) : string :=
  match v with Some s => s | None => "" end.

(** ** tools/geocoding.py *)

Definition geocode_url (city_name : string) : string :=
  "https://geocoding-api.open-meteo.com/v1/search?name=" ++ city_name
  ++ "&count=10&language=en&format=json".

Definition http_error_dict (e : exn) : json :=
  JObj [("error", JStr ("HTTP error occurred: " ++ exn_msg e))].

Definition other_error_dict (e : exn) : json :=
  JObj [("error", JStr ("Other error occurred: " ++ exn_msg e))].

Definition geocode (city_name : string) : M json :=
  let url := geocode_url city_name in
  try_except
    (response <- requests_get (mkRequest url [] [] None) ;;
     lift (_ <~ raise_for_status response ;;
           data <~ json_body response ;;
           has <~ py_in "results" data ;;
           if negb has
           then retE (JObj [("error", JStr "No results found for the given city")])
           else retE data))
    (fun e => if is_HTTPError e then ret (http_error_dict e)
              else ret (other_error_dict e)).

(** ** tools/weather.py *)

Definition weather_url (latitude longitude : pyfloat) : string :=
  "https://api.open-meteo.com/v1/forecast?latitude=" ++ float_repr latitude
  ++ "&longitude=" ++ float_repr longitude
  ++ "&current=temperature_2m,is_day,precipitation,rain,showers,snowfall"
  ++ "&timezone=America%2FChicago".

Definition get_weather (latitude longitude : pyfloat) : M json :=
  let url := weather_url latitude longitude in
  try_except
    (response <- requests_get (mkRequest url [] [] None) ;;
     lift (_ <~ raise_for_status response ;;
           json_body response))
    (fun e => if is_HTTPError e then ret (http_error_dict e)
              else ret (other_error_dict e)).

(** ** tools/web_fetch.py *)

Definition user_agent : string :=
  "Mozilla/5.0 (Windows NT 10.0; Win64; x64) AppleWebKit/537.36 (KHTML, like Gecko) Chrome/91.0.4472.124 Safari/537.36".

(** [response.headers.get(name, '')]: header names compare without case. *)
Fixpoint header_get (name : string) (hs : list (string * string)) : string :=
  match hs with
  | [] => ""
  | (k, v) :: hs' =>
      if String.eqb (Str.lower k) (Str.lower name) then v else header_get name hs'
  end.

Definition headers_dict (hs : list (string * string)) : json :=
  JObj (fold_left (fun d kv => dict_set (fst kv) (JStr (snd kv)) d) hs []).

(** [lines = [line.strip() for line in text.split('\n')]] and
    ['\n'.join(line for line in lines if line)] *)
Definition clean_text (t : string) : string :=
  let lines := List.map Str.strip (Str.split Str.newline t) in
  Str.join Str.newline (filter Str.nonempty lines).

Definition opt_truthy (o : option string) : bool :=
  match o with Some s => Str.nonempty s | None => false end.

(** [meta_tags]: [name = meta.get('name') or meta.get('property')], kept
    when [name and content]. *)
Definition add_meta (d : dict) (m : meta_tag) : dict :=
  let name := if opt_truthy (meta_name m) then meta_name m else meta_property m in
  match name, meta_content m with
  | Some n, Some c =>
      if Str.nonempty n && Str.nonempty c then dict_set n (JStr c) d else d
  | _, _ => d
  end.

Definition keep_link (a : anchor) : bool :=
  Str.nonempty (a_href a)
  && negb (Str.startswith (a_href a) "#")
  && negb (Str.startswith (a_href a) "javascript:").

Definition link_entry (a : anchor) : json :=
  JObj [("href", JStr (a_href a));
        ("text", if Str.nonempty (a_text a) then JStr (a_text a) else JNull)].

Definition fetch_links (s : soup) : list json :=
  firstn 100 (List.map link_entry (filter keep_link (soup_anchors s))).

(** The part of [web_fetch] after the status test.  The parser is run only
    when the text is asked for and the reply is HTML; when it raises, so
    does this part. *)
Definition fetch_result (url : string) (extract_text : bool) (r : response) : E json :=
  let content_type := header_get "Content-Type" (headers r) in
  let is_html := Str.contains "text/html" (Str.lower content_type) in
  let result : dict :=
    [("status", JStr "success"); ("url", JStr url);
     ("content_type", JStr content_type); ("size", JInt (content_length r));
     ("headers", headers_dict (headers r))] in
  if extract_text && is_html then
    s <~ html r ;;
    let title := match soup_title s with Some t => opt_str t | None => JStr "" end in
    let result := dict_set "title" title result in
    let result := dict_set "text_content" (JStr (clean_text (soup_text s))) result in
    let result := dict_set "meta_tags" (JObj (fold_left add_meta (soup_metas s) [])) result in
    retE (JObj (dict_set "links" (JArr (fetch_links s)) result))
  else retE (JObj (dict_set "raw_content" (JStr (text r)) result)).

Definition web_fetch (url : string) (extract_text : bool) : M json :=
  try_except
    (response <- requests_get (mkRequest url [] [("User-Agent", user_agent)] (Some 10)) ;;
     if negb (status_code response =? 200) then
       ret (error_dict ("Request failed with status code "
                        ++ Str.of_Z (status_code response) ++ ": " ++ text response))
     else lift (fetch_result url extract_text response))
    (fun e => if is_RequestException e then
                ret (error_dict ("Network error occurred: " ++ exn_msg e))
              else ret (error_dict ("Error during web fetch: " ++ exn_msg e))).

(** ** tools/web_search.py *)

Definition time_map : list (string * string) :=
  [("past_day", "d"); ("past_week", "w"); ("past_month", "m"); ("past_year", "y")].

Definition web_search_params (query api_key : string) (num_results : Z)
    (time_period : string) : dict :=
  let params : dict :=
    [("q", JStr query); ("api_key", JStr api_key);
     ("num", JInt (Z.min num_results 100)); ("safe", JStr "active");
     ("gl", JStr "us"); ("hl", JStr "en")] in
  if Str.nonempty time_period then
    match env_lookup time_period time_map with
    | Some t => dict_set "tbs" (JStr ("qdr:" ++ t)) params
    | None => params
    end
  else params.

Definition organic_row (item : json) : E json :=
  title <~ py_get item "title" (JStr "") ;;
  link <~ py_get item "link" (JStr "") ;;
  snippet <~ py_get item "snippet" (JStr "") ;;
  position <~ py_get item "position" (JInt 0) ;;
  displayed <~ py_get item "displayed_link" (JStr "") ;;
  retE (JObj [("title", title); ("link", link); ("snippet", snippet);
              ("position", position); ("displayed_link", displayed)]).

(** [for item in src[key][:n]: result[dst].append(row item)], run when
    [key in src]. *)
Definition collect_sliced (src : json) (key : string) (n : Z) (row : json -> E json)
    (dst : string) (result : dict) : E dict :=
  has <~ py_in key src ;;
  if has then
    all <~ py_getitem src key ;;
    part <~ py_slice_to all n ;;
    items <~ py_iter part ;;
    rows <~ mapE row items ;;
    retE (dict_set dst (JArr rows) result)
  else retE result.

(** [if include_news and "news_results" in search_results:
       result["news"] = search_results["news_results"][:num_results]] *)
Definition add_news (search_results : json) (num_results : Z) (include_news : bool)
    (result : dict) : E dict :=
  if include_news then
    has <~ py_in "news_results" search_results ;;
    if has then
      news <~ py_getitem search_results "news_results" ;;
      part <~ py_slice_to news num_results ;;
      retE (dict_set "news" part result)
    else retE result
  else retE result.

Definition web_search_result (query : string) (num_results : Z) (include_news : bool)
    (search_results : json) : E json :=
  let result : dict :=
    [("status", JStr "success"); ("query", JStr query); ("organic_results", JArr [])] in
  result <~ collect_sliced search_results "organic_results" num_results organic_row
              "organic_results" result ;;
  result <~ copy_if_present search_results "answer_box" "answer_box" result ;;
  result <~ copy_if_present search_results "knowledge_graph" "knowledge_graph" result ;;
  result <~ copy_if_present search_results "related_questions" "related_questions" result ;;
  result <~ add_news search_results num_results include_news result ;;
  result <~ copy_if_present search_results "pagination" "pagination" result ;;
  result <~ set_search_metadata search_results "Google" result ;;
  retE (JObj result).

Definition web_search (query : string) (num_results : option Z)
    (include_news : option bool) (time_period : option string) : M json :=
  let num_results := match num_results with Some n => n | None => 10 end in
  let include_news := match include_news with Some b => b | None => false end in
  let time_period := match time_period with Some t => t | None => "past_year" end in
  try_except
    (api_key <- os_getenv "SERPAPI_API_KEY" ;;
     if missing api_key then ret (key_missing "web search")
     else
       let params := web_search_params query (api_key_of api_key) num_results time_period in
       response <- requests_get (mkRequest serp_base_url params [] None) ;;
       if negb (status_code response =? 200) then ret (serp_failed response)
       else lift (search_results <~ json_body response ;;
                  web_search_result query num_results include_news search_results))
    (serp_handlers "web search").

(** [for item in src[key]: result[dst].append(row item)], run when [key in src]. *)
Definition collect_all (src : json) (key : string) (row : json -> E json)
    (dst : string) (result : dict) : E dict :=
  has <~ py_in key src ;;
  if has then
    all <~ py_getitem src key ;;
    items <~ py_iter all ;;
    rows <~ mapE row items ;;
    retE (dict_set dst (JArr rows) result)
  else retE result.

(** ** tools/youtube_search.py *)

(** [params["sp"] += "," + p] when ["sp" in params], else [params["sp"] = p] *)
Definition add_sp (p : string) (params : dict) : dict :=
  match dict_get "sp" params with
  | Some (JStr s) => dict_set "sp" (JStr (s ++ "," ++ p)) params
  | _ => dict_set "sp" (JStr p) params
  end.

Definition upload_date_filters : list (string * string) :=
  [("last_hour", "EgIIAQ%253D%253D"); ("today", "EgQIAhAB"); ("this_week", "EgQIAxAB");
   ("this_month", "EgQIBBAB"); ("this_year", "EgQIBRAB")].

Definition duration_filters : list (string * string) :=
  [("short", "EgQQARgB"); ("medium", "EgQQARgC"); ("long", "EgQQARgD")].

Definition add_filter (table : list (string * string)) (choice : option string)
    (params : dict) : dict :=
  match choice with
  | Some c =>
      if Str.nonempty c then
        match env_lookup c table with
        | Some p => add_sp p params
        | None => params
        end
      else params
  | None => params
  end.

Definition youtube_params (query api_key : string) (num_results : Z) (sort_by : string)
    (upload_date duration : option string) : dict :=
  let params : dict :=
    [("search_query", JStr query); ("api_key", JStr api_key); ("engine", JStr "youtube");
     ("num", JInt (Z.min num_results 100)); ("gl", JStr "us"); ("hl", JStr "en");
     ("safe", JStr "active")] in
  let params :=
    if String.eqb sort_by "relevance" then params
    else if String.eqb sort_by "upload_date" then dict_set "sp" (JStr "CAI%253D") params
    else if String.eqb sort_by "view_count" then dict_set "sp" (JStr "CAM%253D") params
    else if String.eqb sort_by "rating" then dict_set "sp" (JStr "CAE%253D") params
    else params in
  let params := add_filter upload_date_filters upload_date params in
  add_filter duration_filters duration params.

(** [item.get(k1, {}).get(k2, "") if item.get(k1) else ""] *)
Definition get2_if_truthy (item : json) (k1 k2 : string) : E json :=
  probe <~ py_get item k1 JNull ;;
  if truthy probe then py_get2 item k1 k2 (JStr "") else retE (JStr "").

(** [link.split("v=")[1].split("&")[0]] *)
Definition video_id_of (link : json) : E json :=
  match link with
  | JStr s =>
      let after := nth 1 (Str.split "v=" s) "" in
      retE (JStr (nth 0 (Str.split "&" after) ""))
  | _ => raiseE AttributeError ("'" ++ type_name link ++ "' object has no attribute 'split'")
  end.

Definition video_row (item : json) : E json :=
  title <~ py_get item "title" (JStr "") ;;
  link <~ py_get item "link" (JStr "") ;;
  thumbnail <~ get2_if_truthy item "thumbnail" "static" ;;
  ch_name <~ get2_if_truthy item "channel" "name" ;;
  ch_link <~ get2_if_truthy item "channel" "link" ;;
  published <~ py_get item "published_date" (JStr "") ;;
  views <~ py_get item "views" (JStr "") ;;
  duration <~ py_get item "duration_text" (JStr "") ;;
  description <~ py_get item "description" (JStr "") ;;
  extensions <~ py_get item "extensions" (JArr []) ;;
  let video_info : dict :=
    [("title", title); ("link", link); ("thumbnail", thumbnail);
     ("channel", JObj [("name", ch_name); ("link", ch_link)]);
     ("published_date", published); ("views", views); ("duration", duration);
     ("description", description); ("extensions", extensions)] in
  has_link <~ py_in "link" item ;;
  if has_link then
    l <~ py_getitem item "link" ;;
    has_v <~ py_in "v=" l ;;
    if has_v then
      vid <~ video_id_of l ;;
      retE (JObj (dict_set "video_id" vid video_info))
    else retE (JObj video_info)
  else retE (JObj video_info).

Definition youtube_result (query : string) (num_results : Z) (search_results : json)
    : E json :=
  let result : dict :=
    [("status", JStr "success"); ("query", JStr query); ("videos", JArr [])] in
  result <~ collect_sliced search_results "video_results" num_results video_row
              "videos" result ;;
  result <~ copy_if_present search_results "related_searches" "related_searches" result ;;
  total <~ py_get2 search_results "search_information" "total_results" (JStr "") ;;
  taken <~ py_get2 search_results "search_information" "time_taken_displayed" (JStr "") ;;
  let result :=
    dict_set "search_information"
      (JObj [("total_results", total); ("time_taken_displayed", taken)]) result in
  result <~ set_search_metadata search_results "YouTube" result ;;
  retE (JObj result).

Definition youtube_search (query : string) (num_results : Z) (sort_by : string)
    (upload_date duration : option string) : M json :=
  try_except
    (api_key <- os_getenv "SERPAPI_API_KEY" ;;
     if missing api_key then ret (key_missing "YouTube search")
     else
       let params :=
         youtube_params query (api_key_of api_key) num_results sort_by upload_date duration in
       response <- requests_get (mkRequest serp_base_url params [] None) ;;
       if negb (status_code response =? 200) then ret (serp_failed response)
       else lift (search_results <~ json_body response ;;
                  youtube_result query num_results search_results))
    (serp_handlers "YouTube search").

(** ** tools/scholar_search.py *)

Definition scholar_date_filters : list (string * string) :=
  [("since_2023", "2023"); ("since_2020", "2020"); ("since_2017", "2017");
   ("since_2014", "2014")].

Definition scholar_params (query api_key : string) (num_results : Z) (sort_by : string)
    (publication_date author : option string) : dict :=
  let params : dict :=
    [("q", JStr query); ("api_key", JStr api_key); ("engine", JStr "google_scholar");
     ("num", JInt (Z.min num_results 20)); ("hl", JStr "en")] in
  let params :=
    match author with
    | Some a => if Str.nonempty a then dict_set "as_user" (JStr a) params else params
    | None => params
    end in
  let params :=
    if String.eqb sort_by "date" then dict_set "as_sdt" (JStr "0,5") params else params in
  match publication_date with
  | Some p =>
      if Str.nonempty p then
        match env_lookup p scholar_date_filters with
        | Some y => dict_set "as_ylo" (JStr y) params
        | None => params
        end
      else params
  | None => params
  end.

(** [{"total": box.get("total", 0), "link": box.get("link", "")}] for
    [box = item["inline_links"][key]] *)
Definition inline_link_summary (item : json) (key : string) : E json :=
  links <~ py_getitem item "inline_links" ;;
  box <~ py_getitem links key ;;
  total <~ py_get box "total" (JInt 0) ;;
  links' <~ py_getitem item "inline_links" ;;
  box' <~ py_getitem links' key ;;
  link <~ py_get box' "link" (JStr "") ;;
  retE (JObj [("total", total); ("link", link)]).

(** The loop over [item["resources"]], left at the first resource titled
    "PDF". *)
Fixpoint first_pdf (resources : list json) : E (option json) :=
  match resources with
  | [] => retE None
  | resource :: rest =>
      title <~ py_get resource "title" JNull ;;
      match title with
      | JStr t =>
          if String.eqb t "PDF" then
            link <~ py_get resource "link" (JStr "") ;; retE (Some link)
          else first_pdf rest
      | _ => first_pdf rest
      end
  end.

Definition paper_row (item : json) : E json :=
  title <~ py_get item "title" (JStr "") ;;
  link <~ py_get item "link" (JStr "") ;;
  snippet <~ py_get item "snippet" (JStr "") ;;
  pub <~ py_get item "publication_info" (JObj []) ;;
  let paper_info : dict :=
    [("title", title); ("link", link); ("snippet", snippet); ("publication_info", pub)] in
  paper_info <~ copy_if_present item "authors" "authors" paper_info ;;
  has_inline <~ py_in "inline_links" item ;;
  paper_info <~ (if has_inline then
                   links <~ py_getitem item "inline_links" ;;
                   has_cited <~ py_in "cited_by" links ;;
                   if has_cited then
                     c <~ inline_link_summary item "cited_by" ;;
                     retE (dict_set "cited_by" c paper_info)
                   else retE paper_info
                 else retE paper_info) ;;
  inline <~ py_get item "inline_links" (JObj []) ;;
  has_versions <~ py_in "versions" inline ;;
  paper_info <~ (if has_versions then
                   v <~ inline_link_summary item "versions" ;;
                   retE (dict_set "versions" v paper_info)
                 else retE paper_info) ;;
  has_resources <~ py_in "resources" item ;;
  paper_info <~ (if has_resources then
                   all <~ py_getitem item "resources" ;;
                   resources <~ py_iter all ;;
                   pdf <~ first_pdf resources ;;
                   match pdf with
                   | Some l => retE (dict_set "pdf_link" l paper_info)
                   | None => retE paper_info
                   end
                 else retE paper_info) ;;
  retE (JObj paper_info).

Definition scholar_result (query : string) (search_results : json) : E json :=
  let result : dict :=
    [("status", JStr "success"); ("query", JStr query); ("organic_results", JArr []);
     ("citation_results", JArr []); ("profiles", JArr []); ("related_searches", JArr [])] in
  result <~ collect_all search_results "organic_results" paper_row "organic_results" result ;;
  result <~ copy_if_present search_results "citations" "citation_results" result ;;
  result <~ copy_if_present search_results "profiles" "profiles" result ;;
  result <~ copy_if_present search_results "related_searches" "related_searches" result ;;
  result <~ copy_if_present search_results "pagination" "pagination" result ;;
  result <~ set_search_metadata search_results "Google Scholar" result ;;
  retE (JObj result).

Definition scholar_search (query : string) (num_results : Z) (sort_by : string)
    (publication_date author : option string) : M json :=
  try_except
    (api_key <- os_getenv "SERPAPI_API_KEY" ;;
     if missing api_key then ret (key_missing "Google Scholar search")
     else
       let params :=
         scholar_params query (api_key_of api_key) num_results sort_by publication_date author in
       response <- requests_get (mkRequest serp_base_url params [] None) ;;
       if negb (status_code response =? 200) then ret (serp_failed response)
       else lift (search_results <~ json_body response ;;
                  scholar_result query search_results))
    (serp_handlers "Google Scholar search").

(** ** tools/google_flights.py *)

Definition class_mapping : list (string * string) :=
  [("economy", "ECONOMY"); ("premium_economy", "PREMIUM_ECONOMY");
   ("business", "BUSINESS"); ("first", "FIRST")].

(** The flight tool hands its arguments to two functions of the library,
    [str.upper] and [datetime.strptime(_, "%Y-%m-%d").date()].  The
    definitions of this section take them as [to_upper] and [parse_date]:
    what is proved of [google_flights_search_with] holds for the library as
    it is, on every string, whatever letters [upper] maps and whatever
    digits [strptime] reads.  [Str.upper] and [Strptime.strptime] are the
    instances that compute; they agree with the library on ASCII text. *)
Section FlightLibrary.

Variable to_upper : string -> string.
Variable parse_date : string -> E date.

(** The date checks of the inner [try]: [Some d] is the dictionary returned
    at once, [None] lets the search go on. *)
Definition check_dates_with (departure_date : string) (return_date : option string)
    : M (option json) :=
  try_except
    (departure <- lift (parse_date departure_date) ;;
     today <- date_today ;;
     if date_ltb departure today then
       ret (Some (error_dict ("Departure date " ++ departure_date
                              ++ " is in the past. Please provide a future date.")))
     else
       match return_date with
       | Some rd =>
           if Str.nonempty rd then
             return_day <- lift (parse_date rd) ;;
             if date_ltb return_day departure then
               ret (Some (error_dict ("Return date " ++ rd
                                      ++ " cannot be before departure date "
                                      ++ departure_date ++ ".")))
             else ret None
           else ret None
       | None => ret None
       end)
    (fun e => if is_ValueError e then
                ret (Some (error_dict "Invalid date format. Please use YYYY-MM-DD format."))
              else raise e).

Definition flights_params_with (api_key origin destination departure_date : string)
    (return_date : option string) (adults children infants : Z) (stops : option string)
    (flight_class : string) (max_price : option Z) (currency : string)
    (airlines : option (list string)) : dict :=
  let params : dict :=
    [("engine", JStr "google_flights"); ("api_key", JStr api_key);
     ("departure_id", JStr (to_upper origin));
     ("arrival_id", JStr (to_upper destination));
     ("outbound_date", JStr departure_date); ("currency", JStr currency);
     ("adults", JInt adults)] in
  let params :=
    match return_date with
    | Some rd => if Str.nonempty rd then dict_set "return_date" (JStr rd) params else params
    | None => params
    end in
  let params := if 0 <? children then dict_set "children" (JInt children) params else params in
  let params :=
    if 0 <? infants then dict_set "infants_in_seat" (JInt infants) params else params in
  let params :=
    match env_lookup flight_class class_mapping with
    | Some c => dict_set "flight_class" (JStr c) params
    | None => params
    end in
  let params :=
    match stops with
    | Some s =>
        if String.eqb s "nonstop" then dict_set "max_stops" (JInt 0) params
        else if String.eqb s "1stop" then dict_set "max_stops" (JInt 1) params
        else if String.eqb s "2stops" then dict_set "max_stops" (JInt 2) params
        else params
    | None => params
    end in
  let params :=
    match max_price with
    | Some p => if p =? 0 then params else dict_set "price_max" (JInt p) params
    | None => params
    end in
  match airlines with
  | Some (a :: rest) => dict_set "airlines" (JStr (Str.join "," (a :: rest))) params
  | _ => params
  end.

(** The fields both flight lists carry, [price] to [layovers]. *)
Definition flight_common (flight : json) : E dict :=
  price <~ py_get flight "price" (JStr "") ;;
  duration <~ py_get flight "duration" (JStr "") ;;
  dep_airport <~ py_get2 flight "departure" "airport" (JStr "") ;;
  dep_time <~ py_get2 flight "departure" "time" (JStr "") ;;
  arr_airport <~ py_get2 flight "arrival" "airport" (JStr "") ;;
  arr_time <~ py_get2 flight "arrival" "time" (JStr "") ;;
  airline <~ py_get flight "airline" (JStr "") ;;
  stops <~ py_get flight "stops" (JInt 0) ;;
  layovers <~ py_get flight "layovers" (JArr []) ;;
  retE [("price", price); ("duration", duration);
        ("departure", JObj [("airport", dep_airport); ("time", dep_time)]);
        ("arrival", JObj [("airport", arr_airport); ("time", arr_time)]);
        ("airline", airline); ("stops", stops); ("layovers", layovers)].

Definition best_flight_row (flight : json) : E json :=
  flight_type <~ py_get flight "flight_type" (JStr "") ;;
  common <~ flight_common flight ;;
  emissions <~ py_get flight "carbon_emissions" (JStr "") ;;
  retE (JObj ((("flight_type", flight_type) :: common)
              ++ [("carbon_emissions", emissions)])).

Definition other_flight_row (flight : json) : E json :=
  common <~ flight_common flight ;;
  retE (JObj common).

Definition flights_result_with (origin destination departure_date : string)
    (return_date : option string) (search_results : json) : E json :=
  let result : dict :=
    [("status", JStr "success"); ("origin", JStr (to_upper origin));
     ("destination", JStr (to_upper destination));
     ("departure_date", JStr departure_date); ("return_date", opt_str return_date);
     ("best_flights", JArr []); ("other_flights", JArr []);
     ("airlines_information", JArr []); ("price_insights", JObj [])] in
  result <~ collect_all search_results "best_flights" best_flight_row "best_flights" result ;;
  result <~ collect_all search_results "other_flights" other_flight_row "other_flights" result ;;
  result <~ copy_if_present search_results "airlines_information" "airlines_information" result ;;
  result <~ copy_if_present search_results "price_insights" "price_insights" result ;;
  result <~ set_search_metadata search_results "Google Flights" result ;;
  retE (JObj result).

Definition google_flights_search_with (origin destination departure_date : string)
    (return_date : option string) (adults children infants : Z) (stops : option string)
    (flight_class : string) (max_price : option Z) (currency : string)
    (airlines : option (list string)) : M json :=
  try_except
    (api_key <- os_getenv "SERPAPI_API_KEY" ;;
     if missing api_key then ret (key_missing "flight search")
     else
       verdict <- check_dates_with departure_date return_date ;;
       match verdict with
       | Some rejected => ret rejected
       | None =>
           let params :=
             flights_params_with (api_key_of api_key) origin destination departure_date
               return_date adults children infants stops flight_class max_price
               currency airlines in
           response <- requests_get (mkRequest serp_base_url params [] None) ;;
           if negb (status_code response =? 200) then ret (serp_failed response)
           else lift (search_results <~ json_body response ;;
                      flights_result_with origin destination departure_date return_date
                        search_results)
       end)
    (serp_handlers "flight search").

End FlightLibrary.

(** The tool with the instances that compute. *)
Definition check_dates : string -> option string -> M (option json) :=
  check_dates_with Strptime.strptime.

Definition flights_params : string -> string -> string -> string -> option string ->
    Z -> Z -> Z -> option string -> string -> option Z -> string ->
    option (list string) -> dict :=
  flights_params_with Str.upper.

Definition flights_result : string -> string -> string -> option string -> json -> E json :=
  flights_result_with Str.upper.

Definition google_flights_search : string -> string -> string -> option string ->
    Z -> Z -> Z -> option string -> string -> option Z -> string ->
    option (list string) -> M json :=
  google_flights_search_with Str.upper Strptime.strptime.

(** The initial world of a run: nothing read, nothing sent, [example.py] not
    yet loaded. *)
Definition fresh_world (env : list (string * string)) (today : date)
    (net : request -> E response) : world :=
  mkWorld env today net [] [] None.

(** ** example.py: module level *)

(** The statements [example.py] runs when it is loaded, after
    [load_dotenv()]: three names are bound from the environment, and a
    missing or empty [OPENAI_API_KEY] raises [ValueError]. *)
Definition load_module : M globals :=
  base_url <- os_getenv "OPENAI_API_BASE_URL" ;;
  api_key <- os_getenv "OPENAI_API_KEY" ;;
  model <- os_getenv "MODEL_NAME" ;;
  let model_name :=
    match model with
    | Some m => if Str.nonempty m then m else "gpt-4o"
    | None => "gpt-4o"
    end in
  if missing api_key then
    raise (mkExn ValueError "Please set OPENAI_API_KEY in your .env file")
  else
    let g := mkGlobals base_url (api_key_of api_key) model_name in
    fun w => (inr g, mkWorld (os_environ w) (clock_today w) (network w) (sent w)
                             (env_reads w) (Some g)).

(** ** example.py: the chat loop

    The agent runtime is outside the repository: [Runner.run_streamed] is a
    function from the number of earlier runs and the forwarded input to the
    stream of events the loop then consumes.  The [print] calls, and the
    [debug] flag that only selects among them, are left out. *)

Inductive agent_input :=
| InputText (s : string)          (* Runner.run_streamed(agent, user_input) *)
| InputItems (items : list json). (* Runner.run_streamed(agent, new_input) *)

(** A run item: its [type], what [to_input_item()] returns ([None] when the
    item has no such attribute), and [ItemHelpers.text_message_output]. *)
Record run_item := {
  item_type : string;
  to_input_item : option json;
  item_text : string
}.

Inductive stream_event :=
| RawResponse                      (* type "raw_response_event" *)
| AgentUpdated (name : string)     (* type "agent_updated_stream_event" *)
| RunItem (item : run_item)        (* type "run_item_stream_event" *)
| OtherEvent                       (* any other type *)
| StreamRaises (e : exn).          (* the stream raises instead of yielding *)

Definition runner := nat -> agent_input -> list stream_event.

(** The lookups made while a tool call is shown:
    [event.item.to_input_item()['arguments']] and [...['name']]. *)
Definition show_tool_call (item : run_item) : E unit :=
  match to_input_item item with
  | None => raiseE AttributeError "object has no attribute 'to_input_item'"
  | Some v =>
      _ <~ py_getitem v "arguments" ;;
      _ <~ py_getitem v "name" ;;
      retE tt
  end.

(** [async for event in result.stream_events(): ...], giving [final_items]
    and [message_output]. *)
Fixpoint consume (events : list stream_event) (final_items : list run_item)
    (message_output : string) : E (list run_item * string) :=
  match events with
  | [] => retE (final_items, message_output)
  | RawResponse :: rest => consume rest final_items message_output
  | AgentUpdated _ :: rest => consume rest final_items message_output
  | OtherEvent :: rest => consume rest final_items message_output
  | StreamRaises e :: _ => inl e
  | RunItem item :: rest =>
      let final_items := (final_items ++ [item])%list in
      if String.eqb (item_type item) "tool_call_item" then
        _ <~ show_tool_call item ;; consume rest final_items message_output
      else if String.eqb (item_type item) "tool_call_output_item" then
        consume rest final_items message_output
      else if String.eqb (item_type item) "message_output_item" then
        consume rest final_items (item_text item)
      else consume rest final_items message_output
  end.

(** [for item in final_items: ... conversation.append(input_item)] *)
Fixpoint extend_conversation (conversation : list json) (final_items : list run_item)
    : list json :=
  match final_items with
  | [] => conversation
  | item :: rest =>
      match to_input_item item with
      | Some input_item =>
          if truthy input_item
          then extend_conversation (conversation ++ [input_item]) rest
          else extend_conversation conversation rest
      | None => extend_conversation conversation rest
      end
  end.

Definition user_message (user_input : string) : json :=
  JObj [("role", JStr "user"); ("content", JStr user_input)].

(** What the loop does that can be seen from outside. *)
Inductive io_event :=
| Prompt (line : option string)   (* input("> ") and the line read, if any *)
| Forward (input : agent_input).  (* Runner.run_streamed(agent, input) *)

Inductive ending :=
| Exited                (* break *)
| Raised (e : exn).     (* an exception leaves the loop *)

Record chat_outcome := mkOutcome {
  how : ending;
  conversation_at_end : list json;
  io_log : list io_event
}.

(** [while True: ...] over the lines standard input still holds; [runs]
    counts the earlier calls of the runtime. *)
Fixpoint chat_loop (run : runner) (stdin : list string) (runs : nat)
    (conversation : list json) (log : list io_event) : chat_outcome :=
  match stdin with
  | [] => mkOutcome (Raised (mkExn EOFError "EOF when reading a line")) conversation
            (log ++ [Prompt None])
  | user_input :: rest =>
      let log := (log ++ [Prompt (Some user_input)])%list in
      if String.eqb (Str.lower user_input) "exit" then mkOutcome Exited conversation log
      else
        let new_input :=
          match conversation with
          | [] => InputText user_input
          | _ => InputItems (conversation ++ [user_message user_input])
          end in
        let log := (log ++ [Forward new_input])%list in
        match consume (run runs new_input) [] "" with
        | inl e => mkOutcome (Raised e) conversation log
        | inr (final_items, _) =>
            chat_loop run rest (S runs) (extend_conversation conversation final_items) log
        end
  end.

Definition chat_with_agent (run : runner) (stdin : list string) : chat_outcome :=
  chat_loop run stdin 0 [] [].

(** The program: load the module, then chat.  When loading raises, the chat
    never starts. *)
Definition main (run : runner) (stdin : list string) : M chat_outcome :=
  _ <- load_module ;; ret (chat_with_agent run stdin).

(** ** The tools as the agent runtime sees them

    [create_agent] registers the seven functions; the runtime calls one of
    them with arguments of the declared types. *)

Inductive tool_call :=
| Geocode (city_name : string)
| GetWeather (latitude longitude : pyfloat)
| WebSearch (query : string) (num_results : option Z) (include_news : option bool)
    (time_period : option string)
| WebFetch (url : string) (extract_text : bool)
| YoutubeSearch (query : string) (num_results : Z) (sort_by : string)
    (upload_date duration : option string)
| ScholarSearch (query : string) (num_results : Z) (sort_by : string)
    (publication_date author : option string)
| GoogleFlightsSearch (origin destination departure_date : string)
    (return_date : option string) (adults children infants : Z) (stops : option string)
    (flight_class : string) (max_price : option Z) (currency : string)
    (airlines : option (list string)).

Definition invoke (c : tool_call) : M json :=
  match c with
  | Geocode city => geocode city
  | GetWeather la lo => get_weather la lo
  | WebSearch q n i t => web_search q n i t
  | WebFetch u x => web_fetch u x
  | YoutubeSearch q n s u d => youtube_search q n s u d
  | ScholarSearch q n s p a => scholar_search q n s p a
  | GoogleFlightsSearch o d dd rd ad ch inf st fc mp cur al =>
      google_flights_search o d dd rd ad ch inf st fc mp cur al
  end.

(** ** Vocabulary of the statements *)

(** The value under [key] in a returned dictionary. *)
Definition field (key : string) (v : json) : option json :=
  match v with JObj d => dict_get key d | _ => None end.

(** The dictionary has a ["status"] that is ["success"] or ["error"]. *)
Definition well_statused (v : json) : Prop :=
  field "status" v = Some (JStr "success") \/ field "status" v = Some (JStr "error").


(** The requests a run added to the world's log. *)
Definition new_requests (before after : world) : list request :=
  skipn (length (sent before)) (sent after).

(** The number of entries of the list under [key]. *)
Definition count_of (key : string) (v : json) : option nat :=
  match field key v with
  | Some (JArr l) => Some (length l)
  | _ => None
  end.

(** The two tools of the Open-Meteo family return no status of their own. *)
Definition open_meteo (c : tool_call) : bool :=
  match c with Geocode _ | GetWeather _ _ => true | _ => false end.

(** ** Basic facts *)

Lemma bindE_inr {A B} (m : E A) (k : A -> E B) (b : B) :
  bindE m k = inr b -> exists a, m = inr a /\ k a = inr b.
Proof.
  destruct m as [e | a]; simpl; intros H.
  - discriminate.
  - exists a; split; [reflexivity | exact H].
Qed.

Lemma dict_get_set_other (k k' : string) (v : json) (d : dict) :
  String.eqb k k' = false -> dict_get k (dict_set k' v d) = dict_get k d.
Proof.
  intros Hk. induction d as [| [k0 v0] d IH]; simpl.
  - rewrite Hk. reflexivity.
  - destruct (String.eqb k' k0) eqn:E0; simpl.
    + apply String.eqb_eq in E0. subst k0. rewrite Hk. reflexivity.
    + destruct (String.eqb k k0); [reflexivity | exact IH].
Qed.

Lemma dict_get_set_same (k : string) (v : json) (d : dict) :
  dict_get k (dict_set k v d) = Some v.
Proof.
  induction d as [| [k0 v0] d IH]; simpl.
  - rewrite String.eqb_refl. reflexivity.
  - destruct (String.eqb k k0) eqn:E0; simpl.
    + rewrite String.eqb_refl. reflexivity.
    + rewrite E0. exact IH.
Qed.

(** A step on the result dictionary that leaves the entry under [k] alone. *)
Definition keeps (k : string) (f : dict -> E dict) : Prop :=
  forall d d', f d = inr d' -> dict_get k d' = dict_get k d.

Lemma keeps_copy_if_present (k : string) (src : json) (ks kd : string) :
  String.eqb k kd = false -> keeps k (copy_if_present src ks kd).
Proof.
  intros Hk d d' H. unfold copy_if_present in H.
  apply bindE_inr in H as (has & _ & H). destruct has.
  - apply bindE_inr in H as (v & _ & H). inversion H; subst.
    apply dict_get_set_other; assumption.
  - inversion H; subst. reflexivity.
Qed.

Lemma keeps_collect_sliced (k : string) (src : json) (key : string) (n : Z)
    (row : json -> E json) (dst : string) :
  String.eqb k dst = false -> keeps k (collect_sliced src key n row dst).
Proof.
  intros Hk d d' H. unfold collect_sliced in H.
  apply bindE_inr in H as (has & _ & H). destruct has.
  - apply bindE_inr in H as (all & _ & H).
    apply bindE_inr in H as (part & _ & H).
    apply bindE_inr in H as (items & _ & H).
    apply bindE_inr in H as (rows & _ & H).
    inversion H; subst. apply dict_get_set_other; assumption.
  - inversion H; subst. reflexivity.
Qed.

Lemma keeps_collect_all (k : string) (src : json) (key : string)
    (row : json -> E json) (dst : string) :
  String.eqb k dst = false -> keeps k (collect_all src key row dst).
Proof.
  intros Hk d d' H. unfold collect_all in H.
  apply bindE_inr in H as (has & _ & H). destruct has.
  - apply bindE_inr in H as (all & _ & H).
    apply bindE_inr in H as (items & _ & H).
    apply bindE_inr in H as (rows & _ & H).
    inversion H; subst. apply dict_get_set_other; assumption.
  - inversion H; subst. reflexivity.
Qed.

Lemma keeps_add_news (k : string) (src : json) (n : Z) (b : bool) :
  String.eqb k "news" = false -> keeps k (add_news src n b).
Proof.
  intros Hk d d' H. unfold add_news in H. destruct b.
  - apply bindE_inr in H as (has & _ & H). destruct has.
    + apply bindE_inr in H as (news & _ & H).
      apply bindE_inr in H as (part & _ & H).
      inversion H; subst. apply dict_get_set_other; assumption.
    + inversion H; subst. reflexivity.
  - inversion H; subst. reflexivity.
Qed.

Lemma keeps_set_search_metadata (k : string) (src : json) (engine : string) :
  String.eqb k "search_metadata" = false -> keeps k (set_search_metadata src engine).
Proof.
  intros Hk d d' H. unfold set_search_metadata in H.
  apply bindE_inr in H as (id & _ & H).
  apply bindE_inr in H as (st & _ & H).
  apply bindE_inr in H as (tt & _ & H).
  inversion H; subst. apply dict_get_set_other; assumption.
Qed.

(** Take a chain of [bindE]s that returned apart, one step at a time. *)
Ltac unchain H :=
  repeat (let d := fresh "d" in
          let Hd := fresh "Hd" in
          apply bindE_inr in H as (d & Hd & H)).

(** Turn every step of an opened chain into the equation it gives for the
    entry under [k]. *)
Ltac kept k :=
  repeat match goal with
    | Hd : copy_if_present _ _ _ _ = inr _ |- _ =>
        apply (keeps_copy_if_present k) in Hd; [| reflexivity]
    | Hd : collect_sliced _ _ _ _ _ _ = inr _ |- _ =>
        apply (keeps_collect_sliced k) in Hd; [| reflexivity]
    | Hd : collect_all _ _ _ _ _ = inr _ |- _ =>
        apply (keeps_collect_all k) in Hd; [| reflexivity]
    | Hd : add_news _ _ _ _ = inr _ |- _ =>
        apply (keeps_add_news k) in Hd; [| reflexivity]
    | Hd : set_search_metadata _ _ _ = inr _ |- _ =>
        apply (keeps_set_search_metadata k) in Hd; [| reflexivity]
    end.

Lemma web_search_result_status (query : string) (n : Z) (inc : bool) (sr v : json) :
  web_search_result query n inc sr = inr v -> field "status" v = Some (JStr "success").
Proof.
  intros H. unfold web_search_result in H. unchain H. kept "status".
  inversion H; subst; simpl in *. congruence.
Qed.

Lemma youtube_result_status (query : string) (n : Z) (sr v : json) :
  youtube_result query n sr = inr v -> field "status" v = Some (JStr "success").
Proof.
  intros H. unfold youtube_result in H. unchain H. kept "status".
  inversion H; subst.
  rewrite dict_get_set_other in * by reflexivity. simpl in *. congruence.
Qed.

Lemma scholar_result_status (query : string) (sr v : json) :
  scholar_result query sr = inr v -> field "status" v = Some (JStr "success").
Proof.
  intros H. unfold scholar_result in H. unchain H. kept "status".
  inversion H; subst; simpl in *. congruence.
Qed.

Lemma flights_result_with_field (to_upper : string -> string) (k : string)
    (o d dd : string) (rd : option string) (sr v : json) :
  String.eqb k "best_flights" = false ->
  String.eqb k "other_flights" = false ->
  String.eqb k "airlines_information" = false ->
  String.eqb k "price_insights" = false ->
  String.eqb k "search_metadata" = false ->
  flights_result_with to_upper o d dd rd sr = inr v ->
  field k v =
  dict_get k [("status", JStr "success"); ("origin", JStr (to_upper o));
              ("destination", JStr (to_upper d)); ("departure_date", JStr dd);
              ("return_date", opt_str rd)].
Proof.
  intros K1 K2 K3 K4 K5 H. unfold flights_result_with in H. unchain H.
  apply (keeps_collect_all k) in Hd; [| assumption].
  apply (keeps_collect_all k) in Hd0; [| assumption].
  apply (keeps_copy_if_present k) in Hd1; [| assumption].
  apply (keeps_copy_if_present k) in Hd2; [| assumption].
  apply (keeps_set_search_metadata k) in Hd3; [| assumption].
  inversion H; subst; simpl field.
  rewrite Hd3, Hd2, Hd1, Hd0, Hd. simpl.
  destruct (String.eqb k "status"); [reflexivity |].
  destruct (String.eqb k "origin"); [reflexivity |].
  destruct (String.eqb k "destination"); [reflexivity |].
  destruct (String.eqb k "departure_date"); [reflexivity |].
  destruct (String.eqb k "return_date"); [reflexivity |].
  rewrite K1, K2, K3, K4. reflexivity.
Qed.

Lemma flights_result_field (k : string) (o d dd : string) (rd : option string)
    (sr v : json) :
  String.eqb k "best_flights" = false ->
  String.eqb k "other_flights" = false ->
  String.eqb k "airlines_information" = false ->
  String.eqb k "price_insights" = false ->
  String.eqb k "search_metadata" = false ->
  flights_result o d dd rd sr = inr v ->
  field k v =
  dict_get k [("status", JStr "success"); ("origin", JStr (Str.upper o));
              ("destination", JStr (Str.upper d)); ("departure_date", JStr dd);
              ("return_date", opt_str rd)].
Proof. apply flights_result_with_field. Qed.

Lemma fetch_result_status (url : string) (x : bool) (r : response) (v : json) :
  fetch_result url x r = inr v -> field "status" v = Some (JStr "success").
Proof.
  unfold fetch_result. intros H.
  destruct (x && Str.contains "text/html" (Str.lower (header_get "Content-Type" (headers r)))).
  - apply bindE_inr in H as (s & _ & H). injection H as <-.
    cbn [field]. repeat (rewrite dict_get_set_other by reflexivity). reflexivity.
  - injection H as <-.
    cbn [field]. repeat (rewrite dict_get_set_other by reflexivity). reflexivity.
Qed.

Lemma error_dict_status (msg : string) :
  field "status" (error_dict msg) = Some (JStr "error").
Proof. reflexivity. Qed.

Lemma error_dict_error (msg : string) :
  field "error" (error_dict msg) = Some (JStr msg).
Proof. reflexivity. Qed.

(** Whatever reaches them, the handlers of a SerpAPI tool return an error
    dictionary. *)
Lemma serp_handlers_error (what : string) (e : exn) (w : world) :
  exists msg, serp_handlers what e w = (inr (error_dict msg), w).
Proof.
  unfold serp_handlers.
  destruct (is_RequestException e); [eexists; reflexivity |].
  destruct (is_JSONDecodeError e); eexists; reflexivity.
Qed.

(** ** The four SerpAPI tools in one shape

    [web_search], [youtube_search], [scholar_search] and
    [google_flights_search] read the key, may turn the call down before the
    network is used, send one request and reshape the reply.  [serp_run] is
    that shape with the handlers already applied; each tool is shown equal
    to an instance of it. *)

Definition serp_run (what tool : string) (precheck : date -> option json)
    (params : string -> dict) (process : json -> E json) : M json :=
  fun w =>
    let key := env_lookup "SERPAPI_API_KEY" (os_environ w) in
    let w1 := after_read "SERPAPI_API_KEY" w in
    if missing key then (inr (key_missing tool), w1)
    else
      match precheck (clock_today w) with
      | Some rejected => (inr rejected, w1)
      | None =>
          let req := mkRequest serp_base_url (params (api_key_of key)) [] None in
          let w2 := after_send req w1 in
          match network w req with
          | inl e => serp_handlers what e w2
          | inr r =>
              if negb (status_code r =? 200) then (inr (serp_failed r), w2)
              else
                match bindE (json_body r) process with
                | inl e => serp_handlers what e w2
                | inr v => (inr v, w2)
                end
          end
      end.

Definition no_precheck : date -> option json := fun _ => None.

(** What a handler of the SerpAPI tools returns for the exception [e]. *)
Definition handled (what : string) (e : exn) : json :=
  if is_RequestException e then error_dict ("Network error occurred: " ++ exn_msg e)
  else if is_JSONDecodeError e then error_dict "Failed to parse the search results."
  else error_dict ("Error during " ++ what ++ ": " ++ exn_msg e).

Lemma serp_handlers_handled (what : string) (e : exn) (w : world) :
  serp_handlers what e w = (inr (handled what e), w).
Proof.
  unfold serp_handlers, handled.
  destruct (is_RequestException e); [reflexivity |].
  destruct (is_JSONDecodeError e); reflexivity.
Qed.

(** What google_flights_search returns when the parser raises [e]: the
    inner handler takes a [ValueError], the outer ones anything else. *)
Definition date_failure (e : exn) : json :=
  if is_ValueError e then error_dict "Invalid date format. Please use YYYY-MM-DD format."
  else handled "flight search" e.

Lemma date_failure_error (e : exn) : exists msg, date_failure e = error_dict msg.
Proof.
  unfold date_failure, handled.
  destruct (is_ValueError e); [eexists; reflexivity |].
  destruct (is_RequestException e); [eexists; reflexivity |].
  destruct (is_JSONDecodeError e); eexists; reflexivity.
Qed.

(** The verdict of the date checks as a function of the clock, for any
    parser. *)
Definition date_verdict_with (parse_date : string -> E date) (departure_date : string)
    (return_date : option string) (today : date) : option json :=
  match parse_date departure_date with
  | inl e => Some (date_failure e)
  | inr departure =>
      if date_ltb departure today then
        Some (error_dict ("Departure date " ++ departure_date
                          ++ " is in the past. Please provide a future date."))
      else
        match return_date with
        | Some rd =>
            if Str.nonempty rd then
              match parse_date rd with
              | inl e => Some (date_failure e)
              | inr return_day =>
                  if date_ltb return_day departure then
                    Some (error_dict ("Return date " ++ rd
                                      ++ " cannot be before departure date "
                                      ++ departure_date ++ "."))
                  else None
              end
            else None
        | None => None
        end
  end.

(** The verdict of [check_dates] as a function of the clock. *)
Definition date_verdict (departure_date : string) (return_date : option string)
    (today : date) : option json :=
  match Strptime.strptime departure_date with
  | inl _ => Some (error_dict "Invalid date format. Please use YYYY-MM-DD format.")
  | inr departure =>
      if date_ltb departure today then
        Some (error_dict ("Departure date " ++ departure_date
                          ++ " is in the past. Please provide a future date."))
      else
        match return_date with
        | Some rd =>
            if Str.nonempty rd then
              match Strptime.strptime rd with
              | inl _ =>
                  Some (error_dict "Invalid date format. Please use YYYY-MM-DD format.")
              | inr return_day =>
                  if date_ltb return_day departure then
                    Some (error_dict ("Return date " ++ rd
                                      ++ " cannot be before departure date "
                                      ++ departure_date ++ "."))
                  else None
              end
            else None
        | None => None
        end
  end.

Lemma strptime_raises_ValueError (s : string) (e : exn) :
  Strptime.strptime s = inl e -> is_ValueError e = true.
Proof.
  unfold Strptime.strptime.
  destruct (Strptime.regex_match s) as [[[[y m] d] rest] |].
  - destruct rest.
    + destruct (y =? 0); [intros H; inversion H; reflexivity |].
      destruct (d <=? days_in_month y m); intros H; inversion H; reflexivity.
    + intros H; inversion H; reflexivity.
  - intros H; inversion H; reflexivity.
Qed.

Lemma date_verdict_with_strptime (dd : string) (rd : option string) (today : date) :
  date_verdict_with Strptime.strptime dd rd today = date_verdict dd rd today.
Proof.
  unfold date_verdict_with, date_verdict, date_failure.
  destruct (Strptime.strptime dd) as [e | dep] eqn:Edep.
  - rewrite (strptime_raises_ValueError _ _ Edep). reflexivity.
  - destruct (date_ltb dep today); [reflexivity |].
    destruct rd as [rd |]; [| reflexivity].
    destruct (Str.nonempty rd); [| reflexivity].
    destruct (Strptime.strptime rd) as [e | ret_day] eqn:Eret; [| reflexivity].
    rewrite (strptime_raises_ValueError _ _ Eret). reflexivity.
Qed.

Lemma check_dates_run (dd : string) (rd : option string) (w : world) :
  check_dates dd rd w = (inr (date_verdict dd rd (clock_today w)), w).
Proof.
  unfold check_dates, check_dates_with, date_verdict, try_except, bind, lift,
    date_today, ret.
  destruct (Strptime.strptime dd) as [e | dep] eqn:Edep.
  - rewrite (strptime_raises_ValueError _ _ Edep). reflexivity.
  - destruct (date_ltb dep (clock_today w)); [reflexivity |].
    destruct rd as [rd |]; [| reflexivity].
    destruct (Str.nonempty rd); [| reflexivity].
    destruct (Strptime.strptime rd) as [e | ret_day] eqn:Eret.
    + rewrite (strptime_raises_ValueError _ _ Eret). reflexivity.
    + destruct (date_ltb ret_day dep); reflexivity.
Qed.

Lemma web_search_run (q : string) (n : option Z) (i : option bool) (t : option string) :
  forall w,
    web_search q n i t w =
    serp_run "web search" "web search" no_precheck
      (fun key => web_search_params q key
                    (match n with Some n => n | None => 10 end)
                    (match t with Some t => t | None => "past_year" end))
      (web_search_result q (match n with Some n => n | None => 10 end)
         (match i with Some b => b | None => false end)) w.
Proof.
  intros w. unfold web_search, serp_run, no_precheck, try_except, bind, os_getenv,
    requests_get, lift, ret.
  destruct (missing (env_lookup "SERPAPI_API_KEY" (os_environ w))); [reflexivity |].
  cbn [network after_read].
  match goal with |- context [network w ?rq] => destruct (network w rq) as [e | r] end;
    [reflexivity |].
  destruct (negb (status_code r =? 200)); [reflexivity |].
  match goal with |- context [bindE ?a ?b] => destruct (bindE a b) end; reflexivity.
Qed.

Lemma youtube_search_run (q : string) (n : Z) (s : string) (u d : option string) :
  forall w,
    youtube_search q n s u d w =
    serp_run "YouTube search" "YouTube search" no_precheck
      (fun key => youtube_params q key n s u d) (youtube_result q n) w.
Proof.
  intros w. unfold youtube_search, serp_run, no_precheck, try_except, bind, os_getenv,
    requests_get, lift, ret.
  destruct (missing (env_lookup "SERPAPI_API_KEY" (os_environ w))); [reflexivity |].
  cbn [network after_read].
  match goal with |- context [network w ?rq] => destruct (network w rq) as [e | r] end;
    [reflexivity |].
  destruct (negb (status_code r =? 200)); [reflexivity |].
  match goal with |- context [bindE ?a ?b] => destruct (bindE a b) end; reflexivity.
Qed.

Lemma scholar_search_run (q : string) (n : Z) (s : string) (p a : option string) :
  forall w,
    scholar_search q n s p a w =
    serp_run "Google Scholar search" "Google Scholar search" no_precheck
      (fun key => scholar_params q key n s p a) (scholar_result q) w.
Proof.
  intros w. unfold scholar_search, serp_run, no_precheck, try_except, bind, os_getenv,
    requests_get, lift, ret.
  destruct (missing (env_lookup "SERPAPI_API_KEY" (os_environ w))); [reflexivity |].
  cbn [network after_read].
  match goal with |- context [network w ?rq] => destruct (network w rq) as [e | r] end;
    [reflexivity |].
  destruct (negb (status_code r =? 200)); [reflexivity |].
  match goal with |- context [bindE ?a ?b] => destruct (bindE a b) end; reflexivity.
Qed.

(** [check_dates_with] case by case: a [ValueError] of the parser is taken
    by the inner handler and gives the verdict, any other exception goes on
    to the outer handlers; the world is left as it was. *)
Lemma check_dates_with_run (parse_date : string -> E date) (dd : string)
    (rd : option string) (w : world) :
  check_dates_with parse_date dd rd w
  = match parse_date dd with
    | inl e => if is_ValueError e then (inr (Some (date_failure e)), w) else (inl e, w)
    | inr dep =>
        if date_ltb dep (clock_today w) then
          (inr (date_verdict_with parse_date dd rd (clock_today w)), w)
        else
          match rd with
          | Some r =>
              if Str.nonempty r then
                match parse_date r with
                | inl e =>
                    if is_ValueError e then (inr (Some (date_failure e)), w) else (inl e, w)
                | inr _ => (inr (date_verdict_with parse_date dd rd (clock_today w)), w)
                end
              else (inr None, w)
          | None => (inr None, w)
          end
    end.
Proof.
  unfold check_dates_with, date_verdict_with, date_failure, try_except, bind, lift,
    date_today, ret, raise.
  destruct (parse_date dd) as [e | dep].
  - destruct (is_ValueError e); reflexivity.
  - destruct (date_ltb dep (clock_today w)); [reflexivity |].
    destruct rd as [r |]; [| reflexivity].
    destruct (Str.nonempty r); [| reflexivity].
    destruct (parse_date r) as [e | ret_day].
    + destruct (is_ValueError e); reflexivity.
    + destruct (date_ltb ret_day dep); reflexivity.
Qed.

Lemma google_flights_search_with_run (to_upper : string -> string)
    (parse_date : string -> E date) (o d dd : string) (rd : option string)
    (ad ch inf : Z) (st : option string) (fc : string) (mp : option Z) (cur : string)
    (al : option (list string)) :
  forall w,
    google_flights_search_with to_upper parse_date o d dd rd ad ch inf st fc mp cur al w =
    serp_run "flight search" "flight search" (date_verdict_with parse_date dd rd)
      (fun key => flights_params_with to_upper key o d dd rd ad ch inf st fc mp cur al)
      (flights_result_with to_upper o d dd rd) w.
Proof.
  intros w. unfold google_flights_search_with, serp_run, try_except, bind, os_getenv,
    requests_get, lift, ret.
  destruct (missing (env_lookup "SERPAPI_API_KEY" (os_environ w))); [reflexivity |].
  rewrite check_dates_with_run. cbn [clock_today after_read].
  unfold date_verdict_with, date_failure.
  destruct (parse_date dd) as [e | dep].
  { destruct (is_ValueError e); [reflexivity |]. apply serp_handlers_handled. }
  destruct (date_ltb dep (clock_today w)); [reflexivity |].
  destruct rd as [r0 |].
  - destruct (Str.nonempty r0).
    + destruct (parse_date r0) as [e | ret_day].
      * destruct (is_ValueError e); [reflexivity |]. apply serp_handlers_handled.
      * destruct (date_ltb ret_day dep); [reflexivity |].
        cbn [network after_read].
        match goal with |- context [network w ?rq] => destruct (network w rq) as [e | r] end;
          [reflexivity |].
        destruct (negb (status_code r =? 200)); [reflexivity |].
        match goal with |- context [bindE ?a ?b] => destruct (bindE a b) end; reflexivity.
    + cbn [network after_read].
      match goal with |- context [network w ?rq] => destruct (network w rq) as [e | r] end;
        [reflexivity |].
      destruct (negb (status_code r =? 200)); [reflexivity |].
      match goal with |- context [bindE ?a ?b] => destruct (bindE a b) end; reflexivity.
  - cbn [network after_read].
    match goal with |- context [network w ?rq] => destruct (network w rq) as [e | r] end;
      [reflexivity |].
    destruct (negb (status_code r =? 200)); [reflexivity |].
    match goal with |- context [bindE ?a ?b] => destruct (bindE a b) end; reflexivity.
Qed.

Lemma google_flights_search_run (o d dd : string) (rd : option string) (ad ch inf : Z)
    (st : option string) (fc : string) (mp : option Z) (cur : string)
    (al : option (list string)) :
  forall w,
    google_flights_search o d dd rd ad ch inf st fc mp cur al w =
    serp_run "flight search" "flight search" (date_verdict dd rd)
      (fun key => flights_params key o d dd rd ad ch inf st fc mp cur al)
      (flights_result o d dd rd) w.
Proof.
  intros w. unfold google_flights_search. rewrite google_flights_search_with_run.
  unfold serp_run. rewrite date_verdict_with_strptime. reflexivity.
Qed.

Lemma date_verdict_with_error (parse_date : string -> E date) (dd : string)
    (rd : option string) (today : date) (j : json) :
  date_verdict_with parse_date dd rd today = Some j -> exists msg, j = error_dict msg.
Proof.
  unfold date_verdict_with. intros H.
  destruct (parse_date dd) as [e | dep].
  - inversion H. apply date_failure_error.
  - destruct (date_ltb dep today).
    + inversion H. eexists; reflexivity.
    + destruct rd as [rd |]; [| discriminate].
      destruct (Str.nonempty rd); [| discriminate].
      destruct (parse_date rd) as [e | ret_day].
      * inversion H. apply date_failure_error.
      * destruct (date_ltb ret_day dep); [| discriminate].
        inversion H. eexists; reflexivity.
Qed.

Lemma date_verdict_error (dd : string) (rd : option string) (today : date) (j : json) :
  date_verdict dd rd today = Some j -> exists msg, j = error_dict msg.
Proof.
  unfold date_verdict. intros H.
  destruct (Strptime.strptime dd) as [e | dep].
  - inversion H. eexists; reflexivity.
  - destruct (date_ltb dep today).
    + inversion H. eexists; reflexivity.
    + destruct rd as [rd |]; [| discriminate].
      destruct (Str.nonempty rd); [| discriminate].
      destruct (Strptime.strptime rd) as [e | ret_day].
      * inversion H. eexists; reflexivity.
      * destruct (date_ltb ret_day dep); [| discriminate].
        inversion H. eexists; reflexivity.
Qed.

Section SerpRun.

Variables (what tool : string) (precheck : date -> option json)
          (params : string -> dict) (process : json -> E json).

Hypothesis precheck_error :
  forall today j, precheck today = Some j -> exists msg, j = error_dict msg.

(** The request a run sends, if it sends one. *)
Definition serp_request (w : world) : request :=
  mkRequest serp_base_url
    (params (api_key_of (env_lookup "SERPAPI_API_KEY" (os_environ w)))) [] None.

(** Whether a run reaches the network: the key is there and the call was
    not turned down. *)
Definition reaches_network (w : world) : bool :=
  negb (missing (env_lookup "SERPAPI_API_KEY" (os_environ w)))
  && match precheck (clock_today w) with Some _ => false | None => true end.

(** A run returns a dictionary; it is an error dictionary or what [process]
    made of the reply; the key is read once, at most one request leaves, and
    nothing else in the world changes. *)
Lemma serp_run_shape (w : world) :
  exists v,
    serp_run what tool precheck params process w =
      (inr v, mkWorld (os_environ w) (clock_today w) (network w)
                      (sent w ++ (if reaches_network w then [serp_request w] else []))
                      (env_reads w ++ ["SERPAPI_API_KEY"]) (module_state w))
    /\ ((exists msg, v = error_dict msg)
        \/ (exists r sr, reaches_network w = true
                         /\ network w (serp_request w) = inr r
                         /\ status_code r = 200 /\ json_body r = inr sr
                         /\ process sr = inr v)).
Proof.
  unfold serp_run, reaches_network.
  destruct (missing (env_lookup "SERPAPI_API_KEY" (os_environ w))).
  { exists (key_missing tool). unfold after_read. simpl. rewrite app_nil_r.
    split; [reflexivity | left; eexists; reflexivity]. }
  destruct (precheck (clock_today w)) as [j |] eqn:Epre.
  { exists j. unfold after_read. simpl. rewrite app_nil_r.
    split; [reflexivity | left; eapply precheck_error; eassumption]. }
  fold (serp_request w). simpl negb. simpl andb.
  destruct (network w (serp_request w)) as [e | r] eqn:Enet.
  { destruct (serp_handlers_error what e
                (after_send (serp_request w) (after_read "SERPAPI_API_KEY" w)))
      as (msg & ->).
    exists (error_dict msg). split; [reflexivity | left; eexists; reflexivity]. }
  destruct (negb (status_code r =? 200)) eqn:Est.
  { exists (serp_failed r). split; [reflexivity | left; eexists; reflexivity]. }
  destruct (bindE (json_body r) process) as [e | v] eqn:Eproc.
  { destruct (serp_handlers_error what e
                (after_send (serp_request w) (after_read "SERPAPI_API_KEY" w)))
      as (msg & ->).
    exists (error_dict msg). split; [reflexivity | left; eexists; reflexivity]. }
  exists v. split; [reflexivity |]. right.
  apply bindE_inr in Eproc as (sr & Hsr & Hv).
  exists r, sr. repeat split; try assumption.
  apply negb_false_iff in Est. apply Z.eqb_eq in Est. exact Est.
Qed.

(** When the request meets a failure (the call raises, the status is not
    200, the body does not decode), the run returns an error dictionary. *)
Lemma serp_run_failure (w : world) :
  match network w (serp_request w) with
  | inl _ => True
  | inr r => status_code r <> 200 \/ exists e, json_body r = inl e
  end ->
  exists msg, fst (serp_run what tool precheck params process w) = inr (error_dict msg).
Proof.
  intros Hfail.
  destruct (serp_run_shape w) as (v & Heq & [(msg & ->) | (r & sr & _ & Hnet & Hst & Hjs & _)]).
  - rewrite Heq. exists msg. reflexivity.
  - rewrite Hnet in Hfail. destruct Hfail as [Hne | (e & He)].
    + contradiction.
    + rewrite Hjs in He. discriminate.
Qed.

End SerpRun.

(** The instance of [serp_run] each SerpAPI tool is. *)
Definition needs_serpapi_key (c : tool_call) : bool :=
  match c with
  | Geocode _ | GetWeather _ _ | WebFetch _ _ => false
  | _ => true
  end.

Definition tool_what (c : tool_call) : string :=
  match c with
  | WebSearch _ _ _ _ => "web search"
  | YoutubeSearch _ _ _ _ _ => "YouTube search"
  | ScholarSearch _ _ _ _ _ => "Google Scholar search"
  | GoogleFlightsSearch _ _ _ _ _ _ _ _ _ _ _ _ => "flight search"
  | _ => ""
  end.

Definition tool_precheck (c : tool_call) : date -> option json :=
  match c with
  | GoogleFlightsSearch _ _ dd rd _ _ _ _ _ _ _ _ => date_verdict dd rd
  | _ => no_precheck
  end.

Definition or_default {A} (o : option A) (d : A) : A :=
  match o with Some a => a | None => d end.

Definition tool_params (c : tool_call) : string -> dict :=
  match c with
  | WebSearch q n i t =>
      fun key => web_search_params q key (or_default n 10) (or_default t "past_year")
  | YoutubeSearch q n s u d => fun key => youtube_params q key n s u d
  | ScholarSearch q n s p a => fun key => scholar_params q key n s p a
  | GoogleFlightsSearch o d dd rd ad ch inf st fc mp cur al =>
      fun key => flights_params key o d dd rd ad ch inf st fc mp cur al
  | _ => fun _ => []
  end.

Definition tool_process (c : tool_call) : json -> E json :=
  match c with
  | WebSearch q n i t => web_search_result q (or_default n 10) (or_default i false)
  | YoutubeSearch q n s u d => youtube_result q n
  | ScholarSearch q n s p a => scholar_result q
  | GoogleFlightsSearch o d dd rd ad ch inf st fc mp cur al => flights_result o d dd rd
  | _ => fun _ => retE JNull
  end.

Lemma invoke_serp (c : tool_call) (w : world) :
  needs_serpapi_key c = true ->
  invoke c w =
  serp_run (tool_what c) (tool_what c) (tool_precheck c) (tool_params c)
    (tool_process c) w.
Proof.
  destruct c; try discriminate; intros _; simpl invoke.
  - apply web_search_run.
  - apply youtube_search_run.
  - apply scholar_search_run.
  - apply google_flights_search_run.
Qed.

Lemma tool_precheck_error (c : tool_call) (today : date) (j : json) :
  tool_precheck c today = Some j -> exists msg, j = error_dict msg.
Proof.
  destruct c; simpl; try discriminate. apply date_verdict_error.
Qed.

Lemma tool_process_status (c : tool_call) (sr v : json) :
  needs_serpapi_key c = true ->
  tool_process c sr = inr v -> field "status" v = Some (JStr "success").
Proof.
  destruct c; try discriminate; intros _; simpl.
  - apply web_search_result_status.
  - apply youtube_result_status.
  - apply scholar_result_status.
  - apply flights_result_field; reflexivity.
Qed.

(** What [web_fetch], [geocode] and [get_weather] return, as a function of
    what the network did with their request. *)
Definition fetch_handler (e : exn) : json :=
  if is_RequestException e then error_dict ("Network error occurred: " ++ exn_msg e)
  else error_dict ("Error during web fetch: " ++ exn_msg e).

Definition fetch_outcome (url : string) (x : bool) (o : E response) : json :=
  match o with
  | inl e => fetch_handler e
  | inr r =>
      if negb (status_code r =? 200) then
        error_dict ("Request failed with status code " ++ Str.of_Z (status_code r)
                    ++ ": " ++ text r)
      else
        match fetch_result url x r with
        | inl e => fetch_handler e
        | inr v => v
        end
  end.

Definition open_meteo_handler (e : exn) : json :=
  if is_HTTPError e then http_error_dict e else other_error_dict e.

Definition geocode_outcome (o : E response) : json :=
  match o with
  | inl e => open_meteo_handler e
  | inr r =>
      match (_ <~ raise_for_status r ;;
             data <~ json_body r ;;
             has <~ py_in "results" data ;;
             if negb has
             then retE (JObj [("error", JStr "No results found for the given city")])
             else retE data) with
      | inl e => open_meteo_handler e
      | inr v => v
      end
  end.

Definition weather_outcome (o : E response) : json :=
  match o with
  | inl e => open_meteo_handler e
  | inr r =>
      match (_ <~ raise_for_status r ;; json_body r) with
      | inl e => open_meteo_handler e
      | inr v => v
      end
  end.

Definition fetch_request (url : string) : request :=
  mkRequest url [] [("User-Agent", user_agent)] (Some 10).

Definition plain_request (url : string) : request := mkRequest url [] [] None.

Lemma web_fetch_run (url : string) (x : bool) (w : world) :
  web_fetch url x w =
  (inr (fetch_outcome url x (network w (fetch_request url))),
   after_send (fetch_request url) w).
Proof.
  unfold web_fetch, fetch_outcome, fetch_handler, try_except, bind, requests_get, lift, ret.
  fold (fetch_request url).
  destruct (network w (fetch_request url)) as [e | r].
  - destruct (is_RequestException e); reflexivity.
  - destruct (negb (status_code r =? 200)); [reflexivity |].
    destruct (fetch_result url x r) as [e | v]; [| reflexivity].
    destruct (is_RequestException e); reflexivity.
Qed.

Lemma geocode_run (city : string) (w : world) :
  geocode city w =
  (inr (geocode_outcome (network w (plain_request (geocode_url city)))),
   after_send (plain_request (geocode_url city)) w).
Proof.
  unfold geocode, geocode_outcome, open_meteo_handler, try_except, bind, requests_get,
    lift, ret.
  fold (plain_request (geocode_url city)).
  destruct (network w (plain_request (geocode_url city))) as [e | r].
  - destruct (is_HTTPError e); reflexivity.
  - match goal with |- context [bindE ?a ?b] => destruct (bindE a b) as [e | v] end.
    + destruct (is_HTTPError e); reflexivity.
    + reflexivity.
Qed.

Lemma get_weather_run (la lo : pyfloat) (w : world) :
  get_weather la lo w =
  (inr (weather_outcome (network w (plain_request (weather_url la lo)))),
   after_send (plain_request (weather_url la lo)) w).
Proof.
  unfold get_weather, weather_outcome, open_meteo_handler, try_except, bind, requests_get,
    lift, ret.
  fold (plain_request (weather_url la lo)).
  destruct (network w (plain_request (weather_url la lo))) as [e | r].
  - destruct (is_HTTPError e); reflexivity.
  - match goal with |- context [bindE ?a ?b] => destruct (bindE a b) as [e | v] end.
    + destruct (is_HTTPError e); reflexivity.
    + reflexivity.
Qed.

(** ** C1: the status field *)

(** A dictionary with the single key ["error"]. *)
Definition bare_error (v : json) : Prop :=
  exists msg, v = JObj [("error", JStr msg)].

(** The value is what [response.json()] gave for some reply of the network. *)
Definition decoded_reply (w : world) (v : json) : Prop :=
  exists req r, network w req = inr r /\ json_body r = inr v.

Lemma open_meteo_handler_bare (e : exn) : bare_error (open_meteo_handler e).
Proof.
  unfold open_meteo_handler, http_error_dict, other_error_dict.
  destruct (is_HTTPError e); eexists; reflexivity.
Qed.

Lemma geocode_outcome_shape (w : world) (req : request) :
  bare_error (geocode_outcome (network w req))
  \/ decoded_reply w (geocode_outcome (network w req)).
Proof.
  unfold geocode_outcome.
  destruct (network w req) as [e | r] eqn:Enet.
  - left. apply open_meteo_handler_bare.
  - match goal with |- context [bindE ?a ?b] => destruct (bindE a b) as [e | v] eqn:Ev end.
    + left. apply open_meteo_handler_bare.
    + apply bindE_inr in Ev as (u & _ & Ev).
      apply bindE_inr in Ev as (data & Hdata & Ev).
      apply bindE_inr in Ev as (has & _ & Ev).
      destruct has; simpl in Ev; inversion Ev; subst.
      * right. exists req, r. split; assumption.
      * left. eexists; reflexivity.
Qed.

Lemma weather_outcome_shape (w : world) (req : request) :
  bare_error (weather_outcome (network w req))
  \/ decoded_reply w (weather_outcome (network w req)).
Proof.
  unfold weather_outcome.
  destruct (network w req) as [e | r] eqn:Enet.
  - left. apply open_meteo_handler_bare.
  - match goal with |- context [bindE ?a ?b] => destruct (bindE a b) as [e | v] eqn:Ev end.
    + left. apply open_meteo_handler_bare.
    + apply bindE_inr in Ev as (u & _ & Ev).
      right. exists req, r. split; assumption.
Qed.

Lemma fetch_outcome_status (url : string) (x : bool) (o : E response) :
  well_statused (fetch_outcome url x o).
Proof.
  unfold fetch_outcome, fetch_handler, well_statused. destruct o as [e | r].
  - destruct (is_RequestException e); right; reflexivity.
  - destruct (negb (status_code r =? 200)); [right; reflexivity |].
    destruct (fetch_result url x r) as [e | v] eqn:Ev.
    + destruct (is_RequestException e); right; reflexivity.
    + left. eapply fetch_result_status. exact Ev.
Qed.

(** C1, amended.  Every tool returns a value and never raises.  For
    web_search, web_fetch, youtube_search, scholar_search and
    google_flights_search the returned dictionary has a "status" that is
    "success" or "error".  geocode and get_weather add no status: they
    return a dictionary with the single key "error", or the decoded reply of
    the API as it came. *)
Theorem status_field_of_every_tool (c : tool_call) (w : world) :
  exists v,
    fst (invoke c w) = inr v
    /\ (if open_meteo c then bare_error v \/ decoded_reply w v else well_statused v).
Proof.
  destruct (open_meteo c) eqn:Hom.
  - destruct c; try discriminate; simpl invoke.
    + rewrite geocode_run. eexists; split; [reflexivity |].
      apply geocode_outcome_shape.
    + rewrite get_weather_run. eexists; split; [reflexivity |].
      apply weather_outcome_shape.
  - destruct c as [| | | u x | | |] eqn:Ec; try discriminate.
    2: { simpl invoke. rewrite web_fetch_run. eexists; split; [reflexivity |].
         apply fetch_outcome_status. }
    all: rewrite <- Ec;
      assert (Hk : needs_serpapi_key c = true) by (subst c; reflexivity);
      rewrite (invoke_serp c w Hk);
      destruct (serp_run_shape (tool_what c) (tool_what c) (tool_precheck c)
                  (tool_params c) (tool_process c) (tool_precheck_error c) w)
        as (v & Heq & [(msg & ->) | (r & sr & _ & _ & _ & _ & Hv)]);
      rewrite Heq; eexists; (split; [reflexivity |]);
      [ right; reflexivity | left; eapply tool_process_status; eassumption ].
Qed.

Definition refusing : request -> E response :=
  fun _ => inl (mkExn RequestException "connection refused").

Definition some_day : date := mkDate 2026 1 1.

(** C1 as stated fails for geocode and get_weather: when the request cannot
    be sent, each returns a dictionary whose only key is "error". *)
Lemma open_meteo_tools_return_no_status :
  let w := fresh_world [] some_day refusing in
  fst (invoke (Geocode "Paris") w)
    = inr (JObj [("error", JStr "Other error occurred: connection refused")])
  /\ fst (invoke (GetWeather {| float_repr := "48.85"; float_is_zero := false |}
                             {| float_repr := "2.35"; float_is_zero := false |}) w)
    = inr (JObj [("error", JStr "Other error occurred: connection refused")])
  /\ ~ well_statused (JObj [("error", JStr "Other error occurred: connection refused")]).
Proof.
  cbv zeta. split; [reflexivity |]. split; [reflexivity |].
  intros [H | H]; discriminate H.
Qed.

(** ** C2: the size of the returned collections *)

Definition empty_soup : soup :=
  {| soup_title := None; soup_text := ""; soup_metas := []; soup_anchors := [] |}.

(** A network that answers every request with status 200 and the JSON [j]. *)
Definition answering (j : json) : request -> E response :=
  fun _ => inr (mkResponse 200 "OK" "" 0 [] (inr j) (inr empty_soup) "" 0).

Definition serp_env : list (string * string) := [("SERPAPI_API_KEY", "k")].

(** C2, at the failing inputs.  scholar_search copies every entry of the
    reply: asked for one result and answered with three, it returns three.
    web_search cuts the reply at num_results, not at the documented maximum
    of 100: asked for 200 results and answered with 101, it returns 101,
    while the request it sent asked the API for 100. *)
Theorem result_caps_exceeded :
  let three := JObj [("organic_results", JArr [JObj []; JObj []; JObj []])] in
  let many := JObj [("organic_results", JArr (repeat (JObj []) 101))] in
  (exists v,
      fst (invoke (ScholarSearch "coq" 1 "relevance" None None)
             (fresh_world serp_env some_day (answering three))) = inr v
      /\ field "status" v = Some (JStr "success")
      /\ count_of "organic_results" v = Some 3%nat)
  /\ (exists v req,
         invoke (WebSearch "coq" (Some 200) (Some false) None)
           (fresh_world serp_env some_day (answering many))
         = (inr v, mkWorld serp_env some_day (answering many) [req]
                           ["SERPAPI_API_KEY"] None)
         /\ dict_get "num" (req_params req) = Some (JInt 100)
         /\ count_of "organic_results" v = Some 101%nat).
Proof.
  cbv zeta. split.
  - eexists. split; [vm_compute; reflexivity |]. split; reflexivity.
  - eexists. eexists. split; [vm_compute; reflexivity |]. split; reflexivity.
Qed.


(** The caps that do hold: [web_fetch] returns at most 100 links, and a
    slice [[:n]] with [0 <= n] keeps at most [n] items. *)
Lemma fetch_links_at_most_100 (s : soup) : (length (fetch_links s) <= 100)%nat.
Proof. unfold fetch_links. apply firstn_le_length. Qed.

Lemma slice_to_at_most {A} (n : Z) (l : list A) :
  0 <= n -> Z.of_nat (length (slice_to n l)) <= n.
Proof.
  intros Hn. unfold slice_to.
  destruct (0 <=? n) eqn:E; [| apply Z.leb_gt in E; lia].
  pose proof (firstn_le_length (Z.to_nat n) l). lia.
Qed.

(** With a negative [n] the slice drops items from the end instead. *)
Example slice_to_negative : slice_to (-1) [1; 2; 3] = [1; 2].
Proof. reflexivity. Qed.

(** ** What a tool call does to the world *)

Definition reads_of (c : tool_call) : list string :=
  if needs_serpapi_key c then ["SERPAPI_API_KEY"] else [].

Definition requests_of (c : tool_call) (w : world) : list request :=
  match c with
  | Geocode city => [plain_request (geocode_url city)]
  | GetWeather la lo => [plain_request (weather_url la lo)]
  | WebFetch u _ => [fetch_request u]
  | _ => if reaches_network (tool_precheck c) w then [serp_request (tool_params c) w] else []
  end.


Lemma requests_of_serp (c : tool_call) (w : world) :
  needs_serpapi_key c = true ->
  requests_of c w =
  if reaches_network (tool_precheck c) w then [serp_request (tool_params c) w] else [].
Proof. destruct c; try discriminate; reflexivity. Qed.

(** Every call returns a value; its requests and its reads are added to the
    logs; the environment, the clock, the network and the module state are
    the ones it found. *)
Lemma invoke_world (c : tool_call) (w : world) :
  exists v,
    invoke c w =
    (inr v, mkWorld (os_environ w) (clock_today w) (network w)
                    (sent w ++ requests_of c w) (env_reads w ++ reads_of c)
                    (module_state w)).
Proof.
  destruct (needs_serpapi_key c) eqn:Hk.
  - rewrite (invoke_serp c w Hk).
    destruct (serp_run_shape (tool_what c) (tool_what c) (tool_precheck c)
                (tool_params c) (tool_process c) (tool_precheck_error c) w)
      as (v & Heq & _).
    exists v. rewrite Heq. unfold reads_of. rewrite Hk.
    destruct c; try discriminate; reflexivity.
  - unfold reads_of. rewrite Hk. rewrite app_nil_r.
    destruct c; try discriminate; simpl invoke; simpl requests_of.
    + rewrite geocode_run. eexists; reflexivity.
    + rewrite get_weather_run. eexists; reflexivity.
    + rewrite web_fetch_run. eexists; reflexivity.
Qed.

(** ** C3: the configuration variables *)

Definition startup_reads : list string :=
  ["OPENAI_API_BASE_URL"; "OPENAI_API_KEY"; "MODEL_NAME"].

Definition configuration_error : exn :=
  mkExn ValueError "Please set OPENAI_API_KEY in your .env file".

Definition model_or_default (v : option string) : string :=
  match v with
  | Some m => if Str.nonempty m then m else "gpt-4o"
  | None => "gpt-4o"
  end.

(** C3, amended.  Loading example.py reads OPENAI_API_BASE_URL,
    OPENAI_API_KEY and MODEL_NAME once each, in this order, and nothing
    else.  Only a missing or empty OPENAI_API_KEY raises the configuration
    error, and then the chat never starts; a missing base URL is kept as
    None and a missing model name becomes "gpt-4o".  SERPAPI_API_KEY is not
    read at startup: each call of a SerpAPI tool reads it once, and when it
    is missing the call returns an error dictionary without sending
    anything. *)
Theorem configuration_variables (w : world) :
  let env := os_environ w in
  env_reads (snd (load_module w)) = (env_reads w ++ startup_reads)%list
  /\ (if missing (env_lookup "OPENAI_API_KEY" env) then
        fst (load_module w) = inl configuration_error
        /\ (forall run stdin, fst (main run stdin w) = inl configuration_error)
      else
        fst (load_module w)
        = inr (mkGlobals (env_lookup "OPENAI_API_BASE_URL" env)
                         (api_key_of (env_lookup "OPENAI_API_KEY" env))
                         (model_or_default (env_lookup "MODEL_NAME" env))))
  /\ (forall c, env_reads (snd (invoke c w)) = (env_reads w ++ reads_of c)%list)
  /\ (forall c,
         needs_serpapi_key c = true ->
         missing (env_lookup "SERPAPI_API_KEY" env) = true ->
         exists msg,
           invoke c w = (inr (error_dict msg), after_read "SERPAPI_API_KEY" w)).
Proof.
  cbv zeta. split; [| split; [| split]].
  - unfold load_module, bind, os_getenv, raise. simpl.
    destruct (missing (env_lookup "OPENAI_API_KEY" (os_environ w)));
      simpl; unfold startup_reads; repeat rewrite <- app_assoc; reflexivity.
  - unfold main, load_module, bind, os_getenv, raise, model_or_default. simpl.
    destruct (missing (env_lookup "OPENAI_API_KEY" (os_environ w))); simpl.
    + split; [reflexivity | intros; reflexivity].
    + reflexivity.
  - intros c. destruct (invoke_world c w) as (v & ->). reflexivity.
  - intros c Hk Hmiss. rewrite (invoke_serp c w Hk). unfold serp_run.
    rewrite Hmiss. eexists; reflexivity.
Qed.

(** C3 as stated fails: with OPENAI_API_KEY alone in the environment the
    module loads, the base URL is None and the model is "gpt-4o";
    SERPAPI_API_KEY is not among the names read at startup, and two tool
    calls read it twice. *)
Lemma startup_needs_only_the_api_key :
  let w := fresh_world [("OPENAI_API_KEY", "sk-test")] some_day refusing in
  load_module w
  = (inr (mkGlobals None "sk-test" "gpt-4o"),
     mkWorld [("OPENAI_API_KEY", "sk-test")] some_day refusing [] startup_reads
             (Some (mkGlobals None "sk-test" "gpt-4o")))
  /\ env_reads
       (snd (invoke (ScholarSearch "coq" 5 "date" None None)
               (snd (invoke (WebSearch "coq" None None None) w))))
     = ["SERPAPI_API_KEY"; "SERPAPI_API_KEY"].
Proof. cbv zeta. split; reflexivity. Qed.

(** ** C4: dates are checked before the network is used *)

(** The date checks on ASCII text, where [Strptime.strptime] is the
    library's parser.  [s] is accepted by [strptime(s, "%Y-%m-%d")] and
    names the day [d]. *)
Definition parses (s : string) (d : date) : Prop := Strptime.strptime s = inr d.

(** [s] is not a date in that format. *)
Definition malformed (s : string) : Prop := exists e, Strptime.strptime s = inl e.

(** The calls the flight tool turns down for their dates.  A return date
    counts when one is given, that is when it is neither [None] nor empty. *)
Inductive bad_dates (today : date) (departure_date : string)
    (return_date : option string) : Prop :=
| departure_malformed :
    malformed departure_date -> bad_dates today departure_date return_date
| return_malformed (rd : string) :
    return_date = Some rd -> rd <> "" -> malformed rd ->
    bad_dates today departure_date return_date
| departure_in_the_past (d : date) :
    parses departure_date d -> date_ltb d today = true ->
    bad_dates today departure_date return_date
| return_before_departure (d r : date) (rd : string) :
    parses departure_date d -> return_date = Some rd -> parses rd r ->
    date_ltb r d = true -> bad_dates today departure_date return_date.

Lemma nonempty_true (s : string) : s <> "" -> Str.nonempty s = true.
Proof. destruct s; [congruence | reflexivity]. Qed.

Lemma strptime_empty : malformed "".
Proof. eexists; reflexivity. Qed.

Lemma bad_dates_verdict (today : date) (dd : string) (rd : option string) :
  bad_dates today dd rd -> exists msg, date_verdict dd rd today = Some (error_dict msg).
Proof.
  intros H. unfold date_verdict.
  destruct H as [(e & He) | rd' Hrd Hne (e & He) | d Hd Hpast | d r rd' Hd Hrd Hr Hlt].
  - rewrite He. eexists; reflexivity.
  - subst rd. destruct (Strptime.strptime dd) as [e' | dep]; [eexists; reflexivity |].
    destruct (date_ltb dep today); [eexists; reflexivity |].
    rewrite (nonempty_true _ Hne), He. eexists; reflexivity.
  - unfold parses in Hd. rewrite Hd, Hpast. eexists; reflexivity.
  - unfold parses in Hd, Hr. subst rd. rewrite Hd.
    destruct (date_ltb d today); [eexists; reflexivity |].
    destruct (Str.nonempty rd') eqn:Ene.
    + rewrite Hr, Hlt. eexists; reflexivity.
    + destruct rd'; [| discriminate]. destruct strptime_empty as (e & He).
      rewrite He in Hr. discriminate.
Qed.

(** The calls google_flights_search turns down for their dates, read off the
    code for any parser: the parser raises on the departure date, or on a
    return date that is given (neither [None] nor empty); or the departure
    date it read is before today; or the return date it read, of one that is
    given, is before the departure date. *)
Inductive rejected_dates (parse_date : string -> E date) (today : date)
    (departure_date : string) (return_date : option string) : Prop :=
| departure_rejected (e : exn) :
    parse_date departure_date = inl e ->
    rejected_dates parse_date today departure_date return_date
| return_rejected (rd : string) (e : exn) :
    return_date = Some rd -> rd <> "" -> parse_date rd = inl e ->
    rejected_dates parse_date today departure_date return_date
| departure_before_today (d : date) :
    parse_date departure_date = inr d -> date_ltb d today = true ->
    rejected_dates parse_date today departure_date return_date
| return_before_the_departure (d r : date) (rd : string) :
    return_date = Some rd -> rd <> "" ->
    parse_date departure_date = inr d -> parse_date rd = inr r ->
    date_ltb r d = true ->
    rejected_dates parse_date today departure_date return_date.

Lemma rejected_dates_verdict (parse_date : string -> E date) (today : date)
    (dd : string) (rd : option string) :
  rejected_dates parse_date today dd rd ->
  exists msg, date_verdict_with parse_date dd rd today = Some (error_dict msg).
Proof.
  intros H. unfold date_verdict_with.
  destruct H as [e He | rd' e Hrd Hne He | d Hd Hpast | d r rd' Hrd Hne Hd Hr Hlt].
  - rewrite He. destruct (date_failure_error e) as (msg & ->). eexists; reflexivity.
  - subst rd. destruct (parse_date dd) as [e' | dep].
    + destruct (date_failure_error e') as (msg & ->). eexists; reflexivity.
    + destruct (date_ltb dep today); [eexists; reflexivity |].
      rewrite (nonempty_true _ Hne), He.
      destruct (date_failure_error e) as (msg & ->). eexists; reflexivity.
  - rewrite Hd, Hpast. eexists; reflexivity.
  - subst rd. rewrite Hd.
    destruct (date_ltb d today); [eexists; reflexivity |].
    rewrite (nonempty_true _ Hne), Hr, Hlt. eexists; reflexivity.
Qed.

(** C4, amended.  When datetime.strptime(…, "%Y-%m-%d") rejects the
    departure date, or rejects a return date that is given (neither None
    nor the empty string), or the departure date is before today, or a given
    return date is before the departure date, google_flights_search returns
    an error dictionary and sends no request.  The parser is the library's,
    whatever strings it accepts: the statement is for every [parse_date]
    (and every [to_upper]). *)
Theorem rejected_dates_stop_before_the_network
    (to_upper : string -> string) (parse_date : string -> E date)
    (o d dd : string) (rd : option string) (ad ch inf : Z) (st : option string)
    (fc : string) (mp : option Z) (cur : string) (al : option (list string))
    (w : world) :
  rejected_dates parse_date (clock_today w) dd rd ->
  exists msg,
    fst (google_flights_search_with to_upper parse_date
           o d dd rd ad ch inf st fc mp cur al w)
    = inr (error_dict msg)
    /\ sent (snd (google_flights_search_with to_upper parse_date
                    o d dd rd ad ch inf st fc mp cur al w)) = sent w.
Proof.
  intros Hbad. rewrite google_flights_search_with_run. unfold serp_run.
  destruct (missing (env_lookup "SERPAPI_API_KEY" (os_environ w))).
  - eexists; split; reflexivity.
  - destruct (rejected_dates_verdict _ _ _ _ Hbad) as (msg & ->).
    exists msg; split; reflexivity.
Qed.

Definition a_key_and_silence : world := fresh_world serp_env some_day refusing.

Lemma rejected_dates_stop_before_the_network_witness :
  rejected_dates Strptime.strptime (clock_today a_key_and_silence)
    "2025-05-15" (Some "2025-05-22")
  /\ exists msg,
      fst (google_flights_search_with Str.upper Strptime.strptime
             "nyc" "lhr" "2025-05-15" (Some "2025-05-22") 1 0 0 None
             "economy" None "USD" None a_key_and_silence)
      = inr (error_dict msg)
      /\ sent (snd (google_flights_search_with Str.upper Strptime.strptime
                      "nyc" "lhr" "2025-05-15" (Some "2025-05-22") 1 0
                      0 None "economy" None "USD" None a_key_and_silence))
         = sent a_key_and_silence.
Proof.
  assert (H : rejected_dates Strptime.strptime (clock_today a_key_and_silence)
                "2025-05-15" (Some "2025-05-22")).
  { apply (departure_before_today _ _ _ _ (mkDate 2025 5 15)); reflexivity. }
  split; [exact H |].
  exact (rejected_dates_stop_before_the_network Str.upper Strptime.strptime
           "nyc" "lhr" "2025-05-15" (Some "2025-05-22")
           1 0 0 None "economy" None "USD" None a_key_and_silence H).
Defined.

Definition is_digit (c : ascii) : bool :=
  (48 <=? nat_of_ascii c)%nat && (nat_of_ascii c <=? 57)%nat.

(** The shape the words YYYY-MM-DD name: four digits, a dash, two digits, a
    dash, two digits. *)
Definition iso_shaped (s : string) : bool :=
  match s with
  | String y1 (String y2 (String y3 (String y4 (String "-"
      (String m1 (String m2 (String "-" (String d1 (String d2 EmptyString))))))))) =>
      is_digit y1 && is_digit y2 && is_digit y3 && is_digit y4
      && is_digit m1 && is_digit m2 && is_digit d1 && is_digit d2
  | _ => false
  end.

(** C4 as stated fails twice.  The empty string is no YYYY-MM-DD date, yet
    as a return date it is taken as "no return date": the request is sent
    and the search succeeds.  And strptime reads a month or a day of one
    digit, so 2026-5-1 and 2026-5-9, which are not of the shape YYYY-MM-DD,
    pass the checks: the request is sent, with the dates as they were
    given. *)
Lemma dates_off_the_format_reach_the_network :
  let w := fresh_world serp_env some_day (answering (JObj [])) in
  let one_way := google_flights_search "nyc" "lhr" "2026-05-15" (Some "") 1 0 0 None
                   "economy" None "USD" None w in
  let short := google_flights_search "nyc" "lhr" "2026-5-1" (Some "2026-5-9") 1 0 0 None
                 "economy" None "USD" None w in
  iso_shaped "" = false
  /\ (exists v, fst one_way = inr v /\ field "status" v = Some (JStr "success"))
  /\ List.map req_url (sent (snd one_way)) = ["https://serpapi.com/search"]
  /\ iso_shaped "2026-5-1" = false
  /\ iso_shaped "2026-5-9" = false
  /\ (exists v, fst short = inr v /\ field "status" v = Some (JStr "success"))
  /\ List.map (fun req => (dict_get "outbound_date" (req_params req),
                           dict_get "return_date" (req_params req)))
       (sent (snd short))
     = [(Some (JStr "2026-5-1"), Some (JStr "2026-5-9"))].
Proof.
  cbv zeta. split; [reflexivity |]. split.
  { eexists. split; [vm_compute; reflexivity | reflexivity]. }
  split; [reflexivity |]. split; [reflexivity |]. split; [reflexivity |]. split.
  { eexists. split; [vm_compute; reflexivity | reflexivity]. }
  vm_compute. reflexivity.
Qed.

(** ** C5: failures become error dictionaries, and one request at most *)







Lemma raise_for_status_raises (r : response) :
  (400 <=? status_code r) && (status_code r <? 600) = true ->
  exists e, raise_for_status r = inl e.
Proof.
  intros H. unfold raise_for_status.
  destruct ((400 <=? status_code r) && (status_code r <? 500)) eqn:E4;
    [eexists; reflexivity |].
  destruct ((500 <=? status_code r) && (status_code r <? 600)) eqn:E5;
    [eexists; reflexivity |].
  exfalso.
  apply andb_true_iff in H as (Hlo & Hhi).
  apply Z.leb_le in Hlo. apply Z.ltb_lt in Hhi.
  apply andb_false_iff in E4. apply andb_false_iff in E5.
  destruct E4 as [E4 | E4]; [apply Z.leb_gt in E4; lia |].
  apply Z.ltb_ge in E4.
  destruct E5 as [E5 | E5]; [apply Z.leb_gt in E5; lia |].
  apply Z.ltb_ge in E5. lia.
Qed.








(** ** C6: what the conversation history holds *)

Definition assistant_message (content : string) : json :=
  JObj [("role", JStr "assistant"); ("content", JStr content)].

Definition message_item (content : string) : run_item :=
  {| item_type := "message_output_item";
     to_input_item := Some (assistant_message content);
     item_text := content |}.

(** A runtime that answers every run with one message. *)
Definition answering_runner : runner :=
  fun n _ => [RunItem (message_item ("answer " ++ Str.of_Z (Z.of_nat n)))].

(** C6, at the failing input.  Two turns, "hello" and "again", then "exit".
    The first turn forwards the bare text.  The second forwards the history
    followed by the new user message, and that history holds the answer to
    "hello" but not "hello" itself: the user message is placed in the list
    built for the call and never appended to the conversation.  At the end
    the conversation holds the two answers and no user turn. *)
Theorem user_turns_are_not_kept :
  let o := chat_with_agent answering_runner ["hello"; "again"; "exit"] in
  how o = Exited
  /\ io_log o
     = [Prompt (Some "hello");
        Forward (InputText "hello");
        Prompt (Some "again");
        Forward (InputItems [assistant_message "answer 0"; user_message "again"]);
        Prompt (Some "exit")]
  /\ conversation_at_end o = [assistant_message "answer 0"; assistant_message "answer 1"]
  /\ ~ In (user_message "hello") (conversation_at_end o)
  /\ ~ In (user_message "again") (conversation_at_end o).
Proof.
  cbv zeta. split; [reflexivity |]. split; [reflexivity |]. split; [reflexivity |].
  split; intros H; simpl in H; repeat (destruct H as [H | H]; [discriminate H |]);
    exact H.
Qed.

(** ** C7: the sentinel *)

Definition is_exit (line : string) : bool := String.eqb (Str.lower line) "exit".

(** The lines the loop asked for, in order. *)
Definition prompts (log : list io_event) : list (option string) :=
  flat_map (fun e => match e with Prompt l => [l] | Forward _ => [] end) log.

(** The number of runs the loop started. *)
Definition forwards (log : list io_event) : nat :=
  length (filter (fun e => match e with Forward _ => true | Prompt _ => false end) log).

(** The runtime ends every stream without raising, and every tool call it
    shows has its name and arguments. *)
Definition completes (run : runner) : Prop :=
  forall n input, exists items msg, consume (run n input) [] "" = inr (items, msg).

Lemma prompts_app (l1 l2 : list io_event) :
  prompts (l1 ++ l2) = (prompts l1 ++ prompts l2)%list.
Proof. apply flat_map_app. Qed.

Lemma forwards_app (l1 l2 : list io_event) :
  forwards (l1 ++ l2) = (forwards l1 + forwards l2)%nat.
Proof. unfold forwards. rewrite filter_app, length_app. reflexivity. Qed.

Lemma chat_loop_until_exit (run : runner) (after : list string) (line : string) :
  completes run ->
  is_exit line = true ->
  forall before runs conversation log,
    Forall (fun l => is_exit l = false) before ->
    let o := chat_loop run (before ++ line :: after) runs conversation log in
    how o = Exited
    /\ prompts (io_log o) = (prompts log ++ List.map Some (before ++ [line]))%list
    /\ forwards (io_log o) = (forwards log + length before)%nat.
Proof.
  intros Hrun Hexit. induction before as [| l before IH]; intros runs conv log Hall.
  - simpl. unfold is_exit in Hexit. rewrite Hexit. simpl.
    rewrite prompts_app, forwards_app. simpl.
    split; [reflexivity |]. split; reflexivity.
  - inversion Hall as [| ? ? Hl Hrest]; subst.
    simpl app. cbn [chat_loop]. unfold is_exit in Hl. rewrite Hl.
    match goal with |- context [consume (run runs ?inp) [] ""] =>
      destruct (Hrun runs inp) as (items & msg & ->)
    end.
    specialize (IH (S runs) (extend_conversation conv items)
                   ((log ++ [Prompt (Some l)]) ++
                    [Forward match conv with
                             | [] => InputText l
                             | _ :: _ => InputItems (conv ++ [user_message l])
                             end])%list Hrest).
    cbv zeta in IH. destruct IH as (H1 & H2 & H3).
    split; [exact H1 |]. split.
    + rewrite H2. rewrite !prompts_app. simpl. rewrite <- !app_assoc. reflexivity.
    + rewrite H3. rewrite !forwards_app. unfold forwards at 2 3. simpl. lia.
Qed.

(** C7, amended.  The loop ends at the first line whose lower-case form is
    "exit" ("exit", "EXIT", "Exit", ...): the lines after it are not read.
    Every line before it that is not such a line starts a run and, when the
    runtime completes the turn, is followed by another prompt. *)
Theorem loop_ends_at_the_sentinel (run : runner) (before : list string) (line : string)
    (after : list string) :
  completes run ->
  Forall (fun l => is_exit l = false) before ->
  is_exit line = true ->
  let o := chat_with_agent run (before ++ line :: after) in
  how o = Exited
  /\ prompts (io_log o) = List.map Some (before ++ [line])
  /\ forwards (io_log o) = length before.
Proof.
  intros Hrun Hall Hexit. unfold chat_with_agent.
  exact (chat_loop_until_exit run after line Hrun Hexit before 0%nat [] [] Hall).
Qed.

Definition silent_runner : runner := fun _ _ => [].

Lemma loop_ends_at_the_sentinel_witness :
  let o := chat_with_agent silent_runner (["hi"; "what now"] ++ "Exit" :: ["more"]) in
  how o = Exited
  /\ prompts (io_log o) = List.map Some (["hi"; "what now"] ++ ["Exit"])
  /\ forwards (io_log o) = length ["hi"; "what now"].
Proof.
  apply (loop_ends_at_the_sentinel silent_runner ["hi"; "what now"] "Exit" ["more"]).
  - intros n input. exists [], "". reflexivity.
  - repeat constructor.
  - reflexivity.
Defined.

(** C7 as stated fails: "EXIT" is not the string "exit", and the loop ends
    at it all the same, leaving the next line unread. *)
Lemma upper_case_exit_ends_the_loop :
  "EXIT" <> "exit"
  /\ chat_with_agent answering_runner ["EXIT"; "hello"]
     = mkOutcome Exited [] [Prompt (Some "EXIT")].
Proof. split; [discriminate | reflexivity]. Qed.

(** ** C8: what a tool's result depends on, and what a call leaves alone *)

Definition uses_clock (c : tool_call) : bool :=
  match c with
  | GoogleFlightsSearch _ _ _ _ _ _ _ _ _ _ _ _ => true
  | _ => false
  end.

Lemma skipn_exact {A} (l l' : list A) : skipn (length l) (l ++ l') = l'.
Proof. induction l as [| a l IH]; simpl; [reflexivity | exact IH]. Qed.

Lemma new_requests_of_invoke (c : tool_call) (w : world) :
  new_requests w (snd (invoke c w)) = requests_of c w.
Proof.
  destruct (invoke_world c w) as (v & ->). unfold new_requests. simpl.
  apply skipn_exact.
Qed.

Lemma serp_handlers_fst (what : string) (e : exn) (w1 w2 : world) :
  fst (serp_handlers what e w1) = fst (serp_handlers what e w2).
Proof.
  unfold serp_handlers.
  destruct (is_RequestException e); [reflexivity |].
  destruct (is_JSONDecodeError e); reflexivity.
Qed.

Lemma serp_run_depends (what tool : string) (precheck : date -> option json)
    (params : string -> dict) (process : json -> E json) (w1 w2 : world) :
  os_environ w1 = os_environ w2 ->
  precheck (clock_today w1) = precheck (clock_today w2) ->
  (reaches_network precheck w1 = true ->
   network w1 (serp_request params w1) = network w2 (serp_request params w1)) ->
  fst (serp_run what tool precheck params process w1)
  = fst (serp_run what tool precheck params process w2).
Proof.
  intros Henv Hpre Hnet. unfold serp_run, reaches_network, serp_request in *.
  rewrite <- Henv, <- Hpre.
  destruct (missing (env_lookup "SERPAPI_API_KEY" (os_environ w1))); [reflexivity |].
  destruct (precheck (clock_today w1)); [reflexivity |].
  rewrite <- (Hnet eq_refl).
  match goal with |- context [network w1 ?rq] => destruct (network w1 rq) as [e | r] end.
  - apply serp_handlers_fst.
  - destruct (negb (status_code r =? 200)); [reflexivity |].
    destruct (bindE (json_body r) process); [apply serp_handlers_fst | reflexivity].
Qed.

(** C8, amended.  Take two worlds with the same environment variables, the
    same answer of the network to the request the call sends and, for
    google_flights_search, the same current date; the module state and the
    logs of what earlier calls read and sent may differ.  A tool call
    returns the same value in both, and it leaves the module state, the
    environment, the clock and the network as it found them. *)
Theorem tools_are_request_response_adapters (c : tool_call) (w1 w2 : world) :
  os_environ w1 = os_environ w2 ->
  (forall req, In req (new_requests w1 (snd (invoke c w1))) ->
               network w1 req = network w2 req) ->
  (uses_clock c = true -> clock_today w1 = clock_today w2) ->
  fst (invoke c w1) = fst (invoke c w2)
  /\ module_state (snd (invoke c w1)) = module_state w1
  /\ os_environ (snd (invoke c w1)) = os_environ w1
  /\ clock_today (snd (invoke c w1)) = clock_today w1
  /\ network (snd (invoke c w1)) = network w1.
Proof.
  intros Henv Hnet Hclock. rewrite new_requests_of_invoke in Hnet.
  split.
  - destruct (needs_serpapi_key c) eqn:Hk.
    + rewrite !(invoke_serp c _ Hk). apply serp_run_depends.
      * exact Henv.
      * destruct c; try discriminate; try reflexivity.
        simpl. rewrite (Hclock eq_refl). reflexivity.
      * intros Hreach. apply Hnet. rewrite (requests_of_serp c w1 Hk), Hreach.
        left; reflexivity.
    + destruct c; try discriminate; simpl invoke; simpl in Hnet.
      * rewrite !geocode_run. simpl. rewrite (Hnet _ (or_introl eq_refl)). reflexivity.
      * rewrite !get_weather_run. simpl. rewrite (Hnet _ (or_introl eq_refl)). reflexivity.
      * rewrite !web_fetch_run. simpl. rewrite (Hnet _ (or_introl eq_refl)). reflexivity.
  - destruct (invoke_world c w1) as (v & ->). simpl. repeat split.
Qed.

Definition two_clocks_one_call : tool_call :=
  GoogleFlightsSearch "nyc" "lhr" "2026-05-15" None 1 0 0 None "economy" None "USD" None.

Lemma tools_are_request_response_adapters_witness :
  let w1 := mkWorld serp_env some_day (answering (JObj [])) [] [] None in
  let w2 := mkWorld serp_env some_day (answering (JObj []))
                    [plain_request "https://earlier.example"] ["SERPAPI_API_KEY"]
                    (Some (mkGlobals None "sk-test" "gpt-4o")) in
  fst (invoke two_clocks_one_call w1) = fst (invoke two_clocks_one_call w2)
  /\ module_state (snd (invoke two_clocks_one_call w1)) = module_state w1
  /\ os_environ (snd (invoke two_clocks_one_call w1)) = os_environ w1
  /\ clock_today (snd (invoke two_clocks_one_call w1)) = clock_today w1
  /\ network (snd (invoke two_clocks_one_call w1)) = network w1.
Proof.
  cbv zeta.
  apply (tools_are_request_response_adapters two_clocks_one_call).
  - reflexivity.
  - intros req _. reflexivity.
  - intros _. reflexivity.
Defined.

Definition status_of_run (r : E json) : option json :=
  match r with inr v => field "status" v | inl _ => None end.

(** C8 as stated fails for google_flights_search: with the same arguments,
    the same environment and the same answer of the network, the result
    still follows the current date. *)
Lemma flight_search_reads_the_clock :
  let w1 := fresh_world serp_env (mkDate 2026 1 1) (answering (JObj [])) in
  let w2 := fresh_world serp_env (mkDate 2027 1 1) (answering (JObj [])) in
  os_environ w1 = os_environ w2
  /\ network w1 = network w2
  /\ status_of_run (fst (invoke two_clocks_one_call w1)) = Some (JStr "success")
  /\ fst (invoke two_clocks_one_call w2)
     = inr (error_dict
              "Departure date 2026-05-15 is in the past. Please provide a future date.").
Proof. cbv zeta. repeat split. Qed.

(** ** C9: the defaults of web_search *)

Lemma web_search_sends (q : string) (n : option Z) (i : option bool) (t : option string)
    (w : world) :
  missing (env_lookup "SERPAPI_API_KEY" (os_environ w)) = false ->
  sent (snd (web_search q n i t w))
  = (sent w ++ [serp_request (tool_params (WebSearch q n i t)) w])%list.
Proof.
  intros Hkey.
  destruct (invoke_world (WebSearch q n i t) w) as (v & Heq). simpl invoke in Heq.
  rewrite Heq. simpl. unfold reaches_network. rewrite Hkey. reflexivity.
Qed.

Lemma web_search_params_num (q key : string) (n : Z) (t : string) :
  dict_get "num" (web_search_params q key n t) = Some (JInt (Z.min n 100)).
Proof.
  unfold web_search_params.
  destruct (Str.nonempty t); [| reflexivity].
  destruct (env_lookup t time_map); [| reflexivity].
  rewrite dict_get_set_other by reflexivity. reflexivity.
Qed.

(** C9.  A call of web_search with time_period None is the call with
    "past_year", and when the key is set the request it sends carries
    tbs=qdr:y; a None num_results is 10, in the request's num and in the
    cut of the results; a None include_news is false. *)
Theorem web_search_defaults (query : string) (w : world) :
  missing (env_lookup "SERPAPI_API_KEY" (os_environ w)) = false ->
  (forall n i, web_search query n i None w = web_search query n i (Some "past_year") w)
  /\ (forall i t, web_search query None i t w = web_search query (Some 10) i t w)
  /\ (forall n t, web_search query n None t w = web_search query n (Some false) t w)
  /\ (forall n i,
         exists req,
           sent (snd (web_search query n i None w)) = (sent w ++ [req])%list
           /\ req_url req = "https://serpapi.com/search"
           /\ dict_get "tbs" (req_params req) = Some (JStr "qdr:y"))
  /\ (forall i t,
         exists req,
           sent (snd (web_search query None i t w)) = (sent w ++ [req])%list
           /\ dict_get "num" (req_params req) = Some (JInt 10)).
Proof.
  intros Hkey. repeat split.
  - intros n i. eexists. split; [apply web_search_sends, Hkey |].
    split; reflexivity.
  - intros i t. eexists. split; [apply web_search_sends, Hkey |].
    simpl. apply web_search_params_num.
Qed.

Lemma web_search_defaults_witness :
  let w := fresh_world serp_env some_day (answering (JObj [])) in
  missing (env_lookup "SERPAPI_API_KEY" (os_environ w)) = false
  /\ (exists req,
         sent (snd (web_search "rocq" None None None w)) = (sent w ++ [req])%list
         /\ req_url req = "https://serpapi.com/search"
         /\ dict_get "tbs" (req_params req) = Some (JStr "qdr:y"))
  /\ (exists req,
         sent (snd (web_search "rocq" None None None w)) = (sent w ++ [req])%list
         /\ dict_get "num" (req_params req) = Some (JInt 10)).
Proof.
  cbv zeta.
  pose proof (web_search_defaults "rocq"
                (fresh_world serp_env some_day (answering (JObj []))) eq_refl)
    as (_ & _ & _ & Htbs & Hnum).
  split; [reflexivity |]. split; [apply (Htbs None None) | apply (Hnum None None)].
Defined.

(** ** The parameters of the flight request *)

(** The parameters of google_flights_search, one optional entry at a time. *)
Definition flights_base_with (to_upper : string -> string) (key o d dd cur : string)
    (ad : Z) : dict :=
  [("engine", JStr "google_flights"); ("api_key", JStr key);
   ("departure_id", JStr (to_upper o)); ("arrival_id", JStr (to_upper d));
   ("outbound_date", JStr dd); ("currency", JStr cur); ("adults", JInt ad)].

Definition flights_base : string -> string -> string -> string -> string -> Z -> dict :=
  flights_base_with Str.upper.

Definition with_return_date (rd : option string) (p : dict) : dict :=
  match rd with
  | Some r => if Str.nonempty r then dict_set "return_date" (JStr r) p else p
  | None => p
  end.

Definition with_children (ch : Z) (p : dict) : dict :=
  if 0 <? ch then dict_set "children" (JInt ch) p else p.

Definition with_infants (inf : Z) (p : dict) : dict :=
  if 0 <? inf then dict_set "infants_in_seat" (JInt inf) p else p.

Definition with_class (fc : string) (p : dict) : dict :=
  match env_lookup fc class_mapping with
  | Some c => dict_set "flight_class" (JStr c) p
  | None => p
  end.

Definition with_stops (st : option string) (p : dict) : dict :=
  match st with
  | Some s =>
      if String.eqb s "nonstop" then dict_set "max_stops" (JInt 0) p
      else if String.eqb s "1stop" then dict_set "max_stops" (JInt 1) p
      else if String.eqb s "2stops" then dict_set "max_stops" (JInt 2) p
      else p
  | None => p
  end.

Definition with_price (mp : option Z) (p : dict) : dict :=
  match mp with
  | Some m => if m =? 0 then p else dict_set "price_max" (JInt m) p
  | None => p
  end.

Definition with_airlines (al : option (list string)) (p : dict) : dict :=
  match al with
  | Some (a :: rest) => dict_set "airlines" (JStr (Str.join "," (a :: rest))) p
  | _ => p
  end.

Lemma flights_params_with_layers (to_upper : string -> string) (key o d dd : string)
    (rd : option string) (ad ch inf : Z) (st : option string) (fc : string)
    (mp : option Z) (cur : string) (al : option (list string)) :
  flights_params_with to_upper key o d dd rd ad ch inf st fc mp cur al
  = with_airlines al (with_price mp (with_stops st (with_class fc (with_infants inf
      (with_children ch (with_return_date rd
         (flights_base_with to_upper key o d dd cur ad))))))).
Proof. reflexivity. Qed.

Lemma flights_params_layers (key o d dd : string) (rd : option string) (ad ch inf : Z)
    (st : option string) (fc : string) (mp : option Z) (cur : string)
    (al : option (list string)) :
  flights_params key o d dd rd ad ch inf st fc mp cur al
  = with_airlines al (with_price mp (with_stops st (with_class fc (with_infants inf
      (with_children ch (with_return_date rd (flights_base key o d dd cur ad))))))).
Proof. reflexivity. Qed.

Lemma with_return_date_other (k : string) (rd : option string) (p : dict) :
  String.eqb k "return_date" = false -> dict_get k (with_return_date rd p) = dict_get k p.
Proof.
  intros Hk. unfold with_return_date. destruct rd as [r |]; [| reflexivity].
  destruct (Str.nonempty r); [apply dict_get_set_other; exact Hk | reflexivity].
Qed.

Lemma with_children_other (k : string) (ch : Z) (p : dict) :
  String.eqb k "children" = false -> dict_get k (with_children ch p) = dict_get k p.
Proof.
  intros Hk. unfold with_children.
  destruct (0 <? ch); [apply dict_get_set_other; exact Hk | reflexivity].
Qed.

Lemma with_infants_other (k : string) (inf : Z) (p : dict) :
  String.eqb k "infants_in_seat" = false -> dict_get k (with_infants inf p) = dict_get k p.
Proof.
  intros Hk. unfold with_infants.
  destruct (0 <? inf); [apply dict_get_set_other; exact Hk | reflexivity].
Qed.

Lemma with_class_other (k fc : string) (p : dict) :
  String.eqb k "flight_class" = false -> dict_get k (with_class fc p) = dict_get k p.
Proof.
  intros Hk. unfold with_class.
  destruct (env_lookup fc class_mapping); [apply dict_get_set_other; exact Hk | reflexivity].
Qed.

Lemma with_stops_other (k : string) (st : option string) (p : dict) :
  String.eqb k "max_stops" = false -> dict_get k (with_stops st p) = dict_get k p.
Proof.
  intros Hk. unfold with_stops. destruct st as [s |]; [| reflexivity].
  destruct (String.eqb s "nonstop"); [apply dict_get_set_other; exact Hk |].
  destruct (String.eqb s "1stop"); [apply dict_get_set_other; exact Hk |].
  destruct (String.eqb s "2stops"); [apply dict_get_set_other; exact Hk | reflexivity].
Qed.

Lemma with_price_other (k : string) (mp : option Z) (p : dict) :
  String.eqb k "price_max" = false -> dict_get k (with_price mp p) = dict_get k p.
Proof.
  intros Hk. unfold with_price. destruct mp as [m |]; [| reflexivity].
  destruct (m =? 0); [reflexivity | apply dict_get_set_other; exact Hk].
Qed.

Lemma with_airlines_other (k : string) (al : option (list string)) (p : dict) :
  String.eqb k "airlines" = false -> dict_get k (with_airlines al p) = dict_get k p.
Proof.
  intros Hk. unfold with_airlines. destruct al as [[| a rest] |]; try reflexivity.
  apply dict_get_set_other; exact Hk.
Qed.

(** Pass over the entries a layer cannot touch. *)
Ltac skip_layers :=
  repeat first
    [ rewrite with_airlines_other by reflexivity
    | rewrite with_price_other by reflexivity
    | rewrite with_stops_other by reflexivity
    | rewrite with_class_other by reflexivity
    | rewrite with_infants_other by reflexivity
    | rewrite with_children_other by reflexivity
    | rewrite with_return_date_other by reflexivity ].

(** ** C10: airport codes in upper case *)

Lemma flights_params_with_ids (to_upper : string -> string) (key o d dd : string)
    (rd : option string) (ad ch inf : Z) (st : option string) (fc : string)
    (mp : option Z) (cur : string) (al : option (list string)) :
  let params := flights_params_with to_upper key o d dd rd ad ch inf st fc mp cur al in
  dict_get "departure_id" params = Some (JStr (to_upper o))
  /\ dict_get "arrival_id" params = Some (JStr (to_upper d)).
Proof.
  cbv zeta. rewrite flights_params_with_layers.
  split; skip_layers; reflexivity.
Qed.

(** C10.  When google_flights_search succeeds, the origin and destination of
    the result are the arguments in upper case, and the one request it sent
    carries the same upper-case codes as departure_id and arrival_id.  Upper
    case is what [str.upper] makes of the argument: the statement is for
    every [to_upper] (and every [parse_date]), so it does not depend on
    which letters the library maps. *)
Theorem flight_codes_are_upper_cased
    (to_upper : string -> string) (parse_date : string -> E date)
    (o d dd : string) (rd : option string) (ad ch inf : Z) (st : option string)
    (fc : string) (mp : option Z) (cur : string) (al : option (list string))
    (w : world) (v : json) :
  fst (google_flights_search_with to_upper parse_date
         o d dd rd ad ch inf st fc mp cur al w) = inr v ->
  field "status" v = Some (JStr "success") ->
  field "origin" v = Some (JStr (to_upper o))
  /\ field "destination" v = Some (JStr (to_upper d))
  /\ exists req,
       sent (snd (google_flights_search_with to_upper parse_date
                    o d dd rd ad ch inf st fc mp cur al w))
       = (sent w ++ [req])%list
       /\ dict_get "departure_id" (req_params req) = Some (JStr (to_upper o))
       /\ dict_get "arrival_id" (req_params req) = Some (JStr (to_upper d)).
Proof.
  intros Hrun Hok. rewrite google_flights_search_with_run in *.
  destruct (serp_run_shape "flight search" "flight search"
              (date_verdict_with parse_date dd rd)
              (fun key => flights_params_with to_upper key o d dd rd ad ch inf st fc mp
                            cur al)
              (flights_result_with to_upper o d dd rd)
              (date_verdict_with_error parse_date dd rd) w)
    as (v' & Heq & Hv).
  rewrite Heq in *. simpl in Hrun. inversion Hrun; subst v'.
  destruct Hv as [(msg & ->) | (r & sr & Hreach & _ & _ & _ & Hproc)];
    [discriminate Hok |].
  split; [apply (flights_result_with_field to_upper "origin" _ _ _ _ _ _ eq_refl eq_refl
                   eq_refl eq_refl eq_refl Hproc) |].
  split; [apply (flights_result_with_field to_upper "destination" _ _ _ _ _ _ eq_refl
                   eq_refl eq_refl eq_refl eq_refl Hproc) |].
  rewrite Hreach. eexists. split; [reflexivity |].
  apply flights_params_with_ids.
Qed.

Lemma flight_codes_are_upper_cased_witness :
  let w := fresh_world serp_env some_day (answering (JObj [])) in
  let run := google_flights_search_with Str.upper Strptime.strptime
               "nyc" "Lhr" "2026-05-15" (Some "2026-05-22") 2 1 0
               (Some "nonstop") "economy" (Some 900) "USD" (Some ["UA"; "BA"]) w in
  exists v,
    fst run = inr v
    /\ field "status" v = Some (JStr "success")
    /\ field "origin" v = Some (JStr "NYC")
    /\ field "destination" v = Some (JStr "LHR")
    /\ exists req,
         sent (snd run) = (sent w ++ [req])%list
         /\ dict_get "departure_id" (req_params req) = Some (JStr "NYC")
         /\ dict_get "arrival_id" (req_params req) = Some (JStr "LHR").
Proof.
  cbv zeta.
  eexists. split; [vm_compute; reflexivity |]. split; [reflexivity |].
  refine (flight_codes_are_upper_cased Str.upper Strptime.strptime
            "nyc" "Lhr" "2026-05-15" (Some "2026-05-22") 2 1 0
            (Some "nonstop") "economy" (Some 900) "USD" (Some ["UA"; "BA"])
            (fresh_world serp_env some_day (answering (JObj []))) _ _ _).
  - vm_compute. reflexivity.
  - reflexivity.
Defined.

(** * Further properties of the tools and of the chat loop *)

(** ** A successful SerpAPI call *)

(** A call that returned a dictionary with status "success" sent its
    request, got status 200 and a body that decoded, and returned what the
    tool made of that body. *)
Lemma serp_success (c : tool_call) (w : world) (v : json) :
  needs_serpapi_key c = true ->
  fst (invoke c w) = inr v ->
  field "status" v = Some (JStr "success") ->
  exists r sr,
    reaches_network (tool_precheck c) w = true
    /\ network w (serp_request (tool_params c) w) = inr r
    /\ status_code r = 200
    /\ json_body r = inr sr
    /\ tool_process c sr = inr v.
Proof.
  intros Hk Hrun Hok. rewrite (invoke_serp c w Hk) in Hrun.
  destruct (serp_run_shape (tool_what c) (tool_what c) (tool_precheck c)
              (tool_params c) (tool_process c) (tool_precheck_error c) w)
    as (v' & Heq & Hv).
  rewrite Heq in Hrun. simpl in Hrun. inversion Hrun; subst v'.
  destruct Hv as [(msg & ->) | (r & sr & H1 & H2 & H3 & H4 & H5)]; [discriminate Hok |].
  exists r, sr. repeat split; assumption.
Qed.

Lemma mapE_length {A B} (f : A -> E B) (l : list A) (l' : list B) :
  mapE f l = inr l' -> length l' = length l.
Proof.
  revert l'. induction l as [| a l IH]; intros l' H; simpl in H.
  - inversion H. reflexivity.
  - apply bindE_inr in H as (b & _ & H).
    apply bindE_inr in H as (bs & Hbs & H).
    inversion H; subst. simpl. f_equal. apply IH. exact Hbs.
Qed.

(** Rows are built from dictionaries only: a loop over the characters of a
    string stops at the first one. *)
Definition rejects_strings (row : json -> E json) : Prop :=
  forall s, exists e, row (JStr s) = inl e.

Lemma organic_row_rejects_strings : rejects_strings organic_row.
Proof. intros s. eexists; reflexivity. Qed.

Lemma video_row_rejects_strings : rejects_strings video_row.
Proof. intros s. eexists; reflexivity. Qed.

Lemma mapE_strings_nil (row : json -> E json) (ss : list string) (rows : list json) :
  rejects_strings row -> mapE row (List.map JStr ss) = inr rows -> rows = [].
Proof.
  intros Hrow H. destruct ss as [| s ss]; simpl in H.
  - inversion H. reflexivity.
  - destruct (Hrow s) as (e & He). rewrite He in H. discriminate.
Qed.

(** The list [collect_sliced] leaves under [dst] has at most [n] rows. *)
Lemma collect_sliced_count (src : json) (key : string) (n : Z) (row : json -> E json)
    (dst : string) (d d' : dict) :
  0 <= n -> rejects_strings row ->
  dict_get dst d = Some (JArr []) ->
  collect_sliced src key n row dst d = inr d' ->
  exists rows, dict_get dst d' = Some (JArr rows) /\ Z.of_nat (length rows) <= n.
Proof.
  intros Hn Hrow Hd H. unfold collect_sliced in H.
  apply bindE_inr in H as (has & _ & H). destruct has.
  - apply bindE_inr in H as (all & _ & H).
    apply bindE_inr in H as (part & Hpart & H).
    apply bindE_inr in H as (items & Hitems & H).
    apply bindE_inr in H as (rows & Hrows & H).
    inversion H; subst d'. exists rows. split; [apply dict_get_set_same |].
    destruct all; simpl in Hpart; try discriminate; inversion Hpart; subst part;
      simpl in Hitems; inversion Hitems; subst items.
    + rewrite (mapE_strings_nil _ _ _ Hrow Hrows). simpl. lia.
    + rewrite (mapE_length _ _ _ Hrows). apply slice_to_at_most. exact Hn.
  - inversion H; subst d'. exists []. split; [exact Hd | simpl; lia].
Qed.

(** ** web_search and youtube_search cut the reply at num_results *)

(** X1.  When web_search succeeds and num_results (10 when None) is not
    negative, the result holds at most num_results organic results, whatever
    the API sent. *)
Theorem web_search_cuts_organic_results (q : string) (n : option Z) (i : option bool)
    (t : option string) (w : world) (v : json) :
  0 <= or_default n 10 ->
  fst (web_search q n i t w) = inr v ->
  field "status" v = Some (JStr "success") ->
  exists k, count_of "organic_results" v = Some k /\ Z.of_nat k <= or_default n 10.
Proof.
  intros Hn Hrun Hok.
  destruct (serp_success (WebSearch q n i t) w v eq_refl Hrun Hok)
    as (r & sr & _ & _ & _ & _ & H).
  simpl in H. unfold web_search_result in H. unchain H.
  apply collect_sliced_count in Hd; [| exact Hn | exact organic_row_rejects_strings
                                     | reflexivity].
  destruct Hd as (rows & Hrows & Hlen).
  apply (keeps_copy_if_present "organic_results") in Hd0; [| reflexivity].
  apply (keeps_copy_if_present "organic_results") in Hd1; [| reflexivity].
  apply (keeps_copy_if_present "organic_results") in Hd2; [| reflexivity].
  apply (keeps_add_news "organic_results") in Hd3; [| reflexivity].
  apply (keeps_copy_if_present "organic_results") in Hd4; [| reflexivity].
  apply (keeps_set_search_metadata "organic_results") in Hd5; [| reflexivity].
  inversion H; subst v. exists (length rows). split; [| exact Hlen].
  unfold count_of. simpl field. rewrite Hd5, Hd4, Hd3, Hd2, Hd1, Hd0, Hrows. reflexivity.
Qed.

Lemma web_search_cuts_organic_results_witness :
  let w := fresh_world serp_env some_day
             (answering (JObj [("organic_results", JArr [JObj []; JObj []; JObj []])])) in
  exists v,
    fst (web_search "rocq" (Some 2) None None w) = inr v
    /\ exists k, count_of "organic_results" v = Some k /\ Z.of_nat k <= 2.
Proof.
  cbv zeta. eexists. split; [vm_compute; reflexivity |].
  refine (web_search_cuts_organic_results "rocq" (Some 2) None None
            (fresh_world serp_env some_day
               (answering (JObj [("organic_results", JArr [JObj []; JObj []; JObj []])])))
            _ _ _ _).
  - simpl. lia.
  - vm_compute. reflexivity.
  - reflexivity.
Defined.

(** X2.  When youtube_search succeeds and num_results is not negative, the
    result holds at most num_results videos. *)
Theorem youtube_search_cuts_videos (q : string) (n : Z) (s : string)
    (u d : option string) (w : world) (v : json) :
  0 <= n ->
  fst (youtube_search q n s u d w) = inr v ->
  field "status" v = Some (JStr "success") ->
  exists k, count_of "videos" v = Some k /\ Z.of_nat k <= n.
Proof.
  intros Hn Hrun Hok.
  destruct (serp_success (YoutubeSearch q n s u d) w v eq_refl Hrun Hok)
    as (r & sr & _ & _ & _ & _ & H).
  simpl in H. unfold youtube_result in H. unchain H.
  apply collect_sliced_count in Hd; [| exact Hn | exact video_row_rejects_strings
                                     | reflexivity].
  destruct Hd as (rows & Hrows & Hlen).
  apply (keeps_copy_if_present "videos") in Hd0; [| reflexivity].
  apply (keeps_set_search_metadata "videos") in Hd3; [| reflexivity].
  rewrite dict_get_set_other in Hd3 by reflexivity.
  inversion H; subst v. exists (length rows). split; [| exact Hlen].
  unfold count_of. simpl field. rewrite Hd3, Hd0, Hrows. reflexivity.
Qed.

Lemma youtube_search_cuts_videos_witness :
  let w := fresh_world serp_env some_day
             (answering (JObj [("video_results", JArr [JObj []; JObj []; JObj []])])) in
  exists v,
    fst (youtube_search "rocq" 2 "relevance" None None w) = inr v
    /\ exists k, count_of "videos" v = Some k /\ Z.of_nat k <= 2.
Proof.
  cbv zeta. eexists. split; [vm_compute; reflexivity |].
  refine (youtube_search_cuts_videos "rocq" 2 "relevance" None None
            (fresh_world serp_env some_day
               (answering (JObj [("video_results", JArr [JObj []; JObj []; JObj []])])))
            _ _ _ _).
  - lia.
  - vm_compute. reflexivity.
  - reflexivity.
Defined.

(** ** News in web_search *)

Lemma add_news_field (src : json) (n : Z) (b : bool) (d d' : dict) :
  dict_get "news" d = None ->
  add_news src n b d = inr d' ->
  (b = false -> dict_get "news" d' = None)
  /\ (0 <= n -> forall l, dict_get "news" d' = Some (JArr l) -> Z.of_nat (length l) <= n).
Proof.
  intros Hd H. unfold add_news in H. destruct b.
  - split; [discriminate |]. intros Hn l Hl.
    apply bindE_inr in H as (has & _ & H). destruct has.
    + apply bindE_inr in H as (news & _ & H).
      apply bindE_inr in H as (part & Hpart & H).
      inversion H; subst d'. rewrite dict_get_set_same in Hl. inversion Hl; subst part.
      destruct news; simpl in Hpart; try discriminate.
      inversion Hpart; subst l. apply slice_to_at_most. exact Hn.
    + inversion H; subst d'. rewrite Hd in Hl. discriminate.
  - inversion H; subst d'. split; [intros _; exact Hd |].
    intros _ l Hl. rewrite Hd in Hl. discriminate.
Qed.

(** X3.  A successful web_search has a "news" entry only when include_news
    is true, and when num_results is not negative a news list has at most
    num_results items. *)
Theorem web_search_news (q : string) (n : option Z) (i : option bool)
    (t : option string) (w : world) (v : json) :
  fst (web_search q n i t w) = inr v ->
  field "status" v = Some (JStr "success") ->
  (or_default i false = false -> field "news" v = None)
  /\ (0 <= or_default n 10 ->
      forall l, field "news" v = Some (JArr l) -> Z.of_nat (length l) <= or_default n 10).
Proof.
  intros Hrun Hok.
  destruct (serp_success (WebSearch q n i t) w v eq_refl Hrun Hok)
    as (r & sr & _ & _ & _ & _ & H).
  simpl in H. unfold web_search_result in H. unchain H.
  apply (keeps_collect_sliced "news") in Hd; [| reflexivity].
  apply (keeps_copy_if_present "news") in Hd0; [| reflexivity].
  apply (keeps_copy_if_present "news") in Hd1; [| reflexivity].
  apply (keeps_copy_if_present "news") in Hd2; [| reflexivity].
  apply add_news_field in Hd3; [| rewrite Hd2, Hd1, Hd0, Hd; reflexivity].
  apply (keeps_copy_if_present "news") in Hd4; [| reflexivity].
  apply (keeps_set_search_metadata "news") in Hd5; [| reflexivity].
  inversion H; subst v. simpl field. rewrite Hd5, Hd4. exact Hd3.
Qed.

Lemma web_search_news_witness :
  let reply := JObj [("news_results", JArr [JObj []; JObj []; JObj []])] in
  let w := fresh_world serp_env some_day (answering reply) in
  exists v,
    fst (web_search "rocq" (Some 2) (Some true) None w) = inr v
    /\ (or_default (Some true) false = false -> field "news" v = None)
    /\ (0 <= or_default (Some 2) 10 ->
        forall l, field "news" v = Some (JArr l) ->
                  Z.of_nat (length l) <= or_default (Some 2) 10).
Proof.
  cbv zeta. eexists. split; [vm_compute; reflexivity |].
  refine (web_search_news "rocq" (Some 2) (Some true) None
            (fresh_world serp_env some_day
               (answering (JObj [("news_results", JArr [JObj []; JObj []; JObj []])])))
            _ _ _).
  - vm_compute. reflexivity.
  - reflexivity.
Defined.

(** ** The links web_fetch returns *)

(** A link the tool may return: its href is not empty and is neither a
    fragment nor a javascript: address. *)
Definition proper_link (l : json) : Prop :=
  exists href,
    field "href" l = Some (JStr href)
    /\ href <> ""
    /\ Str.startswith href "#" = false
    /\ Str.startswith href "javascript:" = false.

Lemma link_entry_proper (a : anchor) : keep_link a = true -> proper_link (link_entry a).
Proof.
  unfold keep_link. intros H.
  apply andb_true_iff in H as (H & Hjs). apply andb_true_iff in H as (Hne & Hfrag).
  exists (a_href a). split; [reflexivity |].
  split; [intros E; rewrite E in Hne; discriminate |].
  split; [apply negb_true_iff; exact Hfrag | apply negb_true_iff; exact Hjs].
Qed.

Lemma Forall_firstn {A} (P : A -> Prop) (n : nat) (l : list A) :
  Forall P l -> Forall P (firstn n l).
Proof.
  revert l. induction n as [| n IH]; intros l H; simpl; [constructor |].
  destruct H; constructor; [assumption | apply IH; assumption].
Qed.

Lemma fetch_links_proper (s : soup) : Forall proper_link (fetch_links s).
Proof.
  unfold fetch_links. apply Forall_firstn.
  induction (soup_anchors s) as [| a l IH]; simpl; [constructor |].
  destruct (keep_link a) eqn:E; [| exact IH].
  simpl. constructor; [apply link_entry_proper; exact E | exact IH].
Qed.

(** X4.  Whatever the page, a "links" entry returned by web_fetch has at
    most 100 links, and each of them has a non-empty href that starts with
    neither "#" nor "javascript:". *)
Theorem web_fetch_links (url : string) (x : bool) (w : world) (v : json)
    (links : list json) :
  fst (web_fetch url x w) = inr v ->
  field "links" v = Some (JArr links) ->
  (length links <= 100)%nat /\ Forall proper_link links.
Proof.
  intros Hrun Hlinks. rewrite web_fetch_run in Hrun. simpl in Hrun.
  inversion Hrun; subst v. clear Hrun.
  unfold fetch_outcome, fetch_handler in Hlinks.
  destruct (network w (fetch_request url)) as [e | r].
  - destruct (is_RequestException e); discriminate Hlinks.
  - destruct (negb (status_code r =? 200)); [discriminate Hlinks |].
    unfold fetch_result in Hlinks.
    destruct (x && Str.contains "text/html" (Str.lower (header_get "Content-Type" (headers r)))).
    + destruct (html r) as [e | s].
      * simpl in Hlinks. destruct (is_RequestException e); discriminate Hlinks.
      * cbn [bindE retE field] in Hlinks. rewrite dict_get_set_same in Hlinks.
        inversion Hlinks; subst links.
        split; [apply fetch_links_at_most_100 | apply fetch_links_proper].
    + cbn [retE field] in Hlinks. rewrite dict_get_set_other in Hlinks by reflexivity.
      discriminate Hlinks.
Qed.

Definition page_with_links : response :=
  mkResponse 200 "OK" "<html></html>" 13 [("Content-Type", "text/html; charset=utf-8")]
    (inl (mkExn JSONDecodeError "Expecting value"))
    (inr
    {| soup_title := Some (Some "A page"); soup_text := "hello";
       soup_metas := [];
       soup_anchors := [ {| a_href := "#top"; a_text := "top" |};
                         {| a_href := "https://rocq-prover.org"; a_text := "Rocq" |};
                         {| a_href := "javascript:void(0)"; a_text := "" |} ] |})
    "https://example.com/" 0.

Lemma web_fetch_links_witness :
  let w := fresh_world [] some_day (fun _ => inr page_with_links) in
  let links := [JObj [("href", JStr "https://rocq-prover.org"); ("text", JStr "Rocq")]] in
  exists v,
    fst (web_fetch "https://example.com" true w) = inr v
    /\ field "links" v = Some (JArr links)
    /\ (length links <= 100)%nat /\ Forall proper_link links.
Proof.
  cbv zeta. eexists. split; [vm_compute; reflexivity |]. split; [reflexivity |].
  refine (web_fetch_links "https://example.com" true
            (fresh_world [] some_day (fun _ => inr page_with_links)) _ _ _ _).
  - vm_compute. reflexivity.
  - reflexivity.
Defined.

(** ** The request of a SerpAPI tool *)

(** A request a SerpAPI tool sent was built from a key that is set and not
    empty. *)
Lemma serp_request_sent (c : tool_call) (w : world) (req : request) :
  needs_serpapi_key c = true ->
  In req (new_requests w (snd (invoke c w))) ->
  exists key,
    env_lookup "SERPAPI_API_KEY" (os_environ w) = Some key
    /\ key <> ""
    /\ req = mkRequest serp_base_url (tool_params c key) [] None.
Proof.
  intros Hk Hin. rewrite new_requests_of_invoke, (requests_of_serp c w Hk) in Hin.
  unfold reaches_network in Hin.
  destruct (env_lookup "SERPAPI_API_KEY" (os_environ w)) as [key |] eqn:Ekey;
    [| simpl in Hin; contradiction].
  destruct key as [| a key]; [simpl in Hin; contradiction |].
  exists (String a key). split; [reflexivity |]. split; [discriminate |].
  simpl negb in Hin. simpl andb in Hin.
  destruct (tool_precheck c (clock_today w)); [contradiction |].
  destruct Hin as [<- | []]. unfold serp_request. rewrite Ekey. reflexivity.
Qed.

Lemma dict_get_add_sp (k p : string) (d : dict) :
  String.eqb k "sp" = false -> dict_get k (add_sp p d) = dict_get k d.
Proof.
  intros Hk. unfold add_sp.
  destruct (dict_get "sp" d) as [[] |]; apply dict_get_set_other; exact Hk.
Qed.

Lemma dict_get_add_filter (k : string) (table : list (string * string))
    (choice : option string) (d : dict) :
  String.eqb k "sp" = false -> dict_get k (add_filter table choice d) = dict_get k d.
Proof.
  intros Hk. unfold add_filter.
  destruct choice as [c |]; [| reflexivity].
  destruct (Str.nonempty c); [| reflexivity].
  destruct (env_lookup c table); [| reflexivity].
  apply dict_get_add_sp. exact Hk.
Qed.

(** Open every conditional of a parameter dictionary and read one entry. *)
Ltac read_params :=
  repeat match goal with
    | |- context [match ?x with Some _ => _ | None => _ end] => destruct x
    | |- context [match ?x with [] => _ | _ :: _ => _ end] => destruct x
    | |- context [if ?b then _ else _] => destruct b
    end;
  repeat rewrite dict_get_set_other by reflexivity; try reflexivity.

Lemma tool_params_api_key (c : tool_call) (key : string) :
  needs_serpapi_key c = true ->
  dict_get "api_key" (tool_params c key) = Some (JStr key).
Proof.
  destruct c; try discriminate; intros _; simpl tool_params.
  - unfold web_search_params. read_params.
  - unfold youtube_params. rewrite !dict_get_add_filter by reflexivity. read_params.
  - unfold scholar_params. read_params.
  - rewrite flights_params_layers. skip_layers. reflexivity.
Qed.

(** X5.  Every request of web_search, youtube_search, scholar_search and
    google_flights_search goes to https://serpapi.com/search, with no extra
    header and no timeout, and carries as api_key the value of
    SERPAPI_API_KEY, which is set and not empty. *)
Theorem serp_requests_carry_the_key (c : tool_call) (w : world) (req : request) :
  needs_serpapi_key c = true ->
  In req (new_requests w (snd (invoke c w))) ->
  req_url req = "https://serpapi.com/search"
  /\ req_headers req = []
  /\ req_timeout req = None
  /\ exists key,
       env_lookup "SERPAPI_API_KEY" (os_environ w) = Some key
       /\ key <> ""
       /\ dict_get "api_key" (req_params req) = Some (JStr key).
Proof.
  intros Hk Hin. destruct (serp_request_sent c w req Hk Hin) as (key & Hkey & Hne & ->).
  repeat split. exists key. repeat split; try assumption.
  apply tool_params_api_key. exact Hk.
Qed.

Definition a_scholar_call : tool_call := ScholarSearch "coq" 50 "date" (Some "since_2020") None.

Definition a_scholar_request : request :=
  mkRequest serp_base_url
    [("q", JStr "coq"); ("api_key", JStr "k"); ("engine", JStr "google_scholar");
     ("num", JInt 20); ("hl", JStr "en"); ("as_sdt", JStr "0,5"); ("as_ylo", JStr "2020")]
    [] None.

Lemma a_scholar_request_sent :
  In a_scholar_request
     (new_requests a_key_and_silence (snd (invoke a_scholar_call a_key_and_silence))).
Proof. left. reflexivity. Qed.

Lemma serp_requests_carry_the_key_witness :
  req_url a_scholar_request = "https://serpapi.com/search"
  /\ req_headers a_scholar_request = []
  /\ req_timeout a_scholar_request = None
  /\ exists key,
       env_lookup "SERPAPI_API_KEY" (os_environ a_key_and_silence) = Some key
       /\ key <> ""
       /\ dict_get "api_key" (req_params a_scholar_request) = Some (JStr key).
Proof.
  exact (serp_requests_carry_the_key a_scholar_call a_key_and_silence a_scholar_request
           eq_refl a_scholar_request_sent).
Defined.

(** The number of results a search tool was asked for, and the most it asks
    the API for. *)
Definition asked (c : tool_call) : option Z :=
  match c with
  | WebSearch _ n _ _ => Some (or_default n 10)
  | YoutubeSearch _ n _ _ _ => Some n
  | ScholarSearch _ n _ _ _ => Some n
  | _ => None
  end.

Definition num_cap (c : tool_call) : Z :=
  match c with ScholarSearch _ _ _ _ _ => 20 | _ => 100 end.

Lemma tool_params_num (c : tool_call) (key : string) (n : Z) :
  asked c = Some n ->
  dict_get "num" (tool_params c key) = Some (JInt (Z.min n (num_cap c))).
Proof.
  destruct c; try discriminate; intros H; inversion H; subst n; simpl tool_params.
  - apply web_search_params_num.
  - unfold youtube_params. rewrite !dict_get_add_filter by reflexivity. read_params.
  - unfold scholar_params. read_params.
Qed.

(** X6.  The num parameter a search tool sends is num_results cut at the
    tool's maximum: 100 for web_search and youtube_search, 20 for
    scholar_search.  The API is never asked for more. *)
Theorem request_num_is_capped (c : tool_call) (w : world) (req : request) (n : Z) :
  asked c = Some n ->
  In req (new_requests w (snd (invoke c w))) ->
  dict_get "num" (req_params req) = Some (JInt (Z.min n (num_cap c)))
  /\ Z.min n (num_cap c) <= num_cap c.
Proof.
  intros Hn Hin.
  assert (Hk : needs_serpapi_key c = true) by (destruct c; try discriminate; reflexivity).
  destruct (serp_request_sent c w req Hk Hin) as (key & _ & _ & ->).
  split; [apply tool_params_num; exact Hn | lia].
Qed.

Lemma request_num_is_capped_witness :
  dict_get "num" (req_params a_scholar_request) = Some (JInt (Z.min 50 (num_cap a_scholar_call)))
  /\ Z.min 50 (num_cap a_scholar_call) <= num_cap a_scholar_call.
Proof.
  exact (request_num_is_capped a_scholar_call a_key_and_silence a_scholar_request 50
           eq_refl a_scholar_request_sent).
Defined.

(** ** The sp parameter of youtube_search *)

Definition sort_code (sort_by : string) : option string :=
  if String.eqb sort_by "upload_date" then Some "CAI%253D"
  else if String.eqb sort_by "view_count" then Some "CAM%253D"
  else if String.eqb sort_by "rating" then Some "CAE%253D"
  else None.

Definition filter_code (table : list (string * string)) (choice : option string)
    : option string :=
  match choice with Some c => env_lookup c table | None => None end.

Definition present (o : option string) : list string :=
  match o with Some s => [s] | None => [] end.

(** The codes of the sort order, the upload date and the duration that are
    recognised, in this order. *)
Definition sp_codes (sort_by : string) (upload_date duration : option string)
    : list string :=
  (present (sort_code sort_by)
   ++ present (filter_code upload_date_filters upload_date)
   ++ present (filter_code duration_filters duration))%list.

Lemma add_filter_code (table : list (string * string)) (choice : option string)
    (d : dict) :
  env_lookup "" table = None ->
  add_filter table choice d
  = match filter_code table choice with Some p => add_sp p d | None => d end.
Proof.
  intros Hempty. unfold add_filter, filter_code.
  destruct choice as [[| a c] |]; [rewrite Hempty | |]; reflexivity.
Qed.

Lemma youtube_params_sp (q key : string) (n : Z) (s : string) (u d : option string) :
  dict_get "sp" (youtube_params q key n s u d)
  = match sp_codes s u d with
    | [] => None
    | codes => Some (JStr (Str.join "," codes))
    end.
Proof.
  unfold youtube_params, sp_codes.
  rewrite !add_filter_code by reflexivity.
  set (fu := filter_code upload_date_filters u).
  set (fd := filter_code duration_filters d).
  unfold sort_code.
  destruct (String.eqb s "relevance") eqn:Erel.
  { apply String.eqb_eq in Erel. subst s.
    destruct fu, fd; reflexivity. }
  destruct (String.eqb s "upload_date"); [destruct fu, fd; reflexivity |].
  destruct (String.eqb s "view_count"); [destruct fu, fd; reflexivity |].
  destruct (String.eqb s "rating"); destruct fu, fd; reflexivity.
Qed.

(** X7.  The sp parameter youtube_search sends joins with commas the codes
    of the sort order, of the upload date and of the duration, in this
    order, leaving out "relevance" and any value that is None, empty or not
    in the tool's tables; when nothing is left, no sp is sent. *)
Theorem youtube_sp_joins_the_filters (q : string) (n : Z) (s : string)
    (u d : option string) (w : world) (req : request) :
  In req (new_requests w (snd (invoke (YoutubeSearch q n s u d) w))) ->
  dict_get "sp" (req_params req)
  = match sp_codes s u d with
    | [] => None
    | codes => Some (JStr (Str.join "," codes))
    end.
Proof.
  intros Hin.
  destruct (serp_request_sent (YoutubeSearch q n s u d) w req eq_refl Hin)
    as (key & _ & _ & ->).
  apply youtube_params_sp.
Qed.

Definition a_youtube_call : tool_call :=
  YoutubeSearch "rocq" 5 "view_count" (Some "this_week") (Some "long").

Definition a_youtube_request : request :=
  mkRequest serp_base_url
    [("search_query", JStr "rocq"); ("api_key", JStr "k"); ("engine", JStr "youtube");
     ("num", JInt 5); ("gl", JStr "us"); ("hl", JStr "en"); ("safe", JStr "active");
     ("sp", JStr "CAM%253D,EgQIAxAB,EgQQARgD")]
    [] None.

Lemma youtube_sp_joins_the_filters_witness :
  In a_youtube_request
     (new_requests a_key_and_silence (snd (invoke a_youtube_call a_key_and_silence)))
  /\ dict_get "sp" (req_params a_youtube_request)
     = Some (JStr "CAM%253D,EgQIAxAB,EgQQARgD").
Proof.
  assert (H : In a_youtube_request
                 (new_requests a_key_and_silence
                    (snd (invoke a_youtube_call a_key_and_silence))))
    by (left; reflexivity).
  split; [exact H |].
  exact (youtube_sp_joins_the_filters "rocq" 5 "view_count" (Some "this_week")
           (Some "long") a_key_and_silence a_youtube_request H).
Defined.

(** ** google_flights_search: when the request leaves, and what it carries *)

Lemma verdict_means_bad_dates (today : date) (dd : string) (rd : option string) (j : json) :
  date_verdict dd rd today = Some j -> bad_dates today dd rd.
Proof.
  unfold date_verdict. intros H.
  destruct (Strptime.strptime dd) as [e | dep] eqn:Edep.
  - apply departure_malformed. exists e. exact Edep.
  - destruct (date_ltb dep today) eqn:Epast.
    + apply (departure_in_the_past _ _ _ dep); assumption.
    + destruct rd as [rd |]; [| discriminate].
      destruct (Str.nonempty rd) eqn:Ene; [| discriminate].
      destruct (Strptime.strptime rd) as [e | ret_day] eqn:Eret.
      * apply (return_malformed _ _ _ rd); [reflexivity | | exists e; exact Eret].
        intros ->. discriminate Ene.
      * destruct (date_ltb ret_day dep) eqn:Elt; [| discriminate].
        apply (return_before_departure _ _ _ dep ret_day rd); try assumption; reflexivity.
Qed.

(** X8.  With the key set and dates that pass the checks,
    google_flights_search sends exactly one request. *)
Theorem good_dates_reach_the_network
    (o d dd : string) (rd : option string) (ad ch inf : Z) (st : option string)
    (fc : string) (mp : option Z) (cur : string) (al : option (list string))
    (w : world) :
  missing (env_lookup "SERPAPI_API_KEY" (os_environ w)) = false ->
  ~ bad_dates (clock_today w) dd rd ->
  exists req,
    sent (snd (google_flights_search o d dd rd ad ch inf st fc mp cur al w))
    = (sent w ++ [req])%list.
Proof.
  intros Hkey Hgood.
  destruct (invoke_world (GoogleFlightsSearch o d dd rd ad ch inf st fc mp cur al) w)
    as (v & Heq).
  simpl invoke in Heq. rewrite Heq. simpl sent. simpl requests_of.
  unfold reaches_network. rewrite Hkey. simpl negb. simpl andb.
  destruct (date_verdict dd rd (clock_today w)) as [j |] eqn:Ev.
  - exfalso. apply Hgood. eapply verdict_means_bad_dates. exact Ev.
  - eexists. reflexivity.
Qed.

Lemma a_good_departure : ~ bad_dates some_day "2026-05-15" (Some "2026-05-22").
Proof.
  intros H.
  destruct (bad_dates_verdict _ _ _ H) as (msg & Hmsg). discriminate Hmsg.
Qed.

Lemma good_dates_reach_the_network_witness :
  exists req,
    sent (snd (google_flights_search "nyc" "lhr" "2026-05-15" (Some "2026-05-22") 1 0 0
                 None "economy" None "USD" None a_key_and_silence))
    = (sent a_key_and_silence ++ [req])%list.
Proof.
  exact (good_dates_reach_the_network "nyc" "lhr" "2026-05-15" (Some "2026-05-22") 1 0 0
           None "economy" None "USD" None a_key_and_silence eq_refl a_good_departure).
Defined.

Lemma flights_params_optional (key o d dd : string) (rd : option string) (ad ch inf : Z)
    (st : option string) (fc : string) (mp : option Z) (cur : string)
    (al : option (list string)) :
  let p := flights_params key o d dd rd ad ch inf st fc mp cur al in
  dict_get "outbound_date" p = Some (JStr dd)
  /\ dict_get "adults" p = Some (JInt ad)
  /\ dict_get "return_date" p
     = match rd with
       | Some r => if Str.nonempty r then Some (JStr r) else None
       | None => None
       end
  /\ dict_get "children" p = (if 0 <? ch then Some (JInt ch) else None)
  /\ dict_get "infants_in_seat" p = (if 0 <? inf then Some (JInt inf) else None)
  /\ dict_get "price_max" p
     = match mp with
       | Some m => if m =? 0 then None else Some (JInt m)
       | None => None
       end.
Proof.
  cbv zeta. rewrite flights_params_layers.
  split; [skip_layers; reflexivity |].
  split; [skip_layers; reflexivity |].
  split.
  { skip_layers. unfold with_return_date. destruct rd as [r |]; [| reflexivity].
    destruct (Str.nonempty r); reflexivity. }
  split.
  { skip_layers. unfold with_children. destruct (0 <? ch).
    - rewrite dict_get_set_same. reflexivity.
    - skip_layers. reflexivity. }
  split.
  { skip_layers. unfold with_infants. destruct (0 <? inf).
    - rewrite dict_get_set_same. reflexivity.
    - skip_layers. reflexivity. }
  skip_layers. unfold with_price. destruct mp as [m |].
  - destruct (m =? 0).
    + skip_layers. reflexivity.
    + rewrite dict_get_set_same. reflexivity.
  - skip_layers. reflexivity.
Qed.

(** X9.  The request of google_flights_search carries the departure date as
    it was given and the number of adults; a return_date only when one is
    given and not empty; children and infants_in_seat only when positive;
    price_max only when max_price is given and not 0. *)
Theorem flight_request_optional_parameters
    (o d dd : string) (rd : option string) (ad ch inf : Z) (st : option string)
    (fc : string) (mp : option Z) (cur : string) (al : option (list string))
    (w : world) (req : request) :
  In req (new_requests w
            (snd (invoke (GoogleFlightsSearch o d dd rd ad ch inf st fc mp cur al) w))) ->
  dict_get "outbound_date" (req_params req) = Some (JStr dd)
  /\ dict_get "adults" (req_params req) = Some (JInt ad)
  /\ dict_get "return_date" (req_params req)
     = match rd with
       | Some r => if Str.nonempty r then Some (JStr r) else None
       | None => None
       end
  /\ dict_get "children" (req_params req) = (if 0 <? ch then Some (JInt ch) else None)
  /\ dict_get "infants_in_seat" (req_params req)
     = (if 0 <? inf then Some (JInt inf) else None)
  /\ dict_get "price_max" (req_params req)
     = match mp with
       | Some m => if m =? 0 then None else Some (JInt m)
       | None => None
       end.
Proof.
  intros Hin.
  destruct (serp_request_sent
              (GoogleFlightsSearch o d dd rd ad ch inf st fc mp cur al) w req eq_refl Hin)
    as (key & _ & _ & ->).
  apply flights_params_optional.
Qed.

Definition a_flight_call : tool_call :=
  GoogleFlightsSearch "nyc" "lhr" "2026-05-15" (Some "") 2 0 1 (Some "1stop") "business"
    (Some 0) "USD" (Some ["UA"; "BA"]).

Definition a_flight_request : request :=
  mkRequest serp_base_url
    [("engine", JStr "google_flights"); ("api_key", JStr "k"); ("departure_id", JStr "NYC");
     ("arrival_id", JStr "LHR"); ("outbound_date", JStr "2026-05-15");
     ("currency", JStr "USD"); ("adults", JInt 2); ("infants_in_seat", JInt 1);
     ("flight_class", JStr "BUSINESS"); ("max_stops", JInt 1); ("airlines", JStr "UA,BA")]
    [] None.

Lemma flight_request_optional_parameters_witness :
  In a_flight_request
     (new_requests a_key_and_silence (snd (invoke a_flight_call a_key_and_silence)))
  /\ dict_get "return_date" (req_params a_flight_request) = None
  /\ dict_get "children" (req_params a_flight_request) = None
  /\ dict_get "infants_in_seat" (req_params a_flight_request) = Some (JInt 1)
  /\ dict_get "price_max" (req_params a_flight_request) = None.
Proof.
  assert (H : In a_flight_request
                 (new_requests a_key_and_silence
                    (snd (invoke a_flight_call a_key_and_silence))))
    by (left; reflexivity).
  split; [exact H |].
  pose proof (flight_request_optional_parameters "nyc" "lhr" "2026-05-15" (Some "") 2 0 1
                (Some "1stop") "business" (Some 0) "USD" (Some ["UA"; "BA"])
                a_key_and_silence a_flight_request H) as (_ & _ & H1 & H2 & H3 & H4).
  repeat split; assumption.
Defined.

(** ** geocode and get_weather: what comes back *)

Lemma raise_for_status_passes (r : response) :
  (400 <=? status_code r) && (status_code r <? 600) = false ->
  raise_for_status r = inr tt.
Proof.
  intros H. unfold raise_for_status.
  destruct ((400 <=? status_code r) && (status_code r <? 500)) eqn:E4.
  { exfalso. apply andb_true_iff in E4 as (Hlo & Hhi).
    apply Z.leb_le in Hlo. apply Z.ltb_lt in Hhi.
    apply andb_false_iff in H as [H | H];
      [apply Z.leb_gt in H | apply Z.ltb_ge in H]; lia. }
  destruct ((500 <=? status_code r) && (status_code r <? 600)) eqn:E5.
  { exfalso. apply andb_true_iff in E5 as (Hlo & Hhi).
    apply Z.leb_le in Hlo. apply Z.ltb_lt in Hhi.
    apply andb_false_iff in H as [H | H];
      [apply Z.leb_gt in H | apply Z.ltb_ge in H]; lia. }
  reflexivity.
Qed.

(** X10.  When the reply to geocode has a status outside 400..599 and a body
    that decodes to a dictionary, geocode returns that dictionary as it is
    if it has a "results" key, and otherwise the dictionary
    {"error": "No results found for the given city"}. *)
Theorem geocode_reply_or_no_results (city : string) (w : world) (r : response) (d : dict) :
  network w (plain_request (geocode_url city)) = inr r ->
  (400 <=? status_code r) && (status_code r <? 600) = false ->
  json_body r = inr (JObj d) ->
  fst (geocode city w)
  = inr (if dict_mem "results" d then JObj d
         else JObj [("error", JStr "No results found for the given city")]).
Proof.
  intros Hnet Hst Hbody. rewrite geocode_run. simpl fst.
  unfold geocode_outcome. rewrite Hnet, (raise_for_status_passes _ Hst), Hbody.
  simpl. destruct (dict_mem "results" d); reflexivity.
Qed.

Definition empty_geocoding_reply : request -> E response :=
  answering (JObj [("generationtime_ms", JInt 1)]).

Lemma geocode_reply_or_no_results_witness :
  fst (geocode "Atlantis" (fresh_world [] some_day empty_geocoding_reply))
  = inr (JObj [("error", JStr "No results found for the given city")]).
Proof.
  exact (geocode_reply_or_no_results "Atlantis"
           (fresh_world [] some_day empty_geocoding_reply)
           (mkResponse 200 "OK" "" 0 [] (inr (JObj [("generationtime_ms", JInt 1)]))
              (inr empty_soup) "" 0)
           [("generationtime_ms", JInt 1)] eq_refl eq_refl eq_refl).
Defined.

(** X11.  When the reply to get_weather has a status outside 400..599 and a
    body that decodes, get_weather returns the decoded body unchanged,
    whatever JSON value it is. *)
Theorem get_weather_returns_the_reply (la lo : pyfloat) (w : world) (r : response)
    (v : json) :
  network w (plain_request (weather_url la lo)) = inr r ->
  (400 <=? status_code r) && (status_code r <? 600) = false ->
  json_body r = inr v ->
  fst (get_weather la lo w) = inr v.
Proof.
  intros Hnet Hst Hbody. rewrite get_weather_run. simpl fst.
  unfold weather_outcome. rewrite Hnet, (raise_for_status_passes _ Hst). simpl.
  rewrite Hbody. reflexivity.
Qed.

Definition paris_lat : pyfloat := {| float_repr := "48.85"; float_is_zero := false |}.
Definition paris_lon : pyfloat := {| float_repr := "2.35"; float_is_zero := false |}.

Lemma get_weather_returns_the_reply_witness :
  fst (get_weather paris_lat paris_lon
         (fresh_world [] some_day (answering (JArr [JInt 1; JNull]))))
  = inr (JArr [JInt 1; JNull]).
Proof.
  exact (get_weather_returns_the_reply paris_lat paris_lon
           (fresh_world [] some_day (answering (JArr [JInt 1; JNull])))
           (mkResponse 200 "OK" "" 0 [] (inr (JArr [JInt 1; JNull])) (inr empty_soup) "" 0)
           (JArr [JInt 1; JNull]) eq_refl eq_refl eq_refl).
Defined.

Lemma raise_for_status_HTTPError (r : response) :
  (400 <=? status_code r) && (status_code r <? 600) = true ->
  exists msg, raise_for_status r = inl (mkExn HTTPError msg).
Proof.
  intros H. destruct (raise_for_status_raises r H) as (e & He).
  unfold raise_for_status in *.
  destruct ((400 <=? status_code r) && (status_code r <? 500)); [eexists; reflexivity |].
  destruct ((500 <=? status_code r) && (status_code r <? 600)); [eexists; reflexivity |].
  discriminate He.
Qed.

(** X12.  geocode and get_weather tell an HTTP error apart from any other
    failure: a 4xx or 5xx status gives {"error": "HTTP error occurred: ..."},
    and an exception of requests.get that is no HTTPError gives
    {"error": "Other error occurred: ..."} with the exception's text. *)
Theorem open_meteo_error_kinds (c : tool_call) (w : world) (req : request) :
  open_meteo c = true ->
  In req (new_requests w (snd (invoke c w))) ->
  match network w req with
  | inl e =>
      is_HTTPError e = false ->
      fst (invoke c w) = inr (JObj [("error", JStr ("Other error occurred: " ++ exn_msg e))])
  | inr r =>
      (400 <=? status_code r) && (status_code r <? 600) = true ->
      exists msg,
        fst (invoke c w) = inr (JObj [("error", JStr ("HTTP error occurred: " ++ msg))])
  end.
Proof.
  intros Hom Hin. rewrite new_requests_of_invoke in Hin.
  destruct c; simpl in Hom; try discriminate Hom; simpl in Hin;
    destruct Hin as [<- | []]; simpl invoke.
  - rewrite geocode_run. simpl fst. unfold geocode_outcome.
    destruct (network w (plain_request (geocode_url city_name))) as [e | r].
    + intros He. unfold open_meteo_handler. rewrite He. reflexivity.
    + intros Hst.
      destruct (raise_for_status_HTTPError r Hst) as (msg & ->).
      exists msg. reflexivity.
  - rewrite get_weather_run. simpl fst. unfold weather_outcome.
    destruct (network w (plain_request (weather_url latitude longitude))) as [e | r].
    + intros He. unfold open_meteo_handler. rewrite He. reflexivity.
    + intros Hst.
      destruct (raise_for_status_HTTPError r Hst) as (msg & ->).
      exists msg. reflexivity.
Qed.

Lemma open_meteo_error_kinds_witness :
  fst (invoke (Geocode "Paris") (fresh_world [] some_day refusing))
  = inr (JObj [("error", JStr "Other error occurred: connection refused")]).
Proof.
  exact (open_meteo_error_kinds (Geocode "Paris") (fresh_world [] some_day refusing)
           (plain_request (geocode_url "Paris")) eq_refl (or_introl eq_refl) eq_refl).
Defined.

(** ** How the SerpAPI tools report a failure *)

Lemma serp_run_at_reply (c : tool_call) (w : world) (req : request) :
  needs_serpapi_key c = true ->
  In req (new_requests w (snd (invoke c w))) ->
  fst (invoke c w)
  = match network w req with
    | inl e => fst (serp_handlers (tool_what c) e w)
    | inr r =>
        if negb (status_code r =? 200) then inr (serp_failed r)
        else match bindE (json_body r) (tool_process c) with
             | inl e => fst (serp_handlers (tool_what c) e w)
             | inr v => inr v
             end
    end.
Proof.
  intros Hk Hin.
  rewrite new_requests_of_invoke, (requests_of_serp c w Hk) in Hin.
  rewrite (invoke_serp c w Hk). unfold serp_run.
  unfold reaches_network in Hin.
  destruct (missing (env_lookup "SERPAPI_API_KEY" (os_environ w))); [contradiction |].
  simpl negb in Hin. simpl andb in Hin.
  destruct (tool_precheck c (clock_today w)); [contradiction |].
  destruct Hin as [<- | []]. unfold serp_request.
  match goal with |- context [network w ?rq] => destruct (network w rq) as [e | r] end.
  - apply serp_handlers_fst.
  - destruct (negb (status_code r =? 200)); [reflexivity |].
    destruct (bindE (json_body r) (tool_process c)); [apply serp_handlers_fst | reflexivity].
Qed.

(** X13.  When the reply to a SerpAPI tool has a status other than 200, the
    tool returns the error "SerpAPI request failed with status code N: body"
    with the status and the text of the reply, and does not look at the
    body any further. *)
Theorem non_200_is_reported (c : tool_call) (w : world) (req : request) (r : response) :
  needs_serpapi_key c = true ->
  In req (new_requests w (snd (invoke c w))) ->
  network w req = inr r ->
  status_code r <> 200 ->
  fst (invoke c w)
  = inr (error_dict ("SerpAPI request failed with status code "
                     ++ Str.of_Z (status_code r) ++ ": " ++ text r)).
Proof.
  intros Hk Hin Hnet Hst. rewrite (serp_run_at_reply c w req Hk Hin), Hnet.
  apply Z.eqb_neq in Hst. rewrite Hst. reflexivity.
Qed.

Definition rate_limited : response :=
  mkResponse 429 "Too Many Requests" "slow down" 9 [] (inr (JObj [])) (inr empty_soup) "" 0.

Lemma non_200_is_reported_witness :
  fst (invoke a_scholar_call (fresh_world serp_env some_day (fun _ => inr rate_limited)))
  = inr (error_dict "SerpAPI request failed with status code 429: slow down").
Proof.
  refine (non_200_is_reported a_scholar_call
            (fresh_world serp_env some_day (fun _ => inr rate_limited))
            a_scholar_request rate_limited eq_refl _ eq_refl _).
  - left. reflexivity.
  - discriminate.
Defined.

(** X14.  The except clauses of a SerpAPI tool are tried in their order.  A
    body that fails to decode with the JSONDecodeError of requests, which is
    a RequestException, is reported as "Network error occurred: ..."; the
    message "Failed to parse the search results." is given for a
    json.JSONDecodeError that is no RequestException. *)
Theorem decode_failure_report (c : tool_call) (w : world) (req : request) (r : response)
    (e : exn) :
  needs_serpapi_key c = true ->
  In req (new_requests w (snd (invoke c w))) ->
  network w req = inr r ->
  status_code r = 200 ->
  json_body r = inl e ->
  (exn_class_of e = RequestsJSONDecodeError ->
   fst (invoke c w) = inr (error_dict ("Network error occurred: " ++ exn_msg e)))
  /\ (exn_class_of e = JSONDecodeError ->
      fst (invoke c w) = inr (error_dict "Failed to parse the search results.")).
Proof.
  intros Hk Hin Hnet Hst Hbody.
  rewrite (serp_run_at_reply c w req Hk Hin), Hnet, Hst, Hbody. simpl.
  unfold serp_handlers, is_RequestException, is_JSONDecodeError.
  split; intros ->; reflexivity.
Qed.

Definition not_json : response :=
  mkResponse 200 "OK" "<html>" 6 []
    (inl (mkExn RequestsJSONDecodeError "Expecting value: line 1 column 1 (char 0)"))
    (inr empty_soup) "" 0.

Lemma decode_failure_report_witness :
  fst (invoke a_scholar_call (fresh_world serp_env some_day (fun _ => inr not_json)))
  = inr (error_dict
           "Network error occurred: Expecting value: line 1 column 1 (char 0)").
Proof.
  refine (proj1 (decode_failure_report a_scholar_call
                   (fresh_world serp_env some_day (fun _ => inr not_json))
                   a_scholar_request not_json _ eq_refl _ eq_refl eq_refl eq_refl)
                eq_refl).
  left. reflexivity.
Defined.

(** ** The chat loop: what the history is made of *)

(** The input items a list of run items adds to the history. *)
Definition kept (items : list run_item) : list json :=
  flat_map (fun item => match to_input_item item with
                        | Some j => if truthy j then [j] else []
                        | None => []
                        end) items.

(** The run items of a stream, in order. *)
Definition run_items (events : list stream_event) : list run_item :=
  flat_map (fun ev => match ev with RunItem item => [item] | _ => [] end) events.

Lemma extend_conversation_appends (conversation : list json) (items : list run_item) :
  extend_conversation conversation items = (conversation ++ kept items)%list.
Proof.
  revert conversation. induction items as [| item items IH]; intros conv; simpl.
  - rewrite app_nil_r. reflexivity.
  - destruct (to_input_item item) as [j |]; [| apply IH].
    destruct (truthy j); [| apply IH].
    rewrite IH, <- app_assoc. reflexivity.
Qed.

Lemma consume_collects (events : list stream_event) (acc : list run_item)
    (m : string) (items : list run_item) (m' : string) :
  consume events acc m = inr (items, m') -> items = (acc ++ run_items events)%list.
Proof.
  revert acc m. induction events as [| ev events IH]; intros acc m H; simpl in H.
  - inversion H. rewrite app_nil_r. reflexivity.
  - destruct ev as [| name | item | | e]; simpl; try (apply IH in H; exact H).
    + destruct (String.eqb (item_type item) "tool_call_item").
      * apply bindE_inr in H as (u & _ & H). apply IH in H.
        rewrite H, <- app_assoc. reflexivity.
      * destruct (String.eqb (item_type item) "tool_call_output_item");
          [| destruct (String.eqb (item_type item) "message_output_item")];
          apply IH in H; rewrite H, <- app_assoc; reflexivity.
    + discriminate H.
Qed.

(** X15.  The conversation only grows: whatever the runtime streams and
    however the loop ends, the history at the end starts with the history
    the loop had before, in the same order. *)
Theorem conversation_only_grows (run : runner) (stdin : list string) (runs : nat)
    (conversation : list json) (log : list io_event) :
  exists added,
    conversation_at_end (chat_loop run stdin runs conversation log)
    = (conversation ++ added)%list.
Proof.
  revert runs conversation log.
  induction stdin as [| line rest IH]; intros runs conv log; simpl.
  - exists []. rewrite app_nil_r. reflexivity.
  - destruct (String.eqb (Str.lower line) "exit").
    + exists []. rewrite app_nil_r. reflexivity.
    + match goal with |- context [consume ?evs [] ""] =>
        destruct (consume evs [] "") as [e | [items msg]]
      end.
      * exists []. rewrite app_nil_r. reflexivity.
      * destruct (IH (S runs) (extend_conversation conv items)
                     ((log ++ [Prompt (Some line)]) ++
                      [Forward match conv with
                               | [] => InputText line
                               | _ :: _ => InputItems (conv ++ [user_message line])
                               end])%list) as (added & Hadded).
        rewrite Hadded, extend_conversation_appends, <- app_assoc.
        eexists. reflexivity.
Qed.

(** An item of the history came from the runtime: it is what to_input_item
    gave for a run item of some stream, and it is not falsy. *)
Definition from_runtime (run : runner) (j : json) : Prop :=
  truthy j = true
  /\ exists n input item,
       In (RunItem item) (run n input) /\ to_input_item item = Some j.

Lemma kept_from_runtime (run : runner) (n : nat) (input : agent_input)
    (items : list run_item) (m : string) :
  consume (run n input) [] "" = inr (items, m) ->
  Forall (from_runtime run) (kept items).
Proof.
  intros H. apply consume_collects in H. simpl in H. subst items.
  apply Forall_forall. intros j Hj. unfold kept in Hj.
  apply in_flat_map in Hj as (item & Hitem & Hj).
  unfold run_items in Hitem. apply in_flat_map in Hitem as (ev & Hev & Hitem).
  destruct ev; simpl in Hitem; try contradiction. destruct Hitem as [-> | []].
  destruct (to_input_item item) as [j' |] eqn:Ej; [| contradiction].
  destruct (truthy j') eqn:Et; [| contradiction].
  destruct Hj as [-> | []]. split; [exact Et |].
  exists n, input, item. split; assumption.
Qed.

Lemma chat_loop_from_runtime (run : runner) (stdin : list string) :
  forall runs conversation log,
    Forall (from_runtime run) conversation ->
    Forall (from_runtime run)
           (conversation_at_end (chat_loop run stdin runs conversation log)).
Proof.
  induction stdin as [| line rest IH]; intros runs conv log Hconv; simpl.
  - exact Hconv.
  - destruct (String.eqb (Str.lower line) "exit"); [exact Hconv |].
    match goal with |- context [consume ?evs [] ""] =>
      destruct (consume evs [] "") as [e | [items msg]] eqn:Ec
    end; [exact Hconv |].
    apply IH. rewrite extend_conversation_appends. apply Forall_app. split.
    + exact Hconv.
    + eapply kept_from_runtime. exact Ec.
Qed.

(** X16.  Everything in the conversation history came from the runtime:
    each item is the non-falsy to_input_item() of a run item that some run
    streamed.  The loop itself stores nothing, the user's lines included. *)
Theorem history_holds_runtime_items_only (run : runner) (stdin : list string) :
  Forall (from_runtime run) (conversation_at_end (chat_with_agent run stdin)).
Proof.
  unfold chat_with_agent. apply chat_loop_from_runtime. constructor.
Qed.

(** ** The chat loop: running out of input *)

Lemma chat_loop_until_eof (run : runner) :
  completes run ->
  forall stdin runs conversation log,
    Forall (fun l => is_exit l = false) stdin ->
    let o := chat_loop run stdin runs conversation log in
    how o = Raised (mkExn EOFError "EOF when reading a line")
    /\ prompts (io_log o) = (prompts log ++ List.map Some stdin ++ [None])%list
    /\ forwards (io_log o) = (forwards log + length stdin)%nat.
Proof.
  intros Hrun. induction stdin as [| l stdin IH]; intros runs conv log Hall.
  - simpl. rewrite prompts_app, forwards_app. simpl.
    split; [reflexivity |]. split; reflexivity.
  - inversion Hall as [| ? ? Hl Hrest]; subst.
    cbn [chat_loop]. unfold is_exit in Hl. rewrite Hl.
    match goal with |- context [consume (run runs ?inp) [] ""] =>
      destruct (Hrun runs inp) as (items & msg & ->)
    end.
    specialize (IH (S runs) (extend_conversation conv items)
                   ((log ++ [Prompt (Some l)]) ++
                    [Forward match conv with
                             | [] => InputText l
                             | _ :: _ => InputItems (conv ++ [user_message l])
                             end])%list Hrest).
    cbv zeta in IH. destruct IH as (H1 & H2 & H3).
    split; [exact H1 |]. split.
    + rewrite H2. rewrite !prompts_app. simpl. rewrite <- !app_assoc. reflexivity.
    + rewrite H3. rewrite !forwards_app. unfold forwards at 2 3. simpl. lia.
Qed.

(** X17.  When standard input ends without an exit line and the runtime
    completes every turn, each line starts one run, the loop asks once more,
    and that last input() raises EOFError, which nothing catches. *)
Theorem end_of_input_raises (run : runner) (stdin : list string) :
  completes run ->
  Forall (fun l => is_exit l = false) stdin ->
  let o := chat_with_agent run stdin in
  how o = Raised (mkExn EOFError "EOF when reading a line")
  /\ prompts (io_log o) = (List.map Some stdin ++ [None])%list
  /\ forwards (io_log o) = length stdin.
Proof.
  intros Hrun Hall. unfold chat_with_agent.
  exact (chat_loop_until_eof run Hrun stdin 0%nat [] [] Hall).
Qed.

Lemma end_of_input_raises_witness :
  let o := chat_with_agent silent_runner ["hi"; "exit now"] in
  how o = Raised (mkExn EOFError "EOF when reading a line")
  /\ prompts (io_log o) = [Some "hi"; Some "exit now"; None]
  /\ forwards (io_log o) = 2%nat.
Proof.
  apply (end_of_input_raises silent_runner ["hi"; "exit now"]).
  - intros n input. exists [], "". reflexivity.
  - repeat constructor.
Defined.


(** ** youtube_search: the video id *)

Lemma str_app_nil_r (s : string) : s ++ "" = s.
Proof. induction s as [| c s IH]; simpl; [reflexivity | rewrite IH; reflexivity]. Qed.

Lemma str_app_assoc (a b c : string) : (a ++ b) ++ c = a ++ (b ++ c).
Proof. induction a as [| x a IH]; simpl; [reflexivity | rewrite IH; reflexivity]. Qed.

Lemma split_go_step (sep : string) (c : ascii) (s cur : string) :
  Str.split_go sep 0 (String c s) cur
  = if String.prefix sep (String c s)
    then cur :: Str.split_go sep (String.length sep - 1) s ""
    else Str.split_go sep 0 s (cur ++ String c "").
Proof. reflexivity. Qed.

Lemma prefix_self (s t : string) : String.prefix s (s ++ t) = true.
Proof.
  induction s as [| x s IH]; [destruct t; reflexivity |].
  simpl. destruct (ascii_dec x x) as [_ | n]; [exact IH | contradiction n; reflexivity].
Qed.

(** No occurrence of [sep] starts inside [s] when [s] is followed by [rest]. *)
Fixpoint free_of (sep s rest : string) : bool :=
  match s with
  | EmptyString => true
  | String c s' => negb (String.prefix sep (s ++ rest)) && free_of sep s' rest
  end.

Lemma split_go_free (sep rest : string) :
  forall s cur,
    free_of sep s rest = true ->
    Str.split_go sep 0 (s ++ rest) cur = Str.split_go sep 0 rest (cur ++ s).
Proof.
  induction s as [| c s IH]; intros cur H.
  - simpl. rewrite str_app_nil_r. reflexivity.
  - cbn [free_of] in H. apply andb_true_iff in H as (Hp & Hs).
    apply negb_true_iff in Hp.
    change (String c s ++ rest) with (String c (s ++ rest)) in *.
    rewrite split_go_step, Hp, (IH _ Hs), str_app_assoc. reflexivity.
Qed.

Lemma split_go_head (sep : string) :
  forall s k cur, exists x, nth 0 (Str.split_go sep k s cur) "" = cur ++ x.
Proof.
  induction s as [| c s IH]; intros k cur.
  - exists "". simpl. rewrite str_app_nil_r. reflexivity.
  - destruct k as [| k]; [| apply IH].
    rewrite split_go_step. destruct (String.prefix sep (String c s)).
    + exists "". simpl. rewrite str_app_nil_r. reflexivity.
    + destruct (IH 0%nat (cur ++ String c "")) as (x & Hx).
      exists (String c x). rewrite Hx, str_app_assoc. reflexivity.
Qed.

Lemma prefix_cons (a : ascii) (s1 : string) (b : ascii) (s2 : string) :
  String.prefix (String a s1) (String b s2)
  = if ascii_dec a b then String.prefix s1 s2 else false.
Proof. reflexivity. Qed.

Lemma prefix_nil (s : string) : String.prefix "" s = true.
Proof. destruct s; reflexivity. Qed.

Lemma contains_cons (sep : string) (c : ascii) (s : string) :
  Str.contains sep (String c s) = String.prefix sep (String c s) || Str.contains sep s.
Proof. reflexivity. Qed.

(** The separator "v=" does not start inside [s] when [s] holds no "v=" and
    what follows [s] does not begin with "=". *)
Lemma free_of_v (s rest : string) :
  Str.contains "v=" s = false ->
  (forall r, rest <> String "=" r) ->
  free_of "v=" s rest = true.
Proof.
  intros Hs Hrest. induction s as [| c s IH]; [reflexivity |].
  rewrite contains_cons in Hs. apply orb_false_iff in Hs as (Hp & Hs).
  cbn [free_of]. rewrite (IH Hs), andb_true_r. apply negb_true_iff.
  change (String c s ++ rest) with (String c (s ++ rest)).
  rewrite prefix_cons in *. destruct (ascii_dec "v" c) as [_ | _]; [| reflexivity].
  destruct s as [| c2 s].
  - change ("" ++ rest) with rest. destruct rest as [| c3 r]; [reflexivity |].
    rewrite prefix_cons. destruct (ascii_dec "=" c3) as [<- | _]; [| reflexivity].
    exfalso. eapply Hrest. reflexivity.
  - change (String c2 s ++ rest) with (String c2 (s ++ rest)).
    rewrite prefix_cons in *. destruct (ascii_dec "=" c2); [| reflexivity].
    rewrite prefix_nil in Hp. discriminate Hp.
Qed.

(** The same for the one-character separator "&". *)
Lemma free_of_amp (s rest : string) :
  Str.contains "&" s = false -> free_of "&" s rest = true.
Proof.
  intros Hs. induction s as [| c s IH]; [reflexivity |].
  rewrite contains_cons in Hs. apply orb_false_iff in Hs as (Hp & Hs).
  cbn [free_of]. rewrite (IH Hs), andb_true_r. apply negb_true_iff.
  change (String c s ++ rest) with (String c (s ++ rest)).
  rewrite prefix_cons in *. destruct (ascii_dec "&" c); [| reflexivity].
  rewrite prefix_nil in Hp. discriminate Hp.
Qed.

Lemma contains_after (sep pre tail : string) :
  Str.contains sep (pre ++ sep ++ tail) = true.
Proof.
  induction pre as [| c pre IH].
  - change ("" ++ sep ++ tail) with (sep ++ tail).
    destruct sep as [| a sep]; [destruct tail; reflexivity |].
    change (String a sep ++ tail) with (String a (sep ++ tail)).
    rewrite contains_cons.
    change (String a (sep ++ tail)) with (String a sep ++ tail).
    rewrite prefix_self. reflexivity.
  - change (String c pre ++ sep ++ tail) with (String c (pre ++ sep ++ tail)).
    rewrite contains_cons, IH. apply orb_true_r.
Qed.

(** A link [pre v= id rest] where "v=" first occurs after [pre], [id] holds
    no "&" and no "v=", and [rest] is empty or begins with "&". *)
Lemma video_id_of_link (pre id rest : string) :
  Str.contains "v=" pre = false ->
  Str.contains "v=" id = false ->
  Str.contains "&" id = false ->
  (rest = "" \/ exists more, rest = "&" ++ more) ->
  video_id_of (JStr (pre ++ "v=" ++ id ++ rest)) = inr (JStr id).
Proof.
  intros Hpre Hid Hamp Hrest. unfold video_id_of, retE. do 2 f_equal.
  unfold Str.split.
  rewrite (split_go_free "v=" ("v=" ++ id ++ rest) pre "").
  2:{ apply free_of_v; [exact Hpre | intros r Hr; discriminate Hr]. }
  change ("" ++ pre) with pre.
  change ("v=" ++ id ++ rest) with (String "v" (String "=" (id ++ rest))).
  rewrite split_go_step.
  change (String "v" (String "=" (id ++ rest))) with ("v=" ++ id ++ rest) at 1.
  rewrite (prefix_self "v=" (id ++ rest)). change (String.length "v=" - 1)%nat with 1%nat.
  change (Str.split_go "v=" 1 (String "=" (id ++ rest)) "")
    with (Str.split_go "v=" 0 (id ++ rest) "").
  change (nth 1 (pre :: Str.split_go "v=" 0 (id ++ rest) "") "")
    with (nth 0 (Str.split_go "v=" 0 (id ++ rest) "") "").
  assert (Hfree : free_of "v=" id rest = true).
  { apply free_of_v; [exact Hid |].
    intros r Hr. destruct Hrest as [-> | (more & ->)]; discriminate Hr. }
  rewrite (split_go_free "v=" rest id "" Hfree). change ("" ++ id) with id.
  destruct Hrest as [-> | (more & ->)].
  - change (nth 0 (Str.split_go "v=" 0 "" id) "") with id.
    rewrite <- (str_app_nil_r id) at 1.
    rewrite (split_go_free "&" "" id "" (free_of_amp id "" Hamp)). reflexivity.
  - change ("&" ++ more) with (String "&" more). rewrite split_go_step.
    change (String.prefix "v=" (String "&" more)) with false. cbv iota.
    destruct (split_go_head "v=" more 0%nat (id ++ "&")) as (x & ->).
    rewrite str_app_assoc.
    rewrite (split_go_free "&" ("&" ++ x) id "" (free_of_amp id _ Hamp)).
    change ("&" ++ x) with (String "&" x). rewrite split_go_step.
    change (String "&" x) with ("&" ++ x). rewrite prefix_self. reflexivity.
Qed.

(** X18.  For a video whose link is [pre v= id rest], where "v=" first
    occurs after [pre], [id] holds neither "&" nor "v=" and [rest] is empty
    or begins with "&", the row youtube_search builds has video_id = id. *)
Theorem video_id_is_the_v_parameter (d : dict) (pre id rest : string) (v : json) :
  dict_get "link" d = Some (JStr (pre ++ "v=" ++ id ++ rest)) ->
  Str.contains "v=" pre = false ->
  Str.contains "v=" id = false ->
  Str.contains "&" id = false ->
  (rest = "" \/ exists more, rest = "&" ++ more) ->
  video_row (JObj d) = inr v ->
  field "video_id" v = Some (JStr id).
Proof.
  intros Hlink Hpre Hid Hamp Hrest H. unfold video_row in H.
  do 10 (let x := fresh "x" in let Hx := fresh "Hx" in
         apply bindE_inr in H as (x & Hx & H)).
  apply bindE_inr in H as (has_link & Hhas & H).
  simpl in Hhas. unfold dict_mem in Hhas. rewrite Hlink in Hhas.
  inversion Hhas; subst has_link.
  apply bindE_inr in H as (l & Hl & H).
  cbn [py_getitem] in Hl. rewrite Hlink in Hl. injection Hl as <-.
  change (pre ++ String "v" (String "=" (id ++ rest)))
    with (pre ++ "v=" ++ id ++ rest) in H.
  apply bindE_inr in H as (has_v & Hv & H).
  cbn [py_in] in Hv. rewrite contains_after in Hv. inversion Hv; subst has_v.
  rewrite (video_id_of_link pre id rest Hpre Hid Hamp Hrest) in H.
  simpl in H. injection H as <-. reflexivity.
Qed.

Lemma video_id_is_the_v_parameter_witness :
  let link := "https://www.youtube.com/watch?" ++ "v=" ++ "dQw4w9WgXcQ" ++ "&t=42s" in
  exists v,
    video_row (JObj [("title", JStr "a video"); ("link", JStr link)]) = inr v
    /\ field "video_id" v = Some (JStr "dQw4w9WgXcQ").
Proof.
  cbv zeta. eexists. split; [vm_compute; reflexivity |].
  refine (video_id_is_the_v_parameter
            [("title", JStr "a video");
             ("link", JStr ("https://www.youtube.com/watch?" ++ "v=" ++ "dQw4w9WgXcQ"
                            ++ "&t=42s"))]
            "https://www.youtube.com/watch?" "dQw4w9WgXcQ" "&t=42s" _
            eq_refl eq_refl eq_refl eq_refl _ _).
  - right. exists "t=42s". reflexivity.
  - vm_compute. reflexivity.
Defined.

(** ** The filters of web_search and scholar_search *)

Lemma web_search_params_tbs (q key : string) (n : Z) (t : string) :
  dict_get "tbs" (web_search_params q key n t)
  = option_map (fun code => JStr ("qdr:" ++ code)) (env_lookup t time_map).
Proof.
  unfold web_search_params. destruct (Str.nonempty t) eqn:Et.
  - destruct (env_lookup t time_map); reflexivity.
  - destruct t; [reflexivity | discriminate Et].
Qed.

(** X19.  The tbs parameter of web_search is qdr:d, qdr:w, qdr:m or qdr:y
    for "past_day", "past_week", "past_month", "past_year" (the last one
    also when time_period is None); for any other text, the empty string
    included, no tbs is sent. *)
Theorem web_search_time_filter (q : string) (n : option Z) (i : option bool)
    (t : option string) (w : world) (req : request) :
  In req (new_requests w (snd (invoke (WebSearch q n i t) w))) ->
  dict_get "tbs" (req_params req)
  = option_map (fun code => JStr ("qdr:" ++ code))
      (env_lookup (or_default t "past_year") time_map).
Proof.
  intros Hin.
  destruct (serp_request_sent (WebSearch q n i t) w req eq_refl Hin) as (key & _ & _ & ->).
  apply web_search_params_tbs.
Qed.

Definition an_unfiltered_request : request :=
  mkRequest serp_base_url
    [("q", JStr "rocq"); ("api_key", JStr "k"); ("num", JInt 10); ("safe", JStr "active");
     ("gl", JStr "us"); ("hl", JStr "en")]
    [] None.

Lemma web_search_time_filter_witness :
  In an_unfiltered_request
     (new_requests a_key_and_silence
        (snd (invoke (WebSearch "rocq" None None (Some "last_decade")) a_key_and_silence)))
  /\ dict_get "tbs" (req_params an_unfiltered_request) = None.
Proof.
  assert (H : In an_unfiltered_request
                 (new_requests a_key_and_silence
                    (snd (invoke (WebSearch "rocq" None None (Some "last_decade"))
                            a_key_and_silence))))
    by (left; reflexivity).
  split; [exact H |].
  exact (web_search_time_filter "rocq" None None (Some "last_decade") a_key_and_silence
           an_unfiltered_request H).
Defined.

Lemma scholar_params_filters (q key : string) (n : Z) (s : string) (p a : option string) :
  let params := scholar_params q key n s p a in
  dict_get "as_user" params
  = match a with
    | Some author => if Str.nonempty author then Some (JStr author) else None
    | None => None
    end
  /\ dict_get "as_sdt" params = (if String.eqb s "date" then Some (JStr "0,5") else None)
  /\ dict_get "as_ylo" params
     = match p with
       | Some since => option_map JStr (env_lookup since scholar_date_filters)
       | None => None
       end.
Proof.
  cbv zeta. unfold scholar_params.
  assert (Hp : forall d : dict,
             match p with
             | Some since =>
                 if Str.nonempty since then
                   match env_lookup since scholar_date_filters with
                   | Some y => dict_set "as_ylo" (JStr y) d
                   | None => d
                   end
                 else d
             | None => d
             end
             = match (match p with
                      | Some since => env_lookup since scholar_date_filters
                      | None => None
                      end) with
               | Some y => dict_set "as_ylo" (JStr y) d
               | None => d
               end).
  { intros d. destruct p as [[| c since] |]; reflexivity. }
  rewrite Hp.
  replace (match p with
           | Some since => option_map JStr (env_lookup since scholar_date_filters)
           | None => None
           end)
    with (option_map JStr (match p with
                           | Some since => env_lookup since scholar_date_filters
                           | None => None
                           end))
    by (destruct p; reflexivity).
  set (year := match p with
               | Some since => env_lookup since scholar_date_filters
               | None => None
               end).
  destruct a as [[| c author] |]; destruct (String.eqb s "date"); destruct year;
    repeat split; reflexivity.
Qed.

(** X20.  The request of scholar_search carries as_user only for an author
    that is given and not empty, as_sdt = "0,5" only when sort_by is "date",
    and as_ylo only for a publication_date of the tool's table, with the
    year the table gives. *)
Theorem scholar_request_filters (q : string) (n : Z) (s : string) (p a : option string)
    (w : world) (req : request) :
  In req (new_requests w (snd (invoke (ScholarSearch q n s p a) w))) ->
  dict_get "as_user" (req_params req)
  = match a with
    | Some author => if Str.nonempty author then Some (JStr author) else None
    | None => None
    end
  /\ dict_get "as_sdt" (req_params req)
     = (if String.eqb s "date" then Some (JStr "0,5") else None)
  /\ dict_get "as_ylo" (req_params req)
     = match p with
       | Some since => option_map JStr (env_lookup since scholar_date_filters)
       | None => None
       end.
Proof.
  intros Hin.
  destruct (serp_request_sent (ScholarSearch q n s p a) w req eq_refl Hin)
    as (key & _ & _ & ->).
  apply scholar_params_filters.
Qed.

Lemma scholar_request_filters_witness :
  dict_get "as_user" (req_params a_scholar_request) = None
  /\ dict_get "as_sdt" (req_params a_scholar_request) = Some (JStr "0,5")
  /\ dict_get "as_ylo" (req_params a_scholar_request) = Some (JStr "2020").
Proof.
  exact (scholar_request_filters "coq" 50 "date" (Some "since_2020") None
           a_key_and_silence a_scholar_request a_scholar_request_sent).
Defined.

(** ** google_flights_search: dates on the boundary *)

Lemma date_ltb_irrefl (d : date) : date_ltb d d = false.
Proof.
  unfold date_ltb. rewrite !Z.ltb_irrefl, !Z.eqb_refl. reflexivity.
Qed.

(** X21.  The date checks are strict comparisons.  With the key set, a
    departure that strptime reads as today's date is not in the past, and a
    return it reads as the day of departure is not before it: one-way or
    with that return, the call is not turned down and sends its one
    request.  The statement is for every parser. *)
Theorem same_day_dates_pass
    (to_upper : string -> string) (parse_date : string -> E date)
    (o d dd rd : string) (ad ch inf : Z) (st : option string)
    (fc : string) (mp : option Z) (cur : string) (al : option (list string))
    (w : world) :
  missing (env_lookup "SERPAPI_API_KEY" (os_environ w)) = false ->
  parse_date dd = inr (clock_today w) ->
  parse_date rd = inr (clock_today w) ->
  (exists req,
     sent (snd (google_flights_search_with to_upper parse_date
                  o d dd (Some rd) ad ch inf st fc mp cur al w))
     = (sent w ++ [req])%list)
  /\ (exists req,
        sent (snd (google_flights_search_with to_upper parse_date
                     o d dd None ad ch inf st fc mp cur al w))
        = (sent w ++ [req])%list).
Proof.
  intros Hkey Hdd Hrd.
  assert (Hgo : forall given, given = Some rd \/ given = None ->
            exists req,
              sent (snd (google_flights_search_with to_upper parse_date
                           o d dd given ad ch inf st fc mp cur al w))
              = (sent w ++ [req])%list).
  { intros given Hg. rewrite google_flights_search_with_run.
    destruct (serp_run_shape "flight search" "flight search"
                (date_verdict_with parse_date dd given)
                (fun key => flights_params_with to_upper key o d dd given ad ch inf st fc
                              mp cur al)
                (flights_result_with to_upper o d dd given)
                (date_verdict_with_error parse_date dd given) w)
      as (v & Heq & _).
    rewrite Heq. simpl sent. unfold reaches_network. rewrite Hkey.
    assert (Hv : date_verdict_with parse_date dd given (clock_today w) = None).
    { unfold date_verdict_with. rewrite Hdd, date_ltb_irrefl.
      destruct Hg as [-> | ->]; [| reflexivity].
      destruct (Str.nonempty rd); [| reflexivity].
      rewrite Hrd, date_ltb_irrefl. reflexivity. }
    rewrite Hv. simpl. eexists. reflexivity. }
  split; apply Hgo; [left | right]; reflexivity.
Qed.

Lemma same_day_dates_pass_witness :
  (exists req,
     sent (snd (google_flights_search_with Str.upper Strptime.strptime
                  "nyc" "lhr" "2026-01-01" (Some "2026-1-1") 1 0 0 None "economy" None
                  "USD" None a_key_and_silence))
     = (sent a_key_and_silence ++ [req])%list)
  /\ (exists req,
        sent (snd (google_flights_search_with Str.upper Strptime.strptime
                     "nyc" "lhr" "2026-01-01" None 1 0 0 None "economy" None
                     "USD" None a_key_and_silence))
        = (sent a_key_and_silence ++ [req])%list).
Proof.
  exact (same_day_dates_pass Str.upper Strptime.strptime "nyc" "lhr" "2026-01-01"
           "2026-1-1" 1 0 0 None "economy" None "USD" None a_key_and_silence
           eq_refl eq_refl eq_refl).
Defined.

(** ** web_fetch: raw content, extracted text, or a page that cannot be read *)

(** The page is read as HTML: extract_text is set and the Content-Type
    header, whatever its case, mentions text/html. *)
Definition extracts (x : bool) (r : response) : bool :=
  x && Str.contains "text/html" (Str.lower (header_get "Content-Type" (headers r))).

(** X22.  A web_fetch that is answered with status 200 returns a
    dictionary.  When extract_text is true and the Content-Type mentions
    text/html the page is handed to the parser: if the parser raises, the
    result is an error dictionary made by the handlers from the exception;
    otherwise it has status "success", the url, a text_content string, the
    links, and no raw_content.  In every other case it has status
    "success", the url, raw_content equal to the text of the reply, and
    none of title, text_content, meta_tags and links. *)
Theorem web_fetch_raw_or_extracted (url : string) (x : bool) (w : world) (r : response) :
  network w (fetch_request url) = inr r ->
  status_code r = 200 ->
  exists v,
    fst (web_fetch url x w) = inr v
    /\ if extracts x r then
         match html r with
         | inl e =>
             v = error_dict ((if is_RequestException e then "Network error occurred: "
                              else "Error during web fetch: ") ++ exn_msg e)
         | inr page =>
             field "status" v = Some (JStr "success")
             /\ field "url" v = Some (JStr url)
             /\ field "raw_content" v = None
             /\ (exists t, field "text_content" v = Some (JStr t))
             /\ field "links" v = Some (JArr (fetch_links page))
         end
       else
         field "status" v = Some (JStr "success")
         /\ field "url" v = Some (JStr url)
         /\ field "raw_content" v = Some (JStr (text r))
         /\ field "title" v = None
         /\ field "text_content" v = None
         /\ field "meta_tags" v = None
         /\ field "links" v = None.
Proof.
  intros Hnet Hst. rewrite web_fetch_run. simpl fst. eexists. split; [reflexivity |].
  unfold fetch_outcome, fetch_handler. rewrite Hnet, Hst. simpl negb. cbv iota.
  unfold fetch_result, extracts.
  destruct (x && Str.contains "text/html" (Str.lower (header_get "Content-Type" (headers r)))).
  - destruct (html r) as [e | page]; cbn [bindE retE field].
    + destruct (is_RequestException e); reflexivity.
    + split; [repeat (rewrite dict_get_set_other by reflexivity); reflexivity |].
      split; [repeat (rewrite dict_get_set_other by reflexivity); reflexivity |].
      split; [repeat (rewrite dict_get_set_other by reflexivity); reflexivity |].
      split.
      * eexists. rewrite !dict_get_set_other by reflexivity. apply dict_get_set_same.
      * apply dict_get_set_same.
  - cbn [retE field].
    split; [rewrite dict_get_set_other by reflexivity; reflexivity |].
    split; [rewrite dict_get_set_other by reflexivity; reflexivity |].
    split; [apply dict_get_set_same |].
    repeat split; rewrite dict_get_set_other by reflexivity; reflexivity.
Qed.

(** A reply the parser turns down. *)
Definition unreadable_page : response :=
  mkResponse 200 "OK" "<![if" 5 [("Content-Type", "Text/HTML")]
    (inl (mkExn JSONDecodeError "Expecting value"))
    (inl (mkExn OtherException "The markup you provided was rejected by the parser."))
    "https://example.com/" 0.

Lemma web_fetch_raw_or_extracted_witness :
  exists v,
    fst (web_fetch "https://example.com/" true
           (fresh_world [] some_day (fun _ => inr unreadable_page))) = inr v
    /\ v = error_dict
             "Error during web fetch: The markup you provided was rejected by the parser.".
Proof.
  exact (web_fetch_raw_or_extracted "https://example.com/" true
           (fresh_world [] some_day (fun _ => inr unreadable_page)) unreadable_page
           eq_refl eq_refl).
Defined.

(** ** The chat loop: what each run is given *)

(** The input of a run carries the line just read: alone while the history
    is empty, otherwise as the user message that closes the history. *)
Definition carries_line (run : runner) (line : string) (input : agent_input) : Prop :=
  input = InputText line
  \/ exists history,
       history <> []
       /\ Forall (from_runtime run) history
       /\ input = InputItems (history ++ [user_message line]).

(** The log of a sequence of turns: a prompt, then the run it starts. *)
Fixpoint turns_log (turns : list (string * agent_input)) : list io_event :=
  match turns with
  | [] => []
  | (line, input) :: rest => Prompt (Some line) :: Forward input :: turns_log rest
  end.

Lemma chat_loop_turns (run : runner) (stdin : list string) :
  forall runs conversation log,
    Forall (from_runtime run) conversation ->
    exists turns last,
      io_log (chat_loop run stdin runs conversation log)
      = (log ++ turns_log turns ++ last)%list
      /\ Forall (fun t => carries_line run (fst t) (snd t)) turns
      /\ (last = [] \/ exists p, last = [Prompt p])
      /\ List.map fst turns = firstn (length turns) stdin.
Proof.
  induction stdin as [| line rest IH]; intros runs conv log Hconv.
  - exists [], [Prompt None]. simpl. repeat split; [constructor | right; eexists; reflexivity].
  - cbn [chat_loop]. destruct (String.eqb (Str.lower line) "exit").
    + exists [], [Prompt (Some line)]. simpl.
      repeat split; [constructor | right; eexists; reflexivity].
    + set (new_input := match conv with
                        | [] => InputText line
                        | _ :: _ => InputItems (conv ++ [user_message line])
                        end).
      assert (Hcarries : carries_line run line new_input).
      { unfold new_input. destruct conv as [| j conv]; [left; reflexivity |].
        right. exists (j :: conv). split; [discriminate |]. split; [exact Hconv | reflexivity]. }
      destruct (consume (run runs new_input) [] "") as [e | [items msg]] eqn:Ec.
      * exists [(line, new_input)], []. simpl. rewrite <- app_assoc. simpl.
        repeat split; [constructor; [exact Hcarries | constructor] | left; reflexivity].
      * assert (Hconv' : Forall (from_runtime run) (extend_conversation conv items)).
        { rewrite extend_conversation_appends. apply Forall_app. split; [exact Hconv |].
          eapply kept_from_runtime. exact Ec. }
        destruct (IH (S runs) (extend_conversation conv items)
                     ((log ++ [Prompt (Some line)]) ++ [Forward new_input])%list Hconv')
          as (turns & last & Hlog & Hturns & Hlast & Hlines).
        exists ((line, new_input) :: turns), last.
        split; [rewrite Hlog, <- !app_assoc; reflexivity |].
        split; [constructor; assumption |].
        split; [exact Hlast |].
        simpl. rewrite Hlines. reflexivity.
Qed.

(** X23.  The log of a chat is a sequence of turns, one for each line read
    in order, each a prompt followed by the run it starts, and then at most
    one last prompt.  The input of every run carries the line of its turn:
    the bare text while the history is empty, otherwise the history, made
    of runtime items, closed by the user message of that line. *)
Theorem every_run_gets_the_current_line (run : runner) (stdin : list string) :
  exists turns last,
    io_log (chat_with_agent run stdin) = (turns_log turns ++ last)%list
    /\ Forall (fun t => carries_line run (fst t) (snd t)) turns
    /\ (last = [] \/ exists p, last = [Prompt p])
    /\ List.map fst turns = firstn (length turns) stdin.
Proof.
  unfold chat_with_agent.
  destruct (chat_loop_turns run stdin 0%nat [] [] (Forall_nil _))
    as (turns & last & Hlog & H).
  exists turns, last. split; [exact Hlog | exact H].
Qed.
